(** * PIT64 timer driver (drivers/clocksource/timer-microchip-pit64.c)

    A shallow embedding of the two driver variants contained in the file,
    the legacy one ([pit64_*], [AT91_*] constants) and the current one
    ([mchp_pit64_*], [MCHP_*] constants), and the properties of the
    prescaler solver, the register protocol, the clockevent callbacks, the
    interrupt handler and the device-tree init path.

    Integers are [Z] with the C wrap-around written out.  The driver is
    built for the 32-bit ARM SAMA7 (arch/arm/mach-at91), so [unsigned long]
    is 32 bits wide.  Kernel services the driver calls (clk, of, irq,
    allocation, MMIO accessors) are not part of the file; they are modelled
    as primitives that append an event to a trace and take their answer
    from an environment.  [pr_err] diagnostics are not modelled. *)

From Stdlib Require Import ZArith Lia List.
From stdpp Require Import gmap strings.
Import ListNotations.

Local Open Scope Z_scope.

(** ** Fixed-width integers *)

Definition u8 (x : Z) : Z := x mod 2 ^ 8.
Definition u16 (x : Z) : Z := x mod 2 ^ 16.
Definition u32 (x : Z) : Z := x mod 2 ^ 32.
Definition u64 (x : Z) : Z := x mod 2 ^ 64.

(** [unsigned long] on the 32-bit ARM target. *)
Definition BITS_PER_LONG : Z := 32.
Definition ulong (x : Z) : Z := x mod 2 ^ BITS_PER_LONG.
Definition ULONG_MAX : Z := 2 ^ BITS_PER_LONG - 1.
Definition ULLONG_MAX : Z := 2 ^ 64 - 1.

(** Modelled from the spec: the kernel macros [BIT] and [GENMASK]
    (include/linux/bits.h) are used by the register definitions but are
    not defined in the file; they denote a single set bit and the
    contiguous bit field [h..l] of the register layout. *)
Definition BIT (n : Z) : Z := Z.shiftl 1 n.
Definition GENMASK (h l : Z) : Z := Z.shiftl (Z.ones (h - l + 1)) l.
Definition GENMASK_ULL (h l : Z) : Z := Z.shiftl (Z.ones (h - l + 1)) l.

(** ** Register layout, legacy variant *)

Definition AT91_PIT64_CR : Z := 0x00.
Definition AT91_PIT64_CR_START : Z := BIT 0.
Definition AT91_PIT64_CR_SWRST : Z := BIT 8.
Definition AT91_PIT64_MR : Z := 0x04.
Definition AT91_PIT64_MR_CONT : Z := BIT 0.
Definition AT91_PIT64_MR_SGCLK : Z := BIT 3.
Definition AT91_PIT64_MR_SMOD : Z := BIT 4.
Definition AT91_PIT64_MR_PRES : Z := GENMASK 11 8.
Definition AT91_PIT64_LSB_PR : Z := 0x08.
Definition AT91_PIT64_MSB_PR : Z := 0x0C.
Definition AT91_PIT64_IER : Z := 0x10.
Definition AT91_PIT64_IER_PERIOD : Z := BIT 0.
Definition AT91_PIT64_IDR : Z := 0x14.
Definition AT91_PIT64_IMR : Z := 0x18.
Definition AT91_PIT64_ISR : Z := 0x1C.
Definition AT91_PIT64_ISR_PERIOD : Z := BIT 0.
Definition AT91_PIT64_TLSB_CVR : Z := 0x20.
Definition AT91_PIT64_TMSB_CVR : Z := 0x24.
Definition AT91_PIT64_WPMR : Z := 0xE4.
Definition AT91_PIT64_WPSR : Z := 0xE8.

Definition AT91_PRES_MAX : Z := 0x10.
Definition AT91_PIT64_CS_RATE : Z := 2500000.
Definition AT91_PIT64_CE_RATE : Z := 2500000.
Definition AT91_PIT64_LSBMASK : Z := GENMASK_ULL 31 0.
Definition AT91_PIT64_PRESCALER (p : Z) : Z :=
  Z.land AT91_PIT64_MR_PRES (Z.shiftl p 8).

(** ** Register layout, current variant *)

Definition MCHP_PIT64_CR : Z := 0x00.
Definition MCHP_PIT64_CR_START : Z := BIT 0.
Definition MCHP_PIT64_CR_SWRST : Z := BIT 8.
Definition MCHP_PIT64_MR : Z := 0x04.
Definition MCHP_PIT64_MR_CONT : Z := BIT 0.
Definition MCHP_PIT64_MR_SGCLK : Z := BIT 3.
Definition MCHP_PIT64_MR_SMOD : Z := BIT 4.
Definition MCHP_PIT64_MR_PRES : Z := GENMASK 11 8.
Definition MCHP_PIT64_LSB_PR : Z := 0x08.
Definition MCHP_PIT64_MSB_PR : Z := 0x0C.
Definition MCHP_PIT64_IER : Z := 0x10.
Definition MCHP_PIT64_IER_PERIOD : Z := BIT 0.
Definition MCHP_PIT64_IDR : Z := 0x14.
Definition MCHP_PIT64_IMR : Z := 0x18.
Definition MCHP_PIT64_ISR : Z := 0x1C.
Definition MCHP_PIT64_ISR_PERIOD : Z := BIT 0.
Definition MCHP_PIT64_TLSBR : Z := 0x20.
Definition MCHP_PIT64_TMSBR : Z := 0x24.

Definition MCHP_PRES_MAX : Z := 0x10.
Definition MCHP_PIT64_CS_RATE : Z := 2500000.
Definition MCHP_PIT64_CE_RATE : Z := 2500000.
Definition MCHP_PIT64_LSBMASK : Z := GENMASK_ULL 31 0.
Definition MCHP_PIT64_PRESCALER (p : Z) : Z :=
  Z.land MCHP_PIT64_MR_PRES (Z.shiftl p 8).

(** ** Prescaler solver *)

(** The [for] loop of [pit64_pres_compute]: [pres] is a [u16] counter
    starting at 2, [tmp] a [u32].  The loop leaves either through the
    [break] or because [pres < AT91_PRES_MAX] fails; [fuel] only bounds the
    unfolding (see [pit64_pres_loop_fuel]). *)
Fixpoint pit64_pres_loop (fuel : nat) (clk_rate max_rate pres : Z) : Z :=
  match fuel with
  | O => pres
  | S fuel' =>
      if pres <? AT91_PRES_MAX then
        let tmp := u32 (clk_rate / pres) in
        if tmp <=? max_rate then pres
        else pit64_pres_loop fuel' clk_rate max_rate (u16 (pres + 1))
      else pres
  end.

Definition pit64_pres_compute (clk_rate max_rate : Z) : Z :=
  let pres := pit64_pres_loop 16 clk_rate max_rate 2 in
  (* Use the last prescaller in case we don't locate one for max_rate Hz. *)
  let pres := if pres =? AT91_PRES_MAX + 1 then AT91_PRES_MAX else pres in
  pres.

(** The [for] loop of [mchp_pit64_pres_compute]: [pres] is a [u32] index
    starting at 0 and the candidate divider is [pres + 1]. *)
Fixpoint mchp_pit64_pres_loop (fuel : nat) (clk_rate max_rate pres : Z) : Z :=
  match fuel with
  | O => pres
  | S fuel' =>
      if pres <? MCHP_PRES_MAX then
        let tmp := u32 (clk_rate / u32 (pres + 1)) in
        if tmp <=? max_rate then pres
        else mchp_pit64_pres_loop fuel' clk_rate max_rate (u32 (pres + 1))
      else pres
  end.

Definition mchp_pit64_pres_compute (clk_rate max_rate : Z) : Z :=
  let pres := mchp_pit64_pres_loop 16 clk_rate max_rate 0 in
  (* Use the last prescaller in case we don't locate one for max_rate Hz. *)
  let pres := if pres =? MCHP_PRES_MAX then MCHP_PRES_MAX - 1 else pres in
  u16 pres.

(** ** Kernel objects and the world the driver runs in *)

(** Error numbers of include/uapi/asm-generic/errno-base.h. *)
Definition ENXIO : Z := 6.
Definition ENOMEM : Z := 12.
Definition EBUSY : Z := 16.
Definition ENODEV : Z := 19.
Definition EINVAL : Z := 22.

(** Modelled from the spec: [IS_ERR] and [PTR_ERR] (include/linux/err.h)
    are not in the file; a pointer in the last [MAX_ERRNO] values of the
    address space encodes a negative error number. *)
Definition MAX_ERRNO : Z := 4095.
Definition IS_ERR (p : Z) : bool := ulong (- MAX_ERRNO) <=? p.
Definition PTR_ERR (p : Z) : Z :=
  if p <? 2 ^ (BITS_PER_LONG - 1) then p else p - 2 ^ BITS_PER_LONG.

(** Modelled from the spec: the clockevent state kept by the clockevents
    core in the [clock_event_device] (include/linux/clockchips.h), with the
    spec's three states. *)
Inductive EventState : Type := Shutdown | Periodic | OneShot.

Definition clockevent_state_periodic (st : EventState) : bool :=
  match st with Periodic => true | _ => false end.

Inductive irqreturn_t : Type := IRQ_NONE | IRQ_HANDLED.

(** The statically allocated kernel objects a [csd]/[ced] can point to. *)
Inductive static_dev : Type :=
  | dev_clksrc | dev_clkevt | dev_mchp_clksrc | dev_mchp_clkevt.

Inductive irq_handler : Type := h_pit64_interrupt | h_mchp_pit64_interrupt.

(** [struct pit64_common_data]; [struct mchp_pit64_common_data] has the
    same fields and shares the type, as do the two wrappers below. *)
Record pit64_common_data : Type := mk_cd {
  cd_base : Z;      (* void __iomem *base, 0 is NULL *)
  cd_clk : Z;       (* struct clk *clk *)
  cd_cycles : Z;    (* u64 cycles *)
  cd_pres : Z       (* u8 pres *)
}.

Record pit64_clksrc_data : Type := mk_csd {
  csd_clksrc : option static_dev;   (* struct clocksource *clksrc *)
  csd_cd : pit64_common_data
}.

Record pit64_clkevt_data : Type := mk_ced {
  ced_clkevt : option static_dev;   (* struct clock_event_device *clkevt *)
  ced_cd : pit64_common_data
}.

Abbreviation mchp_pit64_common_data := pit64_common_data.
Abbreviation mchp_pit64_clksrc_data := pit64_clksrc_data.
Abbreviation mchp_pit64_clkevt_data := pit64_clkevt_data.

Definition PIT64_MODE_CLKSRC : Z := 0.
Definition PIT64_MODE_CLKEVT : Z := 1.
Definition MCHP_PIT64_MODE_CLKSRC : Z := 0.
Definition MCHP_PIT64_MODE_CLKEVT : Z := 1.

(** Everything the driver does to the outside, in program order. *)
Inductive event : Type :=
  | Readl (addr val : Z)                 (* readl_relaxed(addr) returned val *)
  | Writel (val addr : Z)                (* writel_relaxed(val, addr) *)
  | ClkPrepareEnable (clk ret : Z)
  | ClkDisableUnprepare (clk : Z)
  | ClkGetRate (clk rate : Z)
  | ClkPut (clk : Z)
  | OfIomap (node index base : Z)
  | Iounmap (base : Z)
  | OfClkGet (node index clk : Z)
  | IrqOfParseAndMap (node index irq : Z)
  | IrqDisposeMapping (irq : Z)
  | Kzalloc (p : Z)
  | Kfree (p : Z)
  | RequestIrq (irq : Z) (handler : irq_handler) (dev_id ret : Z)
  | ClocksourceRegisterHz (cs : static_dev) (hz ret : Z)
  | SchedClockRegister (bits rate : Z)
  | ClockeventsConfigAndRegister (dev : static_dev) (freq min_delta max_delta : Z)
  | EventHandler (dev : static_dev).

(** The answers of the hardware and of the kernel services; each may
    depend on everything that happened before. *)
Record kernel_env : Type := mk_env {
  HZ : positive;
  hw_readl : list event -> Z -> Z;
  k_kzalloc : list event -> bool;
  k_clk_prepare_enable : list event -> Z -> Z;
  k_clk_get_rate : list event -> Z -> Z;
  k_of_iomap : list event -> Z -> Z -> Z;
  k_of_clk_get : list event -> Z -> Z -> Z;
  k_irq_of_parse_and_map : list event -> Z -> Z -> Z;
  k_request_irq : list event -> Z -> Z -> Z;
  k_clocksource_register_hz : list event -> Z -> Z
}.

(** The driver's view of memory: the static [data] registry, the objects
    obtained from [kzalloc], the fields of the static [clock_event_device]
    the driver or the clockevents core write, and the trace. *)
Record world : Type := mk_world {
  trace : list event;
  data_csd : Z;                              (* data.csd, 0 is NULL *)
  data_ced : Z;                              (* data.ced, 0 is NULL *)
  cs_heap : gmap Z pit64_clksrc_data;
  ce_heap : gmap Z pit64_clkevt_data;
  brk : Z;                                   (* next address kzalloc hands out *)
  cev_cpumask : option Z;                    (* clkevt.cpumask *)
  cev_irq : Z;                               (* clkevt.irq *)
  cev_state : EventState                     (* clkevt.state_use_accessors *)
}.

Definition set_trace (t : list event) (w : world) : world :=
  mk_world t (data_csd w) (data_ced w) (cs_heap w) (ce_heap w) (brk w)
           (cev_cpumask w) (cev_irq w) (cev_state w).
Definition set_data_csd (p : Z) (w : world) : world :=
  mk_world (trace w) p (data_ced w) (cs_heap w) (ce_heap w) (brk w)
           (cev_cpumask w) (cev_irq w) (cev_state w).
Definition set_data_ced (p : Z) (w : world) : world :=
  mk_world (trace w) (data_csd w) p (cs_heap w) (ce_heap w) (brk w)
           (cev_cpumask w) (cev_irq w) (cev_state w).
Definition set_cs_heap (h : gmap Z pit64_clksrc_data) (w : world) : world :=
  mk_world (trace w) (data_csd w) (data_ced w) h (ce_heap w) (brk w)
           (cev_cpumask w) (cev_irq w) (cev_state w).
Definition set_ce_heap (h : gmap Z pit64_clkevt_data) (w : world) : world :=
  mk_world (trace w) (data_csd w) (data_ced w) (cs_heap w) h (brk w)
           (cev_cpumask w) (cev_irq w) (cev_state w).
Definition set_brk (b : Z) (w : world) : world :=
  mk_world (trace w) (data_csd w) (data_ced w) (cs_heap w) (ce_heap w) b
           (cev_cpumask w) (cev_irq w) (cev_state w).
Definition set_cev_cpumask (m : option Z) (w : world) : world :=
  mk_world (trace w) (data_csd w) (data_ced w) (cs_heap w) (ce_heap w) (brk w)
           m (cev_irq w) (cev_state w).
Definition set_cev_irq (i : Z) (w : world) : world :=
  mk_world (trace w) (data_csd w) (data_ced w) (cs_heap w) (ce_heap w) (brk w)
           (cev_cpumask w) i (cev_state w).

(** ** The monad: environment, state, and faults *)

Inductive fault : Type := DivideByZero | BadPointer.

Inductive outcome (A : Type) : Type :=
  | Done (a : A) (w : world)
  | Crash (f : fault) (w : world).
Arguments Done {A} a w.
Arguments Crash {A} f w.

Definition M (A : Type) : Type := kernel_env -> world -> outcome A.

#[export] Instance M_ret : MRet M := fun A a _ w => Done a w.
#[export] Instance M_bind : MBind M := fun A B k m env w =>
  match m env w with
  | Done a w' => k a env w'
  | Crash f w' => Crash f w'
  end.

Definition crash {A : Type} (f : fault) : M A := fun _ w => Crash f w.
Definition get_world : M world := fun _ w => Done w w.
Definition get_env : M kernel_env := fun env w => Done env w.
Definition modify (f : world -> world) : M unit := fun _ w => Done tt (f w).
Definition emit (e : event) : M unit :=
  modify (fun w => set_trace (trace w ++ [e]) w).
Definition history : M (list event) := fun _ w => Done (trace w) w.

(** Unsigned division.  A zero divisor is undefined behaviour in C (the ARM
    kernel reports a division by zero); it is modelled as a fault that
    stops the run. *)
Definition udiv (a b : Z) : M Z :=
  if b =? 0 then crash DivideByZero else mret (a / b).

(** Modelled from the spec: [DIV_ROUND_CLOSEST] (include/linux/math.h) on an
    [unsigned long] dividend, rounding to nearest. *)
Definition DIV_ROUND_CLOSEST (x divisor : Z) : Z :=
  ulong (x + divisor / 2) / divisor.

(** ** Kernel services *)

Definition readl_relaxed (addr : Z) : M Z :=
  env ← get_env; h ← history;
  let val := u32 (hw_readl env h addr) in
  emit (Readl addr val);; mret val.

Definition writel_relaxed (val addr : Z) : M unit := emit (Writel val addr).

Definition clk_prepare_enable (clk : Z) : M Z :=
  env ← get_env; h ← history;
  let ret := k_clk_prepare_enable env h clk in
  emit (ClkPrepareEnable clk ret);; mret ret.

Definition clk_disable_unprepare (clk : Z) : M unit :=
  emit (ClkDisableUnprepare clk).

Definition clk_get_rate (clk : Z) : M Z :=
  env ← get_env; h ← history;
  let rate := ulong (k_clk_get_rate env h clk) in
  emit (ClkGetRate clk rate);; mret rate.

Definition clk_put (clk : Z) : M unit := emit (ClkPut clk).

Definition of_iomap (node index : Z) : M Z :=
  env ← get_env; h ← history;
  let base := ulong (k_of_iomap env h node index) in
  emit (OfIomap node index base);; mret base.

Definition iounmap (base : Z) : M unit := emit (Iounmap base).

Definition of_clk_get (node index : Z) : M Z :=
  env ← get_env; h ← history;
  let clk := ulong (k_of_clk_get env h node index) in
  emit (OfClkGet node index clk);; mret clk.

Definition irq_of_parse_and_map (node index : Z) : M Z :=
  env ← get_env; h ← history;
  let irq := u32 (k_irq_of_parse_and_map env h node index) in
  emit (IrqOfParseAndMap node index irq);; mret irq.

Definition irq_dispose_mapping (irq : Z) : M unit :=
  emit (IrqDisposeMapping irq).

Definition request_irq (irq : Z) (handler : irq_handler) (dev_id : Z) : M Z :=
  env ← get_env; h ← history;
  let ret := k_request_irq env h irq dev_id in
  emit (RequestIrq irq handler dev_id ret);; mret ret.

Definition clocksource_register_hz (cs : static_dev) (hz : Z) : M Z :=
  env ← get_env; h ← history;
  let ret := k_clocksource_register_hz env h hz in
  emit (ClocksourceRegisterHz cs hz ret);; mret ret.

Definition sched_clock_register (bits rate : Z) : M unit :=
  emit (SchedClockRegister bits rate).

Definition clockevents_config_and_register
    (dev : static_dev) (freq min_delta max_delta : Z) : M unit :=
  emit (ClockeventsConfigAndRegister dev freq min_delta max_delta).

(** [dev->event_handler(dev)] of a [clock_event_device]. *)
Definition event_handler (dev : option static_dev) : M unit :=
  match dev with
  | Some d => emit (EventHandler d)
  | None => crash BadPointer
  end.

(** [kzalloc]: NULL, or a fresh zeroed object at the next free address
    [brk], which is never 0. *)
Definition zero_cd : pit64_common_data := mk_cd 0 0 0 0.

Definition kzalloc_csd : M Z :=
  env ← get_env; h ← history;
  if k_kzalloc env h then
    w ← get_world;
    let p := brk w in
    modify (fun w => set_brk (p + 1) (set_cs_heap (<[p := mk_csd None zero_cd]> (cs_heap w)) w));;
    emit (Kzalloc p);; mret p
  else emit (Kzalloc 0);; mret 0.

Definition kzalloc_ced : M Z :=
  env ← get_env; h ← history;
  if k_kzalloc env h then
    w ← get_world;
    let p := brk w in
    modify (fun w => set_brk (p + 1) (set_ce_heap (<[p := mk_ced None zero_cd]> (ce_heap w)) w));;
    emit (Kzalloc p);; mret p
  else emit (Kzalloc 0);; mret 0.

Definition kfree_csd (p : Z) : M unit :=
  modify (fun w => set_cs_heap (delete p (cs_heap w)) w);; emit (Kfree p).

Definition kfree_ced (p : Z) : M unit :=
  modify (fun w => set_ce_heap (delete p (ce_heap w)) w);; emit (Kfree p).

(** Loads and stores through a [csd]/[ced] pointer. *)
Definition load_csd (p : Z) : M pit64_clksrc_data :=
  w ← get_world;
  match cs_heap w !! p with
  | Some v => mret v
  | None => crash BadPointer
  end.

Definition load_ced (p : Z) : M pit64_clkevt_data :=
  w ← get_world;
  match ce_heap w !! p with
  | Some v => mret v
  | None => crash BadPointer
  end.

Definition store_csd (p : Z) (f : pit64_clksrc_data -> pit64_clksrc_data) : M unit :=
  v ← load_csd p;
  modify (fun w => set_cs_heap (<[p := f v]> (cs_heap w)) w).

Definition store_ced (p : Z) (f : pit64_clkevt_data -> pit64_clkevt_data) : M unit :=
  v ← load_ced p;
  modify (fun w => set_ce_heap (<[p := f v]> (ce_heap w)) w).

Definition with_base (b : Z) (c : pit64_common_data) : pit64_common_data :=
  mk_cd b (cd_clk c) (cd_cycles c) (cd_pres c).
Definition with_clk (k : Z) (c : pit64_common_data) : pit64_common_data :=
  mk_cd (cd_base c) k (cd_cycles c) (cd_pres c).
Definition with_cycles (n : Z) (c : pit64_common_data) : pit64_common_data :=
  mk_cd (cd_base c) (cd_clk c) n (cd_pres c).
Definition with_pres (n : Z) (c : pit64_common_data) : pit64_common_data :=
  mk_cd (cd_base c) (cd_clk c) (cd_cycles c) n.
Definition csd_with_cd (f : pit64_common_data -> pit64_common_data)
    (v : pit64_clksrc_data) : pit64_clksrc_data :=
  mk_csd (csd_clksrc v) (f (csd_cd v)).
Definition ced_with_cd (f : pit64_common_data -> pit64_common_data)
    (v : pit64_clkevt_data) : pit64_clkevt_data :=
  mk_ced (ced_clkevt v) (f (ced_cd v)).
Definition csd_with_clksrc (d : option static_dev)
    (v : pit64_clksrc_data) : pit64_clksrc_data := mk_csd d (csd_cd v).
Definition ced_with_clkevt (d : option static_dev)
    (v : pit64_clkevt_data) : pit64_clkevt_data := mk_ced d (ced_cd v).

(** Modelled from the spec: the constants of include/linux/clocksource.h
    and include/linux/clockchips.h the static descriptors are filled
    with. *)
Definition CLOCKSOURCE_MASK (bits : Z) : Z := Z.ones bits.
Definition CLOCK_SOURCE_IS_CONTINUOUS : Z := 0x01.
Definition CLOCK_EVT_FEAT_PERIODIC : Z := 0x000001.
Definition CLOCK_EVT_FEAT_ONESHOT : Z := 0x000002.

(** The fields of [struct clocksource] and [struct clock_event_device] the
    driver initialises statically. *)
Record clocksource : Type := mk_clocksource {
  cs_name : string;
  cs_mask : Z;
  cs_flags : Z;
  cs_rating : Z;
  cs_read : static_dev -> M Z
}.

Record clock_event_device : Type := mk_clock_event_device {
  name : string;
  features : Z;
  rating : Z;
  set_state_shutdown : static_dev -> M Z;
  set_state_periodic : static_dev -> M Z;
  set_state_oneshot : static_dev -> M Z;
  set_next_event : Z -> static_dev -> M Z;
  suspend : static_dev -> M unit;
  resume : static_dev -> M unit
}.

(** [clockevent_state_periodic(dev)] through a device pointer. *)
Definition clockevent_state_periodic_of (dev : option static_dev) : M bool :=
  match dev with
  | Some _ => w ← get_world; mret (clockevent_state_periodic (cev_state w))
  | None => crash BadPointer
  end.

(** ** The legacy driver *)

Definition pit64_name : string := "pit64".

Definition pit64_read (base offset : Z) : M Z := readl_relaxed (base + offset).

Definition pit64_write (base offset val : Z) : M unit :=
  writel_relaxed val (base + offset).

Definition pit64_get_period (base : Z) : M Z :=
  (* LSB must be read first to guarantee an atomic read of the 64 bit timer. *)
  lsb ← pit64_read base AT91_PIT64_TLSB_CVR;
  msb ← pit64_read base AT91_PIT64_TMSB_CVR;
  mret (Z.lor (u64 (Z.shiftl msb 32)) lsb).

Definition pit64_set_period (base cycles : Z) : M unit :=
  let lsb := u32 (Z.land cycles AT91_PIT64_LSBMASK) in
  let msb := u32 (Z.shiftr cycles 32) in
  (* LSB must be write last to guarantee an atomic update of the timer
     even when SMOD=1. *)
  pit64_write base AT91_PIT64_MSB_PR msb;;
  pit64_write base AT91_PIT64_LSB_PR lsb.

(** [data] is the [pit64_common_data] the pointer argument designates; the
    function only reads its fields. *)
Definition pit64_reset (data : pit64_common_data) (mode : Z) (irq_ena : bool) : M unit :=
  let mode := u32 (Z.lor mode (AT91_PIT64_PRESCALER (cd_pres data - 1))) in
  pit64_write (cd_base data) AT91_PIT64_CR AT91_PIT64_CR_SWRST;;
  pit64_write (cd_base data) AT91_PIT64_MR mode;;
  pit64_set_period (cd_base data) (cd_cycles data);;
  (if irq_ena
   then pit64_write (cd_base data) AT91_PIT64_IER AT91_PIT64_IER_PERIOD
   else mret tt);;
  pit64_write (cd_base data) AT91_PIT64_CR AT91_PIT64_CR_START.

Definition pit64_read_clk (cs : static_dev) : M Z :=
  w ← get_world; csd ← load_csd (data_csd w);
  pit64_get_period (cd_base (csd_cd csd)).

Definition sched_read_clk : M Z :=
  w ← get_world; csd ← load_csd (data_csd w);
  pit64_get_period (cd_base (csd_cd csd)).

Definition clksrc : clocksource := {|
  cs_name := pit64_name;
  cs_mask := CLOCKSOURCE_MASK 64;
  cs_flags := CLOCK_SOURCE_IS_CONTINUOUS;
  cs_rating := 250;
  cs_read := pit64_read_clk
|}.

Definition pit64_clkevt_shutdown (cedev : static_dev) : M Z :=
  w ← get_world; ced ← load_ced (data_ced w);
  pit64_write (cd_base (ced_cd ced)) AT91_PIT64_CR AT91_PIT64_CR_SWRST;;
  mret 0.

Definition pit64_clkevt_set_periodic (cedev : static_dev) : M Z :=
  w ← get_world; ced ← load_ced (data_ced w);
  pit64_reset (ced_cd ced) AT91_PIT64_MR_CONT true;;
  mret 0.

Definition pit64_clkevt_set_oneshot (cedev : static_dev) : M Z :=
  w ← get_world; ced ← load_ced (data_ced w);
  pit64_reset (ced_cd ced) AT91_PIT64_MR_SMOD true;;
  mret 0.

Definition pit64_clkevt_set_next_event (evt : Z) (cedev : static_dev) : M Z :=
  w ← get_world; ced ← load_ced (data_ced w);
  pit64_set_period (cd_base (ced_cd ced)) evt;;
  pit64_write (cd_base (ced_cd ced)) AT91_PIT64_CR AT91_PIT64_CR_START;;
  mret 0.

Definition pit64_clkevt_suspend (cedev : static_dev) : M unit :=
  w ← get_world; ced ← load_ced (data_ced w);
  pit64_write (cd_base (ced_cd ced)) AT91_PIT64_CR AT91_PIT64_CR_SWRST;;
  clk_disable_unprepare (cd_clk (ced_cd ced)).

Definition pit64_clkevt_resume (cedev : static_dev) : M unit :=
  let mode := AT91_PIT64_MR_SMOD in
  w ← get_world; ced ← load_ced (data_ced w);
  r ← clk_prepare_enable (cd_clk (ced_cd ced));
  if negb (r =? 0) then mret tt
  else
    periodic ← clockevent_state_periodic_of (ced_clkevt ced);
    let mode := if (periodic : bool) then AT91_PIT64_MR_CONT else mode in
    pit64_reset (ced_cd ced) mode true.

Definition clkevt : clock_event_device := {|
  name := pit64_name;
  features := Z.lor CLOCK_EVT_FEAT_ONESHOT CLOCK_EVT_FEAT_PERIODIC;
  rating := 250;
  set_state_shutdown := pit64_clkevt_shutdown;
  set_state_periodic := pit64_clkevt_set_periodic;
  set_state_oneshot := pit64_clkevt_set_oneshot;
  set_next_event := pit64_clkevt_set_next_event;
  suspend := pit64_clkevt_resume;
  resume := pit64_clkevt_suspend
|}.

Definition pit64_interrupt (irq dev_id : Z) : M irqreturn_t :=
  let irq_data := dev_id in
  w ← get_world;
  if negb (data_ced w =? irq_data) then mret IRQ_NONE
  else
    ced ← load_ced irq_data;
    isr ← pit64_read (cd_base (ced_cd ced)) AT91_PIT64_ISR;
    if negb (Z.land isr AT91_PIT64_ISR_PERIOD =? 0) then
      ced ← load_ced irq_data;
      event_handler (ced_clkevt ced);;
      mret IRQ_HANDLED
    else mret IRQ_NONE.

(** The labels [clk_unprepare:] and [free:] of [pit64_dt_init_clksrc]. *)
Definition pit64_dt_init_clksrc_free (csd ret : Z) : M Z :=
  kfree_csd csd;;
  modify (set_data_csd 0);;
  mret ret.

Definition pit64_dt_init_clksrc_clk_unprepare (csd ret : Z) : M Z :=
  v ← load_csd csd;
  clk_disable_unprepare (cd_clk (csd_cd v));;
  pit64_dt_init_clksrc_free csd ret.

Definition pit64_dt_init_clksrc (base clk : Z) : M Z :=
  csd ← kzalloc_csd;
  if csd =? 0 then mret (- ENOMEM)
  else
    store_csd csd (csd_with_cd (with_base base));;
    store_csd csd (csd_with_cd (with_clk clk));;
    v ← load_csd csd;
    ret ← clk_prepare_enable (cd_clk (csd_cd v));
    if negb (ret =? 0) then pit64_dt_init_clksrc_free csd ret
    else
      v ← load_csd csd;
      clk_rate ← clk_get_rate (cd_clk (csd_cd v));
      store_csd csd (csd_with_cd
        (with_pres (u8 (pit64_pres_compute clk_rate AT91_PIT64_CS_RATE))));;
      v ← load_csd csd;
      clk_rate ← udiv clk_rate (cd_pres (csd_cd v));
      store_csd csd (csd_with_cd (with_cycles ULLONG_MAX));;
      v ← load_csd csd;
      pit64_reset (csd_cd v) AT91_PIT64_MR_CONT false;;
      modify (set_data_csd csd);;
      store_csd csd (csd_with_clksrc (Some dev_clksrc));;
      ret ← clocksource_register_hz dev_clksrc clk_rate;
      if negb (ret =? 0) then pit64_dt_init_clksrc_clk_unprepare csd ret
      else
        sched_clock_register 64 clk_rate;;
        mret 0.

(** The labels [clk_unprepare:] and [free:] of [pit64_dt_init_clkevt]. *)
Definition pit64_dt_init_clkevt_free (ced ret : Z) : M Z :=
  kfree_ced ced;;
  modify (set_data_ced 0);;
  mret ret.

Definition pit64_dt_init_clkevt_clk_unprepare (ced ret : Z) : M Z :=
  v ← load_ced ced;
  clk_disable_unprepare (cd_clk (ced_cd v));;
  pit64_dt_init_clkevt_free ced ret.

Definition pit64_dt_init_clkevt (base clk irq : Z) : M Z :=
  ced ← kzalloc_ced;
  if ced =? 0 then mret (- ENOMEM)
  else
    store_ced ced (ced_with_cd (with_base base));;
    store_ced ced (ced_with_cd (with_clk clk));;
    v ← load_ced ced;
    ret ← clk_prepare_enable (cd_clk (ced_cd v));
    if negb (ret =? 0) then pit64_dt_init_clkevt_free ced ret
    else
      v ← load_ced ced;
      clk_rate ← clk_get_rate (cd_clk (ced_cd v));
      store_ced ced (ced_with_cd
        (with_pres (u8 (pit64_pres_compute clk_rate AT91_PIT64_CE_RATE))));;
      v ← load_ced ced;
      clk_rate ← udiv clk_rate (cd_pres (ced_cd v));
      env ← get_env;
      store_ced ced (ced_with_cd
        (with_cycles (DIV_ROUND_CLOSEST clk_rate (Z.pos (HZ env)))));;
      ret ← request_irq irq h_pit64_interrupt ced;
      if negb (ret =? 0) then pit64_dt_init_clkevt_clk_unprepare ced ret
      else
        modify (set_data_ced ced);;
        (* Set up and register clockevents. *)
        store_ced ced (ced_with_clkevt (Some dev_clkevt));;
        modify (set_cev_cpumask (Some 0));;
        modify (set_cev_irq irq);;
        clockevents_config_and_register dev_clkevt clk_rate 1 ULONG_MAX;;
        mret 0.

(** The labels [irq_unmap:], [clock_put:] and [unmap:] of [pit64_dt_init]. *)
Definition pit64_dt_init_unmap (base ret : Z) : M Z :=
  iounmap base;;
  mret ret.

Definition pit64_dt_init_clock_put (clk base ret : Z) : M Z :=
  clk_put clk;;
  pit64_dt_init_unmap base ret.

Definition pit64_dt_init_irq_unmap (irq clk base ret : Z) : M Z :=
  irq_dispose_mapping irq;;
  pit64_dt_init_clock_put clk base ret.

Definition pit64_dt_init (node mode : Z) : M Z :=
  let ret := - EINVAL in
  base ← of_iomap node 0;
  if base =? 0 then mret (- ENXIO)
  else
    clk ← of_clk_get node 0;
    if IS_ERR clk then pit64_dt_init_unmap base (PTR_ERR clk)
    else if mode =? PIT64_MODE_CLKSRC then
      w ← get_world;
      if negb (data_csd w =? 0) then pit64_dt_init_clock_put clk base ret
      else
        ret ← pit64_dt_init_clksrc base clk;
        if negb (ret =? 0) then pit64_dt_init_clock_put clk base ret
        else mret 0
    else if mode =? PIT64_MODE_CLKEVT then
      w ← get_world;
      if negb (data_ced w =? 0) then pit64_dt_init_clock_put clk base ret
      else
        irq ← irq_of_parse_and_map node 0;
        if irq =? 0 then pit64_dt_init_clock_put clk base (- EINVAL)
        else
          ret ← pit64_dt_init_clkevt base clk irq;
          if negb (ret =? 0) then pit64_dt_init_irq_unmap irq clk base ret
          else mret 0
    else pit64_dt_init_clock_put clk base ret.

Definition pit64_clksrc_dt_init (node : Z) : M Z :=
  pit64_dt_init node PIT64_MODE_CLKSRC.

Definition pit64_clkevt_dt_init (node : Z) : M Z :=
  pit64_dt_init node PIT64_MODE_CLKEVT.
(** ** The current driver *)

Definition mchp_pit64_name : string := "pit64".

Definition mchp_pit64_read (base offset : Z) : M Z := readl_relaxed (base + offset).

Definition mchp_pit64_write (base offset val : Z) : M unit :=
  writel_relaxed val (base + offset).

Definition mchp_pit64_get_period (base : Z) : M Z :=
  (* LSB must be read first to guarantee an atomic read of the 64 bit timer. *)
  lsb ← mchp_pit64_read base MCHP_PIT64_TLSBR;
  msb ← mchp_pit64_read base MCHP_PIT64_TMSBR;
  mret (Z.lor (u64 (Z.shiftl msb 32)) lsb).

Definition mchp_pit64_set_period (base cycles : Z) : M unit :=
  let lsb := u32 (Z.land cycles MCHP_PIT64_LSBMASK) in
  let msb := u32 (Z.shiftr cycles 32) in
  (* LSB must be write last to guarantee an atomic update of the timer
     even when SMOD=1. *)
  mchp_pit64_write base MCHP_PIT64_MSB_PR msb;;
  mchp_pit64_write base MCHP_PIT64_LSB_PR lsb.

(** [data] is the [pit64_common_data] the pointer argument designates; the
    function only reads its fields. *)
Definition mchp_pit64_reset (data : pit64_common_data) (mode : Z) (irq_ena : bool) : M unit :=
  let mode := u32 (Z.lor mode (MCHP_PIT64_PRESCALER (cd_pres data - 1))) in
  mchp_pit64_write (cd_base data) MCHP_PIT64_CR MCHP_PIT64_CR_SWRST;;
  mchp_pit64_write (cd_base data) MCHP_PIT64_MR mode;;
  mchp_pit64_set_period (cd_base data) (cd_cycles data);;
  (if irq_ena
   then mchp_pit64_write (cd_base data) MCHP_PIT64_IER MCHP_PIT64_IER_PERIOD
   else mret tt);;
  mchp_pit64_write (cd_base data) MCHP_PIT64_CR MCHP_PIT64_CR_START.

Definition mchp_pit64_read_clk (cs : static_dev) : M Z :=
  w ← get_world; csd ← load_csd (data_csd w);
  mchp_pit64_get_period (cd_base (csd_cd csd)).

Definition mchp_sched_read_clk : M Z :=
  w ← get_world; csd ← load_csd (data_csd w);
  mchp_pit64_get_period (cd_base (csd_cd csd)).

Definition mchp_clksrc : clocksource := {|
  cs_name := mchp_pit64_name;
  cs_mask := CLOCKSOURCE_MASK 64;
  cs_flags := CLOCK_SOURCE_IS_CONTINUOUS;
  cs_rating := 250;
  cs_read := mchp_pit64_read_clk
|}.

Definition mchp_pit64_clkevt_shutdown (cedev : static_dev) : M Z :=
  w ← get_world; ced ← load_ced (data_ced w);
  mchp_pit64_write (cd_base (ced_cd ced)) MCHP_PIT64_CR MCHP_PIT64_CR_SWRST;;
  mret 0.

Definition mchp_pit64_clkevt_set_periodic (cedev : static_dev) : M Z :=
  w ← get_world; ced ← load_ced (data_ced w);
  mchp_pit64_reset (ced_cd ced) MCHP_PIT64_MR_CONT true;;
  mret 0.

Definition mchp_pit64_clkevt_set_oneshot (cedev : static_dev) : M Z :=
  w ← get_world; ced ← load_ced (data_ced w);
  mchp_pit64_reset (ced_cd ced) MCHP_PIT64_MR_SMOD true;;
  mret 0.

Definition mchp_pit64_clkevt_set_next_event (evt : Z) (cedev : static_dev) : M Z :=
  w ← get_world; ced ← load_ced (data_ced w);
  mchp_pit64_set_period (cd_base (ced_cd ced)) evt;;
  mchp_pit64_write (cd_base (ced_cd ced)) MCHP_PIT64_CR MCHP_PIT64_CR_START;;
  mret 0.

Definition mchp_pit64_clkevt_suspend (cedev : static_dev) : M unit :=
  w ← get_world; ced ← load_ced (data_ced w);
  mchp_pit64_write (cd_base (ced_cd ced)) MCHP_PIT64_CR MCHP_PIT64_CR_SWRST;;
  clk_disable_unprepare (cd_clk (ced_cd ced)).

Definition mchp_pit64_clkevt_resume (cedev : static_dev) : M unit :=
  let mode := MCHP_PIT64_MR_SMOD in
  w ← get_world; ced ← load_ced (data_ced w);
  r ← clk_prepare_enable (cd_clk (ced_cd ced));
  if negb (r =? 0) then mret tt
  else
    periodic ← clockevent_state_periodic_of (ced_clkevt ced);
    let mode := if (periodic : bool) then MCHP_PIT64_MR_CONT else mode in
    mchp_pit64_reset (ced_cd ced) mode true.

Definition mchp_clkevt : clock_event_device := {|
  name := mchp_pit64_name;
  features := Z.lor CLOCK_EVT_FEAT_ONESHOT CLOCK_EVT_FEAT_PERIODIC;
  rating := 250;
  set_state_shutdown := mchp_pit64_clkevt_shutdown;
  set_state_periodic := mchp_pit64_clkevt_set_periodic;
  set_state_oneshot := mchp_pit64_clkevt_set_oneshot;
  set_next_event := mchp_pit64_clkevt_set_next_event;
  suspend := mchp_pit64_clkevt_suspend;
  resume := mchp_pit64_clkevt_resume
|}.

Definition mchp_pit64_interrupt (irq dev_id : Z) : M irqreturn_t :=
  let irq_data := dev_id in
  w ← get_world;
  if negb (data_ced w =? irq_data) then mret IRQ_NONE
  else
    ced ← load_ced irq_data;
    isr ← mchp_pit64_read (cd_base (ced_cd ced)) MCHP_PIT64_ISR;
    if negb (Z.land isr MCHP_PIT64_ISR_PERIOD =? 0) then
      ced ← load_ced irq_data;
      event_handler (ced_clkevt ced);;
      mret IRQ_HANDLED
    else mret IRQ_NONE.

(** The labels [clk_unprepare:] and [free:] of [mchp_pit64_dt_init_clksrc]. *)
Definition mchp_pit64_dt_init_clksrc_free (csd ret : Z) : M Z :=
  kfree_csd csd;;
  modify (set_data_csd 0);;
  mret ret.

Definition mchp_pit64_dt_init_clksrc_clk_unprepare (csd ret : Z) : M Z :=
  v ← load_csd csd;
  clk_disable_unprepare (cd_clk (csd_cd v));;
  mchp_pit64_dt_init_clksrc_free csd ret.

Definition mchp_pit64_dt_init_clksrc (base clk : Z) : M Z :=
  csd ← kzalloc_csd;
  if csd =? 0 then mret (- ENOMEM)
  else
    store_csd csd (csd_with_cd (with_base base));;
    store_csd csd (csd_with_cd (with_clk clk));;
    v ← load_csd csd;
    ret ← clk_prepare_enable (cd_clk (csd_cd v));
    if negb (ret =? 0) then mchp_pit64_dt_init_clksrc_free csd ret
    else
      v ← load_csd csd;
      clk_rate ← clk_get_rate (cd_clk (csd_cd v));
      store_csd csd (csd_with_cd
        (with_pres (u8 (mchp_pit64_pres_compute clk_rate MCHP_PIT64_CS_RATE))));;
      v ← load_csd csd;
      clk_rate ← udiv clk_rate (cd_pres (csd_cd v));
      store_csd csd (csd_with_cd (with_cycles ULLONG_MAX));;
      v ← load_csd csd;
      mchp_pit64_reset (csd_cd v) MCHP_PIT64_MR_CONT false;;
      modify (set_data_csd csd);;
      store_csd csd (csd_with_clksrc (Some dev_mchp_clksrc));;
      ret ← clocksource_register_hz dev_mchp_clksrc clk_rate;
      if negb (ret =? 0) then mchp_pit64_dt_init_clksrc_clk_unprepare csd ret
      else
        sched_clock_register 64 clk_rate;;
        mret 0.

(** The labels [clk_unprepare:] and [free:] of [mchp_pit64_dt_init_clkevt]. *)
Definition mchp_pit64_dt_init_clkevt_free (ced ret : Z) : M Z :=
  kfree_ced ced;;
  modify (set_data_ced 0);;
  mret ret.

Definition mchp_pit64_dt_init_clkevt_clk_unprepare (ced ret : Z) : M Z :=
  v ← load_ced ced;
  clk_disable_unprepare (cd_clk (ced_cd v));;
  mchp_pit64_dt_init_clkevt_free ced ret.

Definition mchp_pit64_dt_init_clkevt (base clk irq : Z) : M Z :=
  ced ← kzalloc_ced;
  if ced =? 0 then mret (- ENOMEM)
  else
    store_ced ced (ced_with_cd (with_base base));;
    store_ced ced (ced_with_cd (with_clk clk));;
    v ← load_ced ced;
    ret ← clk_prepare_enable (cd_clk (ced_cd v));
    if negb (ret =? 0) then mchp_pit64_dt_init_clkevt_free ced ret
    else
      v ← load_ced ced;
      clk_rate ← clk_get_rate (cd_clk (ced_cd v));
      store_ced ced (ced_with_cd
        (with_pres (u8 (mchp_pit64_pres_compute clk_rate MCHP_PIT64_CE_RATE))));;
      v ← load_ced ced;
      clk_rate ← udiv clk_rate (cd_pres (ced_cd v));
      env ← get_env;
      store_ced ced (ced_with_cd
        (with_cycles (DIV_ROUND_CLOSEST clk_rate (Z.pos (HZ env)))));;
      ret ← request_irq irq h_mchp_pit64_interrupt ced;
      if negb (ret =? 0) then mchp_pit64_dt_init_clkevt_clk_unprepare ced ret
      else
        modify (set_data_ced ced);;
        (* Set up and register clockevents. *)
        store_ced ced (ced_with_clkevt (Some dev_mchp_clkevt));;
        modify (set_cev_cpumask (Some 0));;
        modify (set_cev_irq irq);;
        clockevents_config_and_register dev_mchp_clkevt clk_rate 1 ULONG_MAX;;
        mret 0.

(** The labels [irq_unmap:], [clock_put:] and [unmap:] of [mchp_pit64_dt_init]. *)
Definition mchp_pit64_dt_init_unmap (base ret : Z) : M Z :=
  iounmap base;;
  mret ret.

Definition mchp_pit64_dt_init_clock_put (clk base ret : Z) : M Z :=
  clk_put clk;;
  mchp_pit64_dt_init_unmap base ret.

Definition mchp_pit64_dt_init_irq_unmap (irq clk base ret : Z) : M Z :=
  irq_dispose_mapping irq;;
  mchp_pit64_dt_init_clock_put clk base ret.

Definition mchp_pit64_dt_init (node mode : Z) : M Z :=
  base ← of_iomap node 0;
  if base =? 0 then mret (- ENXIO)
  else
    clk ← of_clk_get node 0;
    if IS_ERR clk then mchp_pit64_dt_init_unmap base (PTR_ERR clk)
    else if mode =? MCHP_PIT64_MODE_CLKSRC then
      w ← get_world;
      if negb (data_csd w =? 0) then mchp_pit64_dt_init_clock_put clk base (- EBUSY)
      else
        ret ← mchp_pit64_dt_init_clksrc base clk;
        if negb (ret =? 0) then mchp_pit64_dt_init_clock_put clk base ret
        else mret 0
    else if mode =? MCHP_PIT64_MODE_CLKEVT then
      w ← get_world;
      if negb (data_ced w =? 0) then mchp_pit64_dt_init_clock_put clk base (- EBUSY)
      else
        irq ← irq_of_parse_and_map node 0;
        if irq =? 0 then mchp_pit64_dt_init_clock_put clk base (- ENODEV)
        else
          ret ← mchp_pit64_dt_init_clkevt base clk irq;
          if negb (ret =? 0) then mchp_pit64_dt_init_irq_unmap irq clk base ret
          else mret 0
    else mchp_pit64_dt_init_clock_put clk base (- EINVAL).

Definition mchp_pit64_clksrc_dt_init (node : Z) : M Z :=
  mchp_pit64_dt_init node MCHP_PIT64_MODE_CLKSRC.

Definition mchp_pit64_clkevt_dt_init (node : Z) : M Z :=
  mchp_pit64_dt_init node MCHP_PIT64_MODE_CLKEVT.

(** ** Worlds and environments used in the examples *)

(** The clockevents core records the state it put the device in. *)
Definition set_cev_state (st : EventState) (w : world) : world :=
  mk_world (trace w) (data_csd w) (data_ced w) (cs_heap w) (ce_heap w) (brk w)
           (cev_cpumask w) (cev_irq w) st.

(** A board whose services all succeed: the PIT64 clock runs at [rate] Hz,
    registers read [isr], and [HZ] is 100. *)
Definition board (rate isr : Z) : kernel_env := {|
  HZ := 100;
  hw_readl := fun _ _ => isr;
  k_kzalloc := fun _ => true;
  k_clk_prepare_enable := fun _ _ => 0;
  k_clk_get_rate := fun _ _ => rate;
  k_of_iomap := fun _ _ _ => 0xe1800000;
  k_of_clk_get := fun _ _ _ => 0xc0a01000;
  k_irq_of_parse_and_map := fun _ _ _ => 40;
  k_request_irq := fun _ _ _ => 0;
  k_clocksource_register_hz := fun _ _ => 0
|}.

(** The world at boot: nothing registered, nothing allocated. *)
Definition boot : world := {|
  trace := [];
  data_csd := 0;
  data_ced := 0;
  cs_heap := ∅;
  ce_heap := ∅;
  brk := 0xc1000000;
  cev_cpumask := None;
  cev_irq := 0;
  cev_state := Shutdown
|}.

(** A world with a registered clockevent instance at [0xc1000000]
    (divider 13, reload 24615) in state [st]. *)
Definition registered_ced : pit64_clkevt_data :=
  mk_ced (Some dev_clkevt) (mk_cd 0xe1800000 0xc0a01000 24615 13).

Definition with_clkevt (st : EventState) : world := {|
  trace := [];
  data_csd := 0;
  data_ced := 0xc1000000;
  cs_heap := ∅;
  ce_heap := {[ 0xc1000000 := registered_ced ]};
  brk := 0xc1000001;
  cev_cpumask := Some 0;
  cev_irq := 40;
  cev_state := st
|}.

(** A world with a registered clocksource instance. *)
Definition with_clksrc : world := {|
  trace := [];
  data_csd := 0xc1000000;
  data_ced := 0;
  cs_heap := {[ 0xc1000000 :=
                 mk_csd (Some dev_clksrc) (mk_cd 0xe1800000 0xc0a01000 ULLONG_MAX 13) ]};
  ce_heap := ∅;
  brk := 0xc1000001;
  cev_cpumask := None;
  cev_irq := 0;
  cev_state := Shutdown
|}.

(** ** Vocabulary for the further properties *)

(** Register accesses among the events. *)
Definition is_mmio (e : event) : bool :=
  match e with
  | Readl _ _ | Writel _ _ => true
  | _ => false
  end.

Definition no_mmio (evs : list event) : bool := forallb (fun e => negb (is_mmio e)) evs.

(** A test bench whose kernel services give fixed answers. *)
Definition bench (rate iomap clkp irq enable reqirq reghz : Z) (alloc : bool)
    : kernel_env := {|
  HZ := 100;
  hw_readl := fun _ _ => 0;
  k_kzalloc := fun _ => alloc;
  k_clk_prepare_enable := fun _ _ => enable;
  k_clk_get_rate := fun _ _ => rate;
  k_of_iomap := fun _ _ _ => iomap;
  k_of_clk_get := fun _ _ _ => clkp;
  k_irq_of_parse_and_map := fun _ _ _ => irq;
  k_request_irq := fun _ _ _ => reqirq;
  k_clocksource_register_hz := fun _ _ => reghz
|}.

(** * SAMA7G5 USB PHY (drivers/phy/microchip/phy-sama7g5-usb.c) *)

(** Register offsets and fields the PHY driver uses
    (soc/at91/at91-sama7g5-sfr.h, soc/at91/microchip-rstc.h). *)
Definition SAMA7G5_SFR_UTMI0R0 : Z := 0x2040.
Definition SAMA7G5_SFR_UTMI0R1 : Z := 0x2044.
Definition SAMA7G5_SFR_UTMI0R2 : Z := 0x2048.
Definition SAMA7G5_SFR_UTMI_RX_VBUS : Z := BIT 25.
Definition SAMA7G5_SFR_UTMI_RX_TXPREEMPAMPTUNE_1X : Z := BIT 23.

Definition AT91_RSTC_GRSTR : Z := 0xE4.
Definition AT91_GRSTR_USB_RST1 : Z := BIT 4.
Definition AT91_GRSTR_USB_RST2 : Z := BIT 5.
Definition AT91_GRSTR_USB_RST3 : Z := BIT 6.

(** Modelled from the spec: the first values of [enum phy_mode]
    (include/linux/phy/phy.h), which is not in the repository. *)
Definition PHY_MODE_INVALID : Z := 0.
Definition PHY_MODE_USB_HOST : Z := 1.
Definition PHY_MODE_USB_DEVICE : Z := 6.

(** The two syscon register maps a [struct regmap *] of the driver can
    designate. *)
Inductive regmap : Type := regmap_rstc | regmap_sfr.

(** [struct sama7g5_usb_phy]; a NULL regmap pointer is [None]. *)
Record sama7g5_usb_phy : Type := mk_phy {
  phy_rstc : option regmap;
  phy_sfr : option regmap;
  phy_mode : Z;
  phy_port : Z
}.

(** The PHY driver's world: the contents of the two register maps, the
    driver data attached to the phy, and the time spent in [udelay]. *)
Record phy_world : Type := mk_phy_world {
  rstc_regs : gmap Z Z;
  sfr_regs : gmap Z Z;
  drvdata : sama7g5_usb_phy;
  udelayed : Z
}.

Definition regmap_read (regs : gmap Z Z) (reg : Z) : Z := default 0 (regs !! reg).

(** Modelled from the spec: [regmap_update_bits] (drivers/base/regmap) is
    not in the repository; it reads the register, replaces the bits of
    [mask] by those of [val] and writes the register back if it changed.
    Through a NULL map it faults ([None]). *)
Definition update_bits (regs : gmap Z Z) (reg mask val : Z) : gmap Z Z :=
  let orig := regmap_read regs reg in
  let tmp := Z.lor (Z.land orig (Z.lnot mask)) (Z.land val mask) in
  if tmp =? orig then regs else <[reg := tmp]> regs.

Definition regmap_update_bits (map : option regmap) (reg mask val : Z)
    (w : phy_world) : option phy_world :=
  match map with
  | Some regmap_rstc =>
      Some (mk_phy_world (update_bits (rstc_regs w) reg mask val) (sfr_regs w)
                         (drvdata w) (udelayed w))
  | Some regmap_sfr =>
      Some (mk_phy_world (rstc_regs w) (update_bits (sfr_regs w) reg mask val)
                         (drvdata w) (udelayed w))
  | None => None
  end.

Definition udelay (us : Z) (w : phy_world) : phy_world :=
  mk_phy_world (rstc_regs w) (sfr_regs w) (drvdata w) (udelayed w + us).

Definition set_phy_mode (mode : Z) (w : phy_world) : phy_world :=
  mk_phy_world (rstc_regs w) (sfr_regs w)
    (mk_phy (phy_rstc (drvdata w)) (phy_sfr (drvdata w)) mode (phy_port (drvdata w)))
    (udelayed w).

(** The driver's entry points: the result is the returned [int] and the
    new world, or [None] when a NULL regmap is dereferenced. *)
Definition sama7g5_usb_phy_set_mode (mode submode : Z) (w : phy_world)
    : option (Z * phy_world) :=
  let w := set_phy_mode PHY_MODE_INVALID w in
  let w := if 0 <? mode then set_phy_mode mode w else w in
  let sama7g5_phy := drvdata w in
  (* Notify the controller when VBUS is present *)
  if mode =? PHY_MODE_USB_DEVICE then
    let val := if submode =? 0 then 0 else SAMA7G5_SFR_UTMI_RX_VBUS in
    if phy_port sama7g5_phy =? 0 then
      w' ← regmap_update_bits (phy_sfr sama7g5_phy) SAMA7G5_SFR_UTMI0R0
             SAMA7G5_SFR_UTMI_RX_VBUS val w;
      Some (0, w')
    else if phy_port sama7g5_phy =? 1 then
      w' ← regmap_update_bits (phy_sfr sama7g5_phy) SAMA7G5_SFR_UTMI0R1
             SAMA7G5_SFR_UTMI_RX_VBUS val w;
      Some (0, w')
    else if phy_port sama7g5_phy =? 2 then
      w' ← regmap_update_bits (phy_sfr sama7g5_phy) SAMA7G5_SFR_UTMI0R2
             SAMA7G5_SFR_UTMI_RX_VBUS val w;
      Some (0, w')
    else Some (- ENODEV, w)
  else Some (0, w).

Definition sama7g5_usb_phy_init (w : phy_world) : option (Z * phy_world) :=
  let sama7g5_phy := drvdata w in
  (* Set TXPREEMPAMPTUNE to 1X *)
  if phy_port sama7g5_phy =? 0 then
    w' ← regmap_update_bits (phy_sfr sama7g5_phy) SAMA7G5_SFR_UTMI0R0
           SAMA7G5_SFR_UTMI_RX_TXPREEMPAMPTUNE_1X
           SAMA7G5_SFR_UTMI_RX_TXPREEMPAMPTUNE_1X w;
    Some (0, w')
  else if phy_port sama7g5_phy =? 1 then
    w' ← regmap_update_bits (phy_sfr sama7g5_phy) SAMA7G5_SFR_UTMI0R1
           SAMA7G5_SFR_UTMI_RX_TXPREEMPAMPTUNE_1X
           SAMA7G5_SFR_UTMI_RX_TXPREEMPAMPTUNE_1X w;
    Some (0, w')
  else if phy_port sama7g5_phy =? 2 then
    w' ← regmap_update_bits (phy_sfr sama7g5_phy) SAMA7G5_SFR_UTMI0R1
           SAMA7G5_SFR_UTMI_RX_TXPREEMPAMPTUNE_1X
           SAMA7G5_SFR_UTMI_RX_TXPREEMPAMPTUNE_1X w;
    Some (0, w')
  else Some (- ENODEV, w).

Definition sama7g5_phy_power_on (w : phy_world) : option (Z * phy_world) :=
  let sama7g5_phy := drvdata w in
  match phy_rstc sama7g5_phy with
  | None => Some (- ENODEV, w)
  | Some _ =>
      (* OHCI is clocked by PHY 1 so enable it if we are in Host mode *)
      w ← (if phy_mode sama7g5_phy =? PHY_MODE_USB_HOST
            then regmap_update_bits (phy_rstc sama7g5_phy) AT91_RSTC_GRSTR
                   AT91_GRSTR_USB_RST1 0 w
            else Some w);
      (* Take the PHY out of reset *)
      if phy_port sama7g5_phy =? 0 then
        w' ← regmap_update_bits (phy_rstc sama7g5_phy) AT91_RSTC_GRSTR
               AT91_GRSTR_USB_RST1 0 w;
        (* Datasheet states a minimum of 45 us before any USB operation *)
        Some (0, udelay 50 w')
      else if phy_port sama7g5_phy =? 1 then
        w' ← regmap_update_bits (phy_rstc sama7g5_phy) AT91_RSTC_GRSTR
               AT91_GRSTR_USB_RST2 0 w;
        Some (0, udelay 50 w')
      else if phy_port sama7g5_phy =? 2 then
        w' ← regmap_update_bits (phy_rstc sama7g5_phy) AT91_RSTC_GRSTR
               AT91_GRSTR_USB_RST3 0 w;
        Some (0, udelay 50 w')
      else Some (- ENODEV, w)
  end.

Definition sama7g5_phy_power_off (w : phy_world) : option (Z * phy_world) :=
  let sama7g5_phy := drvdata w in
  match phy_rstc sama7g5_phy with
  | None => Some (- ENODEV, w)
  | Some _ =>
      (* Put the PHY in reset mode *)
      if phy_port sama7g5_phy =? 0 then
        w' ← regmap_update_bits (phy_rstc sama7g5_phy) AT91_RSTC_GRSTR
               AT91_GRSTR_USB_RST1 AT91_GRSTR_USB_RST1 w;
        Some (0, w')
      else if phy_port sama7g5_phy =? 1 then
        w' ← regmap_update_bits (phy_rstc sama7g5_phy) AT91_RSTC_GRSTR
               AT91_GRSTR_USB_RST2 AT91_GRSTR_USB_RST2 w;
        Some (0, w')
      else if phy_port sama7g5_phy =? 2 then
        w' ← regmap_update_bits (phy_rstc sama7g5_phy) AT91_RSTC_GRSTR
               AT91_GRSTR_USB_RST3 AT91_GRSTR_USB_RST3 w;
        Some (0, w')
      else Some (- ENODEV, w)
  end.

(** A PHY as [sama7g5_usb_phy_probe] leaves it: both register maps found,
    no mode set yet. *)
Definition probed_phy (port : Z) : phy_world := {|
  rstc_regs := {[ AT91_RSTC_GRSTR := 0x70 ]};
  sfr_regs := ∅;
  drvdata := mk_phy (Some regmap_rstc) (Some regmap_sfr) PHY_MODE_INVALID port;
  udelayed := 0
|}.







(** * XDMAC register fields (drivers/dma/at_xdmac_regs.h)

    The field macros of the header, on 32-bit register words.  The
    macros whose expansion depends on [CONFIG_AT_XDMAC_SAMA7G5] take the
    configuration as their first argument. *)

Definition AT_XDMAC_MAX_CHAN : Z := 0x20.

(** Fields of the Global Type Register. *)
Definition AT_XDMAC_NB_CH (i : Z) : Z := Z.land i 0x1F + 1.
Definition AT_XDMAC_FIFO_SZ (i : Z) : Z := Z.land (Z.shiftr i 5) 0x7FF.
Definition AT_XDMAC_NB_REQ (i : Z) : Z := Z.land (Z.shiftr i 16) 0x3F + 1.

(** Fields of the Global Configuration Register. *)
Definition AT_XDMAC_WRHP (i : Z) : Z := u32 (Z.shiftl (Z.land i 0xF) 4).
Definition AT_XDMAC_WRMP (i : Z) : Z := u32 (Z.shiftl (Z.land i 0xF) 8).
Definition AT_XDMAC_WRLP (i : Z) : Z := u32 (Z.shiftl (Z.land i 0xF) 12).
Definition AT_XDMAC_RDHP (i : Z) : Z := u32 (Z.shiftl (Z.land i 0xF) 16).
Definition AT_XDMAC_RDMP (i : Z) : Z := u32 (Z.shiftl (Z.land i 0xF) 20).
Definition AT_XDMAC_RDLP (i : Z) : Z := u32 (Z.shiftl (Z.land i 0xF) 24).
Definition AT_XDMAC_RDSG (i : Z) : Z := u32 (Z.shiftl (Z.land i 0xF) 28).

Definition AT_XDMAC_GCFG_M2M (CONFIG_AT_XDMAC_SAMA7G5 : bool) : Z :=
  if CONFIG_AT_XDMAC_SAMA7G5
  then Z.lor (AT_XDMAC_RDLP 0xF) (AT_XDMAC_WRLP 0xF)
  else 0.
Definition AT_XDMAC_GCFG_P2M (CONFIG_AT_XDMAC_SAMA7G5 : bool) : Z :=
  if CONFIG_AT_XDMAC_SAMA7G5
  then Z.lor (Z.lor (AT_XDMAC_RDSG 0x1) (AT_XDMAC_RDHP 0x3)) (AT_XDMAC_WRHP 0x5)
  else 0.

(** Fields of the Channel Next Descriptor Address Register. *)
Definition AT_XDMAC_CNDA_NDAIF (CONFIG_AT_XDMAC_SAMA7G5 : bool) (i : Z) : Z :=
  if CONFIG_AT_XDMAC_SAMA7G5 then 0x0 else Z.land i 0x1.
Definition AT_XDMAC_CNDA_NDA (i : Z) : Z := Z.land i 0xfffffffc.

(** Fields of the Channel Configuration Register. *)
Definition AT_XDMAC_CC_TYPE : Z := Z.shiftl 0x1 0.
Definition AT_XDMAC_CC_MBSIZE_MASK : Z := Z.shiftl 0x3 1.
Definition AT_XDMAC_CC_DSYNC : Z := Z.shiftl 0x1 4.
Definition AT_XDMAC_CC_PROT : Z := Z.shiftl 0x1 5.
Definition AT_XDMAC_CC_SWREQ : Z := Z.shiftl 0x1 6.
Definition AT_XDMAC_CC_MEMSET : Z := Z.shiftl 0x1 7.
Definition AT_XDMAC_CC_CSIZE (i : Z) : Z := u32 (Z.shiftl (Z.land 0x7 i) 8).
Definition AT_XDMAC_CC_DWIDTH_OFFSET : Z := 11.
Definition AT_XDMAC_CC_DWIDTH_MASK : Z := Z.shiftl 0x3 AT_XDMAC_CC_DWIDTH_OFFSET.
Definition AT_XDMAC_CC_DWIDTH (i : Z) : Z :=
  u32 (Z.shiftl (Z.land 0x3 i) AT_XDMAC_CC_DWIDTH_OFFSET).
Definition AT_XDMAC_CC_SIF (CONFIG_AT_XDMAC_SAMA7G5 : bool) (i : Z) : Z :=
  if CONFIG_AT_XDMAC_SAMA7G5 then 0 else u32 (Z.shiftl (Z.land 0x1 i) 13).
Definition AT_XDMAC_CC_DIF (CONFIG_AT_XDMAC_SAMA7G5 : bool) (i : Z) : Z :=
  if CONFIG_AT_XDMAC_SAMA7G5 then 0 else u32 (Z.shiftl (Z.land 0x1 i) 14).
Definition AT_XDMAC_CC_SAM_MASK : Z := Z.shiftl 0x3 16.
Definition AT_XDMAC_CC_DAM_MASK : Z := Z.shiftl 0x3 18.
Definition AT_XDMAC_CC_INITD : Z := Z.shiftl 0x1 21.
Definition AT_XDMAC_CC_RDIP : Z := Z.shiftl 0x1 22.
Definition AT_XDMAC_CC_WRIP : Z := Z.shiftl 0x1 23.
(** In C [<<] binds tighter than [&]: the macro body [0x7f & (i) << 24]
    is [0x7f & ((i) << 24)]. *)
Definition AT_XDMAC_CC_PERID (i : Z) : Z := Z.land 0x7f (u32 (Z.shiftl i 24)).

(** * Properties *)

(** ** Arithmetic helpers *)

Lemma u8_small (x : Z) : 0 <= x < 2 ^ 8 -> u8 x = x.
Proof. intros H. unfold u8. apply Z.mod_small. exact H. Qed.

Lemma u16_small (x : Z) : 0 <= x < 2 ^ 16 -> u16 x = x.
Proof. intros H. unfold u16. apply Z.mod_small. exact H. Qed.

Lemma u32_small (x : Z) : 0 <= x < 2 ^ 32 -> u32 x = x.
Proof. intros H. unfold u32. apply Z.mod_small. exact H. Qed.

Lemma u64_small (x : Z) : 0 <= x < 2 ^ 64 -> u64 x = x.
Proof. intros H. unfold u64. apply Z.mod_small. exact H. Qed.

Lemma u32_range (x : Z) : 0 <= u32 x < 2 ^ 32.
Proof. unfold u32. apply Z.mod_pos_bound. lia. Qed.

Lemma ulong_range (x : Z) : 0 <= ulong x <= ULONG_MAX.
Proof.
  unfold ulong, ULONG_MAX, BITS_PER_LONG.
  pose proof (Z.mod_pos_bound x (2 ^ 32)). lia.
Qed.

Lemma div_ulong_small (c d : Z) :
  0 <= c <= ULONG_MAX -> 1 <= d -> 0 <= c / d < 2 ^ 32.
Proof.
  unfold ULONG_MAX, BITS_PER_LONG. intros Hc Hd. split.
  - apply Z.div_pos; lia.
  - apply Z.le_lt_trans with c; [| lia].
    apply Z.div_le_upper_bound; nia.
Qed.

(** ** The prescaler solver *)

Example pit64_pres_compute_32M : pit64_pres_compute 32000000 2500000 = 13.
Proof. reflexivity. Qed.

Example mchp_pit64_pres_compute_32M : mchp_pit64_pres_compute 32000000 2500000 = 12.
Proof. reflexivity. Qed.

Example mchp_pit64_pres_compute_slow : mchp_pit64_pres_compute 2000000 2500000 = 0.
Proof. reflexivity. Qed.

Example pit64_pres_compute_eq : pit64_pres_compute 2500000 2500000 = 2.
Proof. reflexivity. Qed.

(** The loops leave by their own exit tests: any fuel that covers the
    remaining candidates gives the same result. *)
Lemma pit64_pres_loop_fuel (f1 f2 : nat) (c m p : Z) :
  0 <= p -> (Z.to_nat (AT91_PRES_MAX - p) <= f1)%nat ->
  (Z.to_nat (AT91_PRES_MAX - p) <= f2)%nat ->
  pit64_pres_loop f1 c m p = pit64_pres_loop f2 c m p.
Proof.
  unfold AT91_PRES_MAX. revert f2 p.
  induction f1 as [| f1 IH]; intros f2 p Hp H1 H2.
  - destruct f2 as [| f2]; [reflexivity |]. simpl.
    unfold AT91_PRES_MAX. destruct (Z.ltb_spec p 16); [lia | reflexivity].
  - destruct f2 as [| f2]; simpl; unfold AT91_PRES_MAX.
    + destruct (Z.ltb_spec p 16); [lia | reflexivity].
    + destruct (Z.ltb_spec p 16); [| reflexivity].
      destruct (u32 (c / p) <=? m); [reflexivity |].
      rewrite u16_small by lia. apply IH; lia.
Qed.

Lemma mchp_pit64_pres_loop_fuel (f1 f2 : nat) (c m p : Z) :
  0 <= p -> (Z.to_nat (MCHP_PRES_MAX - p) <= f1)%nat ->
  (Z.to_nat (MCHP_PRES_MAX - p) <= f2)%nat ->
  mchp_pit64_pres_loop f1 c m p = mchp_pit64_pres_loop f2 c m p.
Proof.
  unfold MCHP_PRES_MAX. revert f2 p.
  induction f1 as [| f1 IH]; intros f2 p Hp H1 H2.
  - destruct f2 as [| f2]; [reflexivity |]. simpl.
    unfold MCHP_PRES_MAX. destruct (Z.ltb_spec p 16); [lia | reflexivity].
  - destruct f2 as [| f2]; simpl; unfold MCHP_PRES_MAX.
    + destruct (Z.ltb_spec p 16); [lia | reflexivity].
    + destruct (Z.ltb_spec p 16); [| reflexivity].
      destruct (u32 (c / u32 (p + 1)) <=? m); [reflexivity |].
      rewrite (u32_small (p + 1)) by lia. apply IH; lia.
Qed.

Lemma pit64_pres_loop_range (fuel : nat) (c m p : Z) :
  2 <= p <= 16 -> p <= pit64_pres_loop fuel c m p <= 16.
Proof.
  revert p. induction fuel as [| fuel IH]; intros p Hp; simpl; [lia |].
  unfold AT91_PRES_MAX. destruct (Z.ltb_spec p 16); [| lia].
  destruct (u32 (c / p) <=? m); [lia |].
  rewrite u16_small by lia.
  specialize (IH (p + 1)). lia.
Qed.

Lemma pit64_pres_loop_spec (fuel : nat) (c m p : Z) :
  0 <= c <= ULONG_MAX -> 2 <= p <= 16 ->
  (Z.to_nat (16 - p) <= fuel)%nat ->
  let r := pit64_pres_loop fuel c m p in
  p <= r <= 16 /\ (r < 16 -> c / r <= m) /\
  (forall d, p <= d < r -> m < c / d).
Proof.
  intros Hc. revert p. induction fuel as [| fuel IH]; intros p Hp Hf; simpl.
  - repeat split; try lia.
  - unfold AT91_PRES_MAX. destruct (Z.ltb_spec p 16).
    2:{ repeat split; try lia. }
    rewrite (u32_small (c / p)) by (apply div_ulong_small; [exact Hc | lia]).
    destruct (Z.leb_spec (c / p) m).
    + repeat split; try lia.
    + rewrite u16_small by lia.
      destruct (IH (p + 1)) as (Hr & Hfit & Hmin); [lia | lia |].
      split; [lia |]. split; [exact Hfit |].
      intros d Hd. destruct (Z.eq_dec d p) as [-> | Hne]; [lia |].
      apply Hmin. lia.
Qed.

Lemma mchp_pit64_pres_loop_spec (fuel : nat) (c m p : Z) :
  0 <= c <= ULONG_MAX -> 0 <= p <= 16 ->
  (Z.to_nat (16 - p) <= fuel)%nat ->
  let r := mchp_pit64_pres_loop fuel c m p in
  p <= r <= 16 /\ (r < 16 -> c / (r + 1) <= m) /\
  (forall i, p <= i < r -> m < c / (i + 1)).
Proof.
  intros Hc. revert p. induction fuel as [| fuel IH]; intros p Hp Hf; simpl.
  - repeat split; try lia.
  - unfold MCHP_PRES_MAX. destruct (Z.ltb_spec p 16).
    2:{ repeat split; try lia. }
    rewrite (u32_small (p + 1)) by lia.
    rewrite (u32_small (c / (p + 1))) by (apply div_ulong_small; [exact Hc | lia]).
    destruct (Z.leb_spec (c / (p + 1)) m).
    + repeat split; try lia.
    + destruct (IH (p + 1)) as (Hr & Hfit & Hmin); [lia | lia |].
      split; [lia |]. split; [exact Hfit |].
      intros i Hi. destruct (Z.eq_dec i p) as [-> | Hne]; [lia |].
      apply Hmin. lia.
Qed.

Lemma pit64_pres_compute_range (c m : Z) : 2 <= pit64_pres_compute c m <= 16.
Proof.
  unfold pit64_pres_compute.
  pose proof (pit64_pres_loop_range 16 c m 2 ltac:(lia)) as H.
  unfold AT91_PRES_MAX.
  destruct (Z.eqb_spec (pit64_pres_loop 16 c m 2) (16 + 1)); lia.
Qed.

(** C1 (the claim holds for the legacy solver and fails for the current
    one): [pit64_pres_compute] always returns a divider in [2,16], hence in
    [1,16]; [mchp_pit64_pres_compute] returns its search index, and for the
    positive inputs 2,000,000 Hz and 2,500,000 Hz that value, which the
    init functions store in [pres] and divide by, is 0. *)
Theorem pres_compute_divider_range :
  (forall clk_rate max_rate, 1 <= pit64_pres_compute clk_rate max_rate <= 16) /\
  0 < 2000000 /\ 0 < 2500000 /\
  mchp_pit64_pres_compute 2000000 2500000 = 0 /\
  ~ 1 <= mchp_pit64_pres_compute 2000000 2500000 <= 16.
Proof.
  split.
  - intros c m. pose proof (pit64_pres_compute_range c m). lia.
  - repeat split; try reflexivity. vm_compute. intros [H _]. apply H. reflexivity.
Qed.

(** C2 (holds for the legacy solver, fails for the current one): for
    32,000,000 Hz and a target of 2,500,000 Hz [pit64_pres_compute] returns
    13 and [pit64_dt_init_clksrc] registers the clocksource at 2,461,538
    Hz; [mchp_pit64_pres_compute] returns 12, and
    [mchp_pit64_dt_init_clksrc] divides the clock rate by that 12: it
    programs the prescaler field with 11 and registers the clocksource at
    2,666,666 Hz, above the target. *)
Theorem pres_compute_32M_example :
  pit64_pres_compute 32000000 2500000 = 13 /\
  32000000 / 13 = 2461538 /\
  (exists w,
     pit64_dt_init_clksrc 0xe1800000 0xc0a01000 (board 32000000 0) boot
       = Done 0 w /\
     trace w =
       [Kzalloc 0xc1000000; ClkPrepareEnable 0xc0a01000 0;
        ClkGetRate 0xc0a01000 32000000;
        Writel AT91_PIT64_CR_SWRST (0xe1800000 + AT91_PIT64_CR);
        Writel (Z.lor AT91_PIT64_MR_CONT (Z.shiftl 12 8)) (0xe1800000 + AT91_PIT64_MR);
        Writel 0xffffffff (0xe1800000 + AT91_PIT64_MSB_PR);
        Writel 0xffffffff (0xe1800000 + AT91_PIT64_LSB_PR);
        Writel AT91_PIT64_CR_START (0xe1800000 + AT91_PIT64_CR);
        ClocksourceRegisterHz dev_clksrc 2461538 0;
        SchedClockRegister 64 2461538]) /\
  mchp_pit64_pres_compute 32000000 2500000 = 12 /\
  exists w,
    mchp_pit64_dt_init_clksrc 0xe1800000 0xc0a01000 (board 32000000 0) boot
      = Done 0 w /\
    trace w =
      [Kzalloc 0xc1000000; ClkPrepareEnable 0xc0a01000 0;
       ClkGetRate 0xc0a01000 32000000;
       Writel MCHP_PIT64_CR_SWRST (0xe1800000 + MCHP_PIT64_CR);
       Writel (Z.lor MCHP_PIT64_MR_CONT (Z.shiftl 11 8)) (0xe1800000 + MCHP_PIT64_MR);
       Writel 0xffffffff (0xe1800000 + MCHP_PIT64_MSB_PR);
       Writel 0xffffffff (0xe1800000 + MCHP_PIT64_LSB_PR);
       Writel MCHP_PIT64_CR_START (0xe1800000 + MCHP_PIT64_CR);
       ClocksourceRegisterHz dev_mchp_clksrc 2666666 0;
       SchedClockRegister 64 2666666] /\
    2500000 < 2666666.
Proof.
  split; [reflexivity |]. split; [reflexivity |].
  split; [eexists; split; vm_compute; reflexivity |].
  split; [reflexivity |].
  eexists. split; [vm_compute; reflexivity |].
  split; [vm_compute; reflexivity | lia].
Qed.

(** What the two scans have in common: for positive rates with
    [max_rate <= clk_rate] (and [clk_rate] an [unsigned long]) the legacy
    solver returns the first divider of its scan 2..15 that meets the
    bound, or 16; the current solver returns the index [d - 1] of the
    first divider [d] of 1..16 that meets the bound, or 15. *)
Lemma pres_scan_first_fit (clk_rate max_rate : Z) :
  0 < max_rate -> max_rate <= clk_rate -> clk_rate <= ULONG_MAX ->
  (let d := pit64_pres_compute clk_rate max_rate in
   2 <= d <= 16 /\
   (clk_rate / d <= max_rate \/ d = 16) /\
   (forall d', 2 <= d' < d -> ~ clk_rate / d' <= max_rate)) /\
  (let d := mchp_pit64_pres_compute clk_rate max_rate + 1 in
   1 <= d <= 16 /\
   (clk_rate / d <= max_rate \/ d = 16) /\
   (forall d', 1 <= d' < d -> ~ clk_rate / d' <= max_rate)).
Proof.
  intros Hm Hle Hc. split.
  - unfold pit64_pres_compute, AT91_PRES_MAX.
    destruct (pit64_pres_loop_spec 16 clk_rate max_rate 2)
      as (Hr & Hfit & Hmin); [lia | lia | simpl; lia |].
    destruct (Z.eqb_spec (pit64_pres_loop 16 clk_rate max_rate 2) (16 + 1));
      [lia |].
    cbv zeta. split; [lia |]. split.
    + destruct (Z.eq_dec (pit64_pres_loop 16 clk_rate max_rate 2) 16);
        [right; assumption | left; apply Hfit; lia].
    + intros d' Hd' Hbad. specialize (Hmin d' Hd'). lia.
  - unfold mchp_pit64_pres_compute, MCHP_PRES_MAX.
    destruct (mchp_pit64_pres_loop_spec 16 clk_rate max_rate 0)
      as (Hr & Hfit & Hmin); [lia | lia | simpl; lia |].
    cbv zeta.
    destruct (Z.eqb_spec (mchp_pit64_pres_loop 16 clk_rate max_rate 0) 16)
      as [E | NE].
    + change (u16 (16 - 1) + 1) with 16.
      split; [lia |]. split; [right; reflexivity |].
      intros d' Hd' Hbad. specialize (Hmin (d' - 1)).
      replace (d' - 1 + 1) with d' in Hmin by lia. lia.
    + rewrite u16_small by lia.
      split; [lia |]. split; [left; apply Hfit; lia |].
      intros d' Hd' Hbad. specialize (Hmin (d' - 1)).
      replace (d' - 1 + 1) with d' in Hmin by lia. lia.
Qed.

(** C5 (the claim fails for the current solver): at the admissible input
    32,000,000 Hz with target 2,500,000 Hz [mchp_pit64_pres_compute]
    returns 12.  That value is not a divider meeting the bound
    (32,000,000 / 12 = 2,666,666 Hz) and is not the maximum divider 16: it
    is the search index of the first fitting divider 13.  The legacy
    [pit64_pres_compute] returns that divider 13 at the same input, which
    meets the bound while none of the dividers 1..12 does, as the claim
    says.  At equal rates the legacy solver, whose scan starts at 2,
    returns 2 although divider 1 already meets the bound. *)
Theorem pres_compute_first_fit :
  0 < 2500000 /\ 2500000 <= 32000000 /\
  pit64_pres_compute 32000000 2500000 = 13 /\
  32000000 / 13 <= 2500000 /\
  Forall (fun d' => ~ 32000000 / d' <= 2500000) [1; 2; 3; 4; 5; 6; 7; 8; 9; 10; 11; 12] /\
  mchp_pit64_pres_compute 32000000 2500000 = 12 /\
  ~ (32000000 / mchp_pit64_pres_compute 32000000 2500000 <= 2500000 \/
     mchp_pit64_pres_compute 32000000 2500000 = 16) /\
  32000000 / (mchp_pit64_pres_compute 32000000 2500000 + 1) <= 2500000 /\
  pit64_pres_compute 2500000 2500000 = 2 /\
  2500000 / 1 <= 2500000.
Proof.
  split; [lia |]. split; [lia |].
  split; [reflexivity |].
  split; [vm_compute; discriminate |].
  split.
  { repeat constructor; vm_compute; intros H; apply H; reflexivity. }
  split; [reflexivity |].
  split.
  { change (mchp_pit64_pres_compute 32000000 2500000) with 12.
    intros [H | H]; [| discriminate H].
    vm_compute in H. apply H. reflexivity. }
  split; [vm_compute; discriminate |].
  split; [reflexivity |].
  vm_compute. discriminate.
Qed.

(** C10 (fails for the current variant): with the clock reporting the
    positive rate 2,000,000 Hz the solver returns 0, and both
    [mchp_pit64_dt_init_clksrc] and [mchp_pit64_dt_init_clkevt] reach
    [clk_rate / pres] with [pres = 0]: the division traps. *)
Theorem mchp_init_divides_by_zero :
  0 < 2000000 /\
  (exists w,
     mchp_pit64_dt_init_clksrc 0xe1800000 0xc0a01000 (board 2000000 0) boot
       = Crash DivideByZero w /\
     trace w = [Kzalloc 0xc1000000; ClkPrepareEnable 0xc0a01000 0;
                ClkGetRate 0xc0a01000 2000000]) /\
  (exists w,
     mchp_pit64_dt_init_clkevt 0xe1800000 0xc0a01000 40 (board 2000000 0) boot
       = Crash DivideByZero w /\
     trace w = [Kzalloc 0xc1000000; ClkPrepareEnable 0xc0a01000 0;
                ClkGetRate 0xc0a01000 2000000]).
Proof.
  split; [lia |].
  split; eexists; (split; [vm_compute; reflexivity | vm_compute; reflexivity]).
Qed.

(** ** Running the monad *)

Ltac unfold_monad :=
  cbv beta iota zeta delta
    [mbind M_bind mret M_ret emit modify get_env get_world history crash].

Ltac simp_world :=
  cbn [trace data_csd data_ced cs_heap ce_heap brk cev_cpumask cev_irq
       cev_state set_trace set_data_csd set_data_ced set_cs_heap set_ce_heap
       set_brk set_cev_cpumask set_cev_irq set_cev_state].

Ltac run := unfold_monad; simp_world; rewrite <- ?app_assoc.

(** ** Bit-level facts about what is written *)

Lemma msb_of_u64 (v : Z) : 0 <= v < 2 ^ 64 -> u32 (Z.shiftr v 32) = v / 2 ^ 32.
Proof.
  intros Hv. rewrite Z.shiftr_div_pow2 by lia.
  apply u32_small. split.
  - apply Z.div_pos; lia.
  - apply Z.div_lt_upper_bound; lia.
Qed.

Lemma lsb_of_u64 (v : Z) : u32 (Z.land v AT91_PIT64_LSBMASK) = v mod 2 ^ 32.
Proof.
  change AT91_PIT64_LSBMASK with (Z.ones 32).
  rewrite Z.land_ones by lia.
  apply u32_small. apply Z.mod_pos_bound. lia.
Qed.

Lemma lor_u32 (a b : Z) :
  0 <= a < 2 ^ 32 -> 0 <= b < 2 ^ 32 -> 0 <= Z.lor a b < 2 ^ 32.
Proof.
  intros Ha Hb. split; [apply Z.lor_nonneg; lia |].
  destruct (Z.eq_dec (Z.lor a b) 0) as [-> | Hne]; [lia |].
  assert (0 < Z.lor a b) by (pose proof (proj2 (Z.lor_nonneg a b)); lia).
  apply Z.log2_lt_pow2; [assumption |].
  rewrite Z.log2_lor by lia.
  destruct (Z.eq_dec a 0) as [-> | Ha0], (Z.eq_dec b 0) as [-> | Hb0];
    cbn [Z.log2]; try lia.
  - pose proof (proj1 (Z.log2_lt_pow2 b 32 ltac:(lia))). lia.
  - pose proof (proj1 (Z.log2_lt_pow2 a 32 ltac:(lia))). lia.
  - pose proof (proj1 (Z.log2_lt_pow2 a 32 ltac:(lia))).
    pose proof (proj1 (Z.log2_lt_pow2 b 32 ltac:(lia))). lia.
Qed.

Lemma PRESCALER_range (p : Z) : 0 <= AT91_PIT64_PRESCALER p < 2 ^ 32.
Proof.
  unfold AT91_PIT64_PRESCALER. change AT91_PIT64_MR_PRES with 3840.
  set (y := Z.shiftl p 8).
  assert (E : Z.land 3840 y = Z.land 3840 (y mod 2 ^ 12)).
  { rewrite <- (Z.land_ones y 12) by lia.
    rewrite (Z.land_comm y), Z.land_assoc. reflexivity. }
  rewrite E.
  pose proof (Z.mod_pos_bound y (2 ^ 12) ltac:(lia)) as Hy.
  assert (H0 : 0 <= Z.land 3840 (y mod 2 ^ 12)) by (apply Z.land_nonneg; lia).
  split; [exact H0 |].
  destruct (Z.eq_dec (Z.land 3840 (y mod 2 ^ 12)) 0) as [-> | Hne]; [lia |].
  apply Z.log2_lt_pow2; [lia |].
  pose proof (Z.log2_land 3840 (y mod 2 ^ 12) ltac:(lia) ltac:(lia)) as Hl.
  change (Z.log2 3840) with 11 in Hl. lia.
Qed.

Lemma mode_word_u32 (mode p : Z) :
  0 <= mode < 2 ^ 32 ->
  u32 (Z.lor mode (AT91_PIT64_PRESCALER p)) = Z.lor mode (AT91_PIT64_PRESCALER p).
Proof.
  intros Hm. apply u32_small. apply lor_u32; [exact Hm | apply PRESCALER_range].
Qed.

(** For a divider in [1,16] the prescaler field holds divider - 1 in bits
    11..8. *)
Lemma PRESCALER_field (pres : Z) :
  1 <= pres <= 16 -> AT91_PIT64_PRESCALER (pres - 1) = (pres - 1) * 2 ^ 8.
Proof.
  intros H.
  assert (C : pres = 1 \/ pres = 2 \/ pres = 3 \/ pres = 4 \/ pres = 5 \/
              pres = 6 \/ pres = 7 \/ pres = 8 \/ pres = 9 \/ pres = 10 \/
              pres = 11 \/ pres = 12 \/ pres = 13 \/ pres = 14 \/ pres = 15 \/
              pres = 16) by lia.
  repeat (destruct C as [-> | C]; [reflexivity |]). subst. reflexivity.
Qed.

(** ** Register protocol *)

Lemma pit64_set_period_run (base cycles : Z) (env : kernel_env) (w : world) :
  pit64_set_period base cycles env w =
  Done tt (set_trace (trace w ++
    [Writel (u32 (Z.shiftr cycles 32)) (base + AT91_PIT64_MSB_PR);
     Writel (u32 (Z.land cycles AT91_PIT64_LSBMASK)) (base + AT91_PIT64_LSB_PR)]) w).
Proof.
  unfold pit64_set_period, pit64_write, writel_relaxed. run. reflexivity.
Qed.

Lemma mchp_pit64_set_period_run (base cycles : Z) (env : kernel_env) (w : world) :
  mchp_pit64_set_period base cycles env w =
  Done tt (set_trace (trace w ++
    [Writel (u32 (Z.shiftr cycles 32)) (base + MCHP_PIT64_MSB_PR);
     Writel (u32 (Z.land cycles MCHP_PIT64_LSBMASK)) (base + MCHP_PIT64_LSB_PR)]) w).
Proof.
  unfold mchp_pit64_set_period, mchp_pit64_write, writel_relaxed. run. reflexivity.
Qed.

Lemma pit64_reset_run (data : pit64_common_data) (mode : Z) (irq_ena : bool)
    (env : kernel_env) (w : world) :
  pit64_reset data mode irq_ena env w =
  Done tt (set_trace (trace w ++
    [Writel AT91_PIT64_CR_SWRST (cd_base data + AT91_PIT64_CR);
     Writel (u32 (Z.lor mode (AT91_PIT64_PRESCALER (cd_pres data - 1))))
            (cd_base data + AT91_PIT64_MR);
     Writel (u32 (Z.shiftr (cd_cycles data) 32)) (cd_base data + AT91_PIT64_MSB_PR);
     Writel (u32 (Z.land (cd_cycles data) AT91_PIT64_LSBMASK))
            (cd_base data + AT91_PIT64_LSB_PR)] ++
    (if irq_ena
     then [Writel AT91_PIT64_IER_PERIOD (cd_base data + AT91_PIT64_IER)]
     else []) ++
    [Writel AT91_PIT64_CR_START (cd_base data + AT91_PIT64_CR)]) w).
Proof.
  unfold pit64_reset, pit64_set_period, pit64_write, writel_relaxed.
  destruct irq_ena; run; reflexivity.
Qed.

Lemma mchp_pit64_reset_run (data : pit64_common_data) (mode : Z) (irq_ena : bool)
    (env : kernel_env) (w : world) :
  mchp_pit64_reset data mode irq_ena env w =
  Done tt (set_trace (trace w ++
    [Writel MCHP_PIT64_CR_SWRST (cd_base data + MCHP_PIT64_CR);
     Writel (u32 (Z.lor mode (MCHP_PIT64_PRESCALER (cd_pres data - 1))))
            (cd_base data + MCHP_PIT64_MR);
     Writel (u32 (Z.shiftr (cd_cycles data) 32)) (cd_base data + MCHP_PIT64_MSB_PR);
     Writel (u32 (Z.land (cd_cycles data) MCHP_PIT64_LSBMASK))
            (cd_base data + MCHP_PIT64_LSB_PR)] ++
    (if irq_ena
     then [Writel MCHP_PIT64_IER_PERIOD (cd_base data + MCHP_PIT64_IER)]
     else []) ++
    [Writel MCHP_PIT64_CR_START (cd_base data + MCHP_PIT64_CR)]) w).
Proof.
  unfold mchp_pit64_reset, mchp_pit64_set_period, mchp_pit64_write, writel_relaxed.
  destruct irq_ena; run; reflexivity.
Qed.

(** C6: for any mode flags (a [u32]), any reload value (a [u64]) and either
    setting of the interrupt flag, [pit64_reset] and [mchp_pit64_reset]
    perform exactly these register accesses, in this order: the software
    reset to the control register, the mode flags merged with the
    prescaler field of [pres - 1] to the mode register, the high then the
    low half of the reload value to the period registers, the
    period-interrupt enable only if requested, and the start command to the
    control register.  Nothing else in the world changes. *)
Theorem reset_register_sequence (data : pit64_common_data) (mode : Z)
    (irq_ena : bool) (env : kernel_env) (w : world) :
  0 <= mode < 2 ^ 32 -> 0 <= cd_cycles data < 2 ^ 64 ->
  pit64_reset data mode irq_ena env w =
    Done tt (set_trace (trace w ++
      [Writel AT91_PIT64_CR_SWRST (cd_base data + AT91_PIT64_CR);
       Writel (Z.lor mode (AT91_PIT64_PRESCALER (cd_pres data - 1)))
              (cd_base data + AT91_PIT64_MR);
       Writel (cd_cycles data / 2 ^ 32) (cd_base data + AT91_PIT64_MSB_PR);
       Writel (cd_cycles data mod 2 ^ 32) (cd_base data + AT91_PIT64_LSB_PR)] ++
      (if irq_ena
       then [Writel AT91_PIT64_IER_PERIOD (cd_base data + AT91_PIT64_IER)]
       else []) ++
      [Writel AT91_PIT64_CR_START (cd_base data + AT91_PIT64_CR)]) w) /\
  mchp_pit64_reset data mode irq_ena env w =
    Done tt (set_trace (trace w ++
      [Writel MCHP_PIT64_CR_SWRST (cd_base data + MCHP_PIT64_CR);
       Writel (Z.lor mode (MCHP_PIT64_PRESCALER (cd_pres data - 1)))
              (cd_base data + MCHP_PIT64_MR);
       Writel (cd_cycles data / 2 ^ 32) (cd_base data + MCHP_PIT64_MSB_PR);
       Writel (cd_cycles data mod 2 ^ 32) (cd_base data + MCHP_PIT64_LSB_PR)] ++
      (if irq_ena
       then [Writel MCHP_PIT64_IER_PERIOD (cd_base data + MCHP_PIT64_IER)]
       else []) ++
      [Writel MCHP_PIT64_CR_START (cd_base data + MCHP_PIT64_CR)]) w).
Proof.
  intros Hm Hc. split.
  - rewrite pit64_reset_run.
    rewrite mode_word_u32, msb_of_u64, lsb_of_u64 by assumption. reflexivity.
  - rewrite mchp_pit64_reset_run.
    change MCHP_PIT64_PRESCALER with AT91_PIT64_PRESCALER.
    change MCHP_PIT64_LSBMASK with AT91_PIT64_LSBMASK.
    rewrite mode_word_u32, msb_of_u64, lsb_of_u64 by assumption. reflexivity.
Qed.

Lemma reset_register_sequence_witness :
  pit64_reset (mk_cd 0xe1800000 0xc0a01000 24615 13) AT91_PIT64_MR_SMOD true
              (board 32000000 0) boot =
    Done tt (set_trace
      [Writel 0x100 0xe1800000; Writel 0xc10 0xe1800004;
       Writel 0 0xe180000c; Writel 24615 0xe1800008;
       Writel 1 0xe1800010; Writel 1 0xe1800000] boot) /\
  mchp_pit64_reset (mk_cd 0xe1800000 0xc0a01000 24615 13) MCHP_PIT64_MR_SMOD true
              (board 32000000 0) boot =
    Done tt (set_trace
      [Writel 0x100 0xe1800000; Writel 0xc10 0xe1800004;
       Writel 0 0xe180000c; Writel 24615 0xe1800008;
       Writel 1 0xe1800010; Writel 1 0xe1800000] boot).
Proof.
  apply (reset_register_sequence (mk_cd 0xe1800000 0xc0a01000 24615 13)
           AT91_PIT64_MR_SMOD true (board 32000000 0) boot).
  - vm_compute. split; [discriminate | reflexivity].
  - vm_compute. split; [discriminate | reflexivity].
Defined.

Lemma pit64_get_period_run (base : Z) (env : kernel_env) (w : world) :
  let lsb := u32 (hw_readl env (trace w) (base + AT91_PIT64_TLSB_CVR)) in
  let msb := u32 (hw_readl env (trace w ++ [Readl (base + AT91_PIT64_TLSB_CVR) lsb])
                           (base + AT91_PIT64_TMSB_CVR)) in
  pit64_get_period base env w =
  Done (Z.lor (u64 (Z.shiftl msb 32)) lsb)
       (set_trace (trace w ++ [Readl (base + AT91_PIT64_TLSB_CVR) lsb;
                               Readl (base + AT91_PIT64_TMSB_CVR) msb]) w).
Proof.
  unfold pit64_get_period, pit64_read, readl_relaxed. run. reflexivity.
Qed.

Lemma mchp_pit64_get_period_run (base : Z) (env : kernel_env) (w : world) :
  let lsb := u32 (hw_readl env (trace w) (base + MCHP_PIT64_TLSBR)) in
  let msb := u32 (hw_readl env (trace w ++ [Readl (base + MCHP_PIT64_TLSBR) lsb])
                           (base + MCHP_PIT64_TMSBR)) in
  mchp_pit64_get_period base env w =
  Done (Z.lor (u64 (Z.shiftl msb 32)) lsb)
       (set_trace (trace w ++ [Readl (base + MCHP_PIT64_TLSBR) lsb;
                               Readl (base + MCHP_PIT64_TMSBR) msb]) w).
Proof.
  unfold mchp_pit64_get_period, mchp_pit64_read, readl_relaxed. run. reflexivity.
Qed.

Lemma shiftl32_u64 (msb : Z) : u64 (Z.shiftl (u32 msb) 32) = Z.shiftl (u32 msb) 32.
Proof.
  pose proof (u32_range msb). apply u64_small.
  rewrite Z.shiftl_mul_pow2 by lia. lia.
Qed.

(** C7: whatever the device answers, [pit64_get_period] (and
    [mchp_pit64_get_period]) reads the low-half counter register first and
    the high-half one second and returns [(high << 32) | low] of the two
    values read; for every 64-bit [v], [pit64_set_period] (and
    [mchp_pit64_set_period]) writes the high 32 bits of [v] to the
    high-half period register first and the low 32 bits to the low-half
    period register second. *)
Theorem counter_access_order (base v : Z) (env : kernel_env) (w : world) :
  0 <= v < 2 ^ 64 ->
  (let low := u32 (hw_readl env (trace w) (base + AT91_PIT64_TLSB_CVR)) in
   let high := u32 (hw_readl env (trace w ++ [Readl (base + AT91_PIT64_TLSB_CVR) low])
                             (base + AT91_PIT64_TMSB_CVR)) in
   pit64_get_period base env w =
     Done (Z.lor (Z.shiftl high 32) low)
          (set_trace (trace w ++ [Readl (base + AT91_PIT64_TLSB_CVR) low;
                                  Readl (base + AT91_PIT64_TMSB_CVR) high]) w)) /\
  pit64_set_period base v env w =
    Done tt (set_trace (trace w ++
      [Writel (v / 2 ^ 32) (base + AT91_PIT64_MSB_PR);
       Writel (v mod 2 ^ 32) (base + AT91_PIT64_LSB_PR)]) w) /\
  (let low := u32 (hw_readl env (trace w) (base + MCHP_PIT64_TLSBR)) in
   let high := u32 (hw_readl env (trace w ++ [Readl (base + MCHP_PIT64_TLSBR) low])
                             (base + MCHP_PIT64_TMSBR)) in
   mchp_pit64_get_period base env w =
     Done (Z.lor (Z.shiftl high 32) low)
          (set_trace (trace w ++ [Readl (base + MCHP_PIT64_TLSBR) low;
                                  Readl (base + MCHP_PIT64_TMSBR) high]) w)) /\
  mchp_pit64_set_period base v env w =
    Done tt (set_trace (trace w ++
      [Writel (v / 2 ^ 32) (base + MCHP_PIT64_MSB_PR);
       Writel (v mod 2 ^ 32) (base + MCHP_PIT64_LSB_PR)]) w).
Proof.
  intros Hv. repeat split.
  - cbv zeta. rewrite pit64_get_period_run. cbv zeta.
    rewrite shiftl32_u64. reflexivity.
  - rewrite pit64_set_period_run, msb_of_u64, lsb_of_u64 by assumption.
    reflexivity.
  - cbv zeta. rewrite mchp_pit64_get_period_run. cbv zeta.
    rewrite shiftl32_u64. reflexivity.
  - rewrite mchp_pit64_set_period_run.
    change MCHP_PIT64_LSBMASK with AT91_PIT64_LSBMASK.
    rewrite msb_of_u64, lsb_of_u64 by assumption. reflexivity.
Qed.

Lemma counter_access_order_witness :
  pit64_get_period 0xe1800000 (board 32000000 0x89abcdef) boot =
    Done 0x89abcdef89abcdef
         (set_trace [Readl 0xe1800020 0x89abcdef; Readl 0xe1800024 0x89abcdef] boot) /\
  pit64_set_period 0xe1800000 0x0123456789abcdef (board 32000000 0x89abcdef) boot =
    Done tt (set_trace [Writel 0x01234567 0xe180000c;
                        Writel 0x89abcdef 0xe1800008] boot) /\
  mchp_pit64_get_period 0xe1800000 (board 32000000 0x89abcdef) boot =
    Done 0x89abcdef89abcdef
         (set_trace [Readl 0xe1800020 0x89abcdef; Readl 0xe1800024 0x89abcdef] boot) /\
  mchp_pit64_set_period 0xe1800000 0x0123456789abcdef (board 32000000 0x89abcdef) boot =
    Done tt (set_trace [Writel 0x01234567 0xe180000c;
                        Writel 0x89abcdef 0xe1800008] boot).
Proof.
  apply (counter_access_order 0xe1800000 0x0123456789abcdef
           (board 32000000 0x89abcdef) boot).
  vm_compute. split; [discriminate | reflexivity].
Defined.

(** ** Clockevent callbacks *)

(** C9: with a clockevent instance registered, in every clockevent state
    and for every [delta] the registered [set_next_event] operation of
    either variant writes [delta] to the period registers, high half first,
    issues the start command and returns 0; the accesses do not depend on
    the state and nothing else changes. *)
Theorem set_next_event_unconditional (st : EventState) (delta : Z)
    (cedev : static_dev) (ced : pit64_clkevt_data) (env : kernel_env) (w : world) :
  ce_heap w !! data_ced w = Some ced -> 0 <= delta < 2 ^ 64 ->
  set_next_event clkevt delta cedev env (set_cev_state st w) =
    Done 0 (set_trace (trace w ++
      [Writel (delta / 2 ^ 32) (cd_base (ced_cd ced) + AT91_PIT64_MSB_PR);
       Writel (delta mod 2 ^ 32) (cd_base (ced_cd ced) + AT91_PIT64_LSB_PR);
       Writel AT91_PIT64_CR_START (cd_base (ced_cd ced) + AT91_PIT64_CR)])
      (set_cev_state st w)) /\
  set_next_event mchp_clkevt delta cedev env (set_cev_state st w) =
    Done 0 (set_trace (trace w ++
      [Writel (delta / 2 ^ 32) (cd_base (ced_cd ced) + MCHP_PIT64_MSB_PR);
       Writel (delta mod 2 ^ 32) (cd_base (ced_cd ced) + MCHP_PIT64_LSB_PR);
       Writel MCHP_PIT64_CR_START (cd_base (ced_cd ced) + MCHP_PIT64_CR)])
      (set_cev_state st w)).
Proof.
  intros Hced Hd. split.
  - cbn [set_next_event clkevt].
    unfold pit64_clkevt_set_next_event, load_ced, pit64_set_period, pit64_write,
      writel_relaxed.
    run. rewrite Hced. run.
    rewrite msb_of_u64, lsb_of_u64 by assumption. reflexivity.
  - cbn [set_next_event mchp_clkevt].
    unfold mchp_pit64_clkevt_set_next_event, load_ced, mchp_pit64_set_period,
      mchp_pit64_write, writel_relaxed.
    run. rewrite Hced. run.
    change MCHP_PIT64_LSBMASK with AT91_PIT64_LSBMASK.
    rewrite msb_of_u64, lsb_of_u64 by assumption. reflexivity.
Qed.

Lemma set_next_event_unconditional_witness :
  set_next_event clkevt 5000 dev_clkevt (board 32000000 0)
                 (set_cev_state Shutdown (with_clkevt Periodic)) =
    Done 0 (set_trace
      [Writel 0 0xe180000c; Writel 5000 0xe1800008; Writel 1 0xe1800000]
      (set_cev_state Shutdown (with_clkevt Periodic))) /\
  set_next_event mchp_clkevt 5000 dev_clkevt (board 32000000 0)
                 (set_cev_state Shutdown (with_clkevt Periodic)) =
    Done 0 (set_trace
      [Writel 0 0xe180000c; Writel 5000 0xe1800008; Writel 1 0xe1800000]
      (set_cev_state Shutdown (with_clkevt Periodic))).
Proof.
  apply (set_next_event_unconditional Shutdown 5000 dev_clkevt registered_ced
           (board 32000000 0) (with_clkevt Periodic)).
  - vm_compute. reflexivity.
  - vm_compute. split; [discriminate | reflexivity].
Defined.

(** ** Interrupt handler *)

(** C8: [pit64_interrupt] and [mchp_pit64_interrupt] return [IRQ_NONE]
    without any register access or dispatch when [dev_id] is not the
    registered clockevent instance, whatever the status register would
    read; invoked for the registered instance they read the interrupt
    status register once and return [IRQ_HANDLED], after calling the event
    handler, when the period bit is set in the value read, and [IRQ_NONE]
    without dispatching when it is clear. *)
Theorem interrupt_ownership (irq dev_id : Z) (env : kernel_env) (w : world) :
  (data_ced w <> dev_id ->
     pit64_interrupt irq dev_id env w = Done IRQ_NONE w /\
     mchp_pit64_interrupt irq dev_id env w = Done IRQ_NONE w) /\
  (forall ced dev,
     data_ced w = dev_id ->
     ce_heap w !! dev_id = Some ced -> ced_clkevt ced = Some dev ->
     let addr := cd_base (ced_cd ced) + AT91_PIT64_ISR in
     let isr := u32 (hw_readl env (trace w) addr) in
     (Z.land isr AT91_PIT64_ISR_PERIOD <> 0 ->
        pit64_interrupt irq dev_id env w =
          Done IRQ_HANDLED
               (set_trace (trace w ++ [Readl addr isr; EventHandler dev]) w)) /\
     (Z.land isr AT91_PIT64_ISR_PERIOD = 0 ->
        pit64_interrupt irq dev_id env w =
          Done IRQ_NONE (set_trace (trace w ++ [Readl addr isr]) w))) /\
  (forall ced dev,
     data_ced w = dev_id ->
     ce_heap w !! dev_id = Some ced -> ced_clkevt ced = Some dev ->
     let addr := cd_base (ced_cd ced) + MCHP_PIT64_ISR in
     let isr := u32 (hw_readl env (trace w) addr) in
     (Z.land isr MCHP_PIT64_ISR_PERIOD <> 0 ->
        mchp_pit64_interrupt irq dev_id env w =
          Done IRQ_HANDLED
               (set_trace (trace w ++ [Readl addr isr; EventHandler dev]) w)) /\
     (Z.land isr MCHP_PIT64_ISR_PERIOD = 0 ->
        mchp_pit64_interrupt irq dev_id env w =
          Done IRQ_NONE (set_trace (trace w ++ [Readl addr isr]) w))).
Proof.
  split; [| split].
  - intros Hne. apply Z.eqb_neq in Hne.
    unfold pit64_interrupt, mchp_pit64_interrupt. run.
    rewrite Hne. cbn [negb]. split; reflexivity.
  - intros ced dev Hown Hced Hdev addr isr. subst addr isr.
    apply Z.eqb_eq in Hown.
    unfold pit64_interrupt, load_ced, pit64_read, readl_relaxed, event_handler.
    run. rewrite Hown. cbn [negb]. rewrite Hced. run.
    split; intros Hbit.
    + apply Z.eqb_neq in Hbit. rewrite Hbit. cbn [negb].
      run. rewrite Hced. run. rewrite Hdev. run. reflexivity.
    + apply Z.eqb_eq in Hbit. rewrite Hbit. cbn [negb]. reflexivity.
  - intros ced dev Hown Hced Hdev addr isr. subst addr isr.
    apply Z.eqb_eq in Hown.
    unfold mchp_pit64_interrupt, load_ced, mchp_pit64_read, readl_relaxed,
      event_handler.
    run. rewrite Hown. cbn [negb]. rewrite Hced. run.
    split; intros Hbit.
    + apply Z.eqb_neq in Hbit. rewrite Hbit. cbn [negb].
      run. rewrite Hced. run. rewrite Hdev. run. reflexivity.
    + apply Z.eqb_eq in Hbit. rewrite Hbit. cbn [negb]. reflexivity.
Qed.

Lemma interrupt_ownership_witness :
  (pit64_interrupt 40 0xc2000000 (board 32000000 1) (with_clkevt OneShot) =
     Done IRQ_NONE (with_clkevt OneShot) /\
   mchp_pit64_interrupt 40 0xc2000000 (board 32000000 1) (with_clkevt OneShot) =
     Done IRQ_NONE (with_clkevt OneShot)) /\
  pit64_interrupt 40 0xc1000000 (board 32000000 1) (with_clkevt OneShot) =
    Done IRQ_HANDLED
      (set_trace [Readl 0xe180001c 1; EventHandler dev_clkevt] (with_clkevt OneShot)) /\
  mchp_pit64_interrupt 40 0xc1000000 (board 32000000 1) (with_clkevt OneShot) =
    Done IRQ_HANDLED
      (set_trace [Readl 0xe180001c 1; EventHandler dev_clkevt] (with_clkevt OneShot)).
Proof.
  split; [| split].
  - apply (proj1 (interrupt_ownership 40 0xc2000000 (board 32000000 1)
                    (with_clkevt OneShot))).
    vm_compute. discriminate.
  - apply (proj1 (proj2 (interrupt_ownership 40 0xc1000000 (board 32000000 1)
                           (with_clkevt OneShot))) registered_ced dev_clkevt);
      try (vm_compute; reflexivity).
    vm_compute. discriminate.
  - apply (proj2 (proj2 (interrupt_ownership 40 0xc1000000 (board 32000000 1)
                           (with_clkevt OneShot))) registered_ced dev_clkevt);
      try (vm_compute; reflexivity).
    vm_compute. discriminate.
Defined.

(** ** Suspend and resume *)

(** The current variant registers its callbacks the right way round:
    suspend resets the timer and then disables the clock; resume enables
    the clock and, when that succeeds, resets the timer with the interrupt
    enabled and the mode of the recorded state. *)
Lemma mchp_suspend_resume_run (cedev dev : static_dev) (ced : pit64_clkevt_data)
    (env : kernel_env) (w : world) :
  ce_heap w !! data_ced w = Some ced -> ced_clkevt ced = Some dev ->
  suspend mchp_clkevt cedev env w =
    Done tt (set_trace (trace w ++
      [Writel MCHP_PIT64_CR_SWRST (cd_base (ced_cd ced) + MCHP_PIT64_CR);
       ClkDisableUnprepare (cd_clk (ced_cd ced))]) w) /\
  (k_clk_prepare_enable env (trace w) (cd_clk (ced_cd ced)) = 0 ->
   resume mchp_clkevt cedev env w =
     mchp_pit64_reset (ced_cd ced)
       (if clockevent_state_periodic (cev_state w)
        then MCHP_PIT64_MR_CONT else MCHP_PIT64_MR_SMOD) true env
       (set_trace (trace w ++ [ClkPrepareEnable (cd_clk (ced_cd ced)) 0]) w)).
Proof.
  intros Hced Hdev. split.
  - cbn [suspend mchp_clkevt].
    unfold mchp_pit64_clkevt_suspend, load_ced, mchp_pit64_write, writel_relaxed,
      clk_disable_unprepare.
    run. rewrite Hced. run. reflexivity.
  - intros Hen. cbn [resume mchp_clkevt].
    unfold mchp_pit64_clkevt_resume, load_ced, clk_prepare_enable,
      clockevent_state_periodic_of.
    run. rewrite Hced. run. rewrite Hen. cbn [Z.eqb negb].
    rewrite Hdev. run. reflexivity.
Qed.

(** C3 (holds for the current variant, fails for the legacy one): the
    legacy [clkevt] descriptor registers [pit64_clkevt_resume] as its
    suspend callback and [pit64_clkevt_suspend] as its resume callback.  On
    a periodic instance the registered suspend enables the clock and
    re-arms the timer, and the registered resume issues the software reset
    and disables the clock. *)
Theorem legacy_suspend_resume_swapped :
  suspend clkevt = pit64_clkevt_resume /\
  resume clkevt = pit64_clkevt_suspend /\
  suspend clkevt dev_clkevt (board 32000000 0) (with_clkevt Periodic) =
    Done tt (set_trace
      [ClkPrepareEnable 0xc0a01000 0;
       Writel AT91_PIT64_CR_SWRST (0xe1800000 + AT91_PIT64_CR);
       Writel (Z.lor AT91_PIT64_MR_CONT (Z.shiftl 12 8)) (0xe1800000 + AT91_PIT64_MR);
       Writel 0 (0xe1800000 + AT91_PIT64_MSB_PR);
       Writel 24615 (0xe1800000 + AT91_PIT64_LSB_PR);
       Writel AT91_PIT64_IER_PERIOD (0xe1800000 + AT91_PIT64_IER);
       Writel AT91_PIT64_CR_START (0xe1800000 + AT91_PIT64_CR)]
      (with_clkevt Periodic)) /\
  resume clkevt dev_clkevt (board 32000000 0) (with_clkevt Periodic) =
    Done tt (set_trace
      [Writel AT91_PIT64_CR_SWRST (0xe1800000 + AT91_PIT64_CR);
       ClkDisableUnprepare 0xc0a01000]
      (with_clkevt Periodic)).
Proof.
  repeat split; vm_compute; reflexivity.
Qed.

(** ** Instantiation while an instance is live *)

(** C4, the claim as stated fails: with a clocksource instance already
    registered, the legacy [pit64_dt_init] does not report an
    already-active error; it returns the [-EINVAL] its [ret] was
    initialised with, the value it also returns for an unknown mode. *)
Lemma dt_init_already_active_counterexample :
  data_csd with_clksrc <> 0 /\
  pit64_dt_init 5 PIT64_MODE_CLKSRC (board 32000000 0) with_clksrc =
    Done (- EINVAL)
         (set_trace [OfIomap 5 0 0xe1800000; OfClkGet 5 0 0xc0a01000;
                     ClkPut 0xc0a01000; Iounmap 0xe1800000] with_clksrc) /\
  pit64_dt_init 5 2 (board 32000000 0) with_clksrc =
    Done (- EINVAL)
         (set_trace [OfIomap 5 0 0xe1800000; OfClkGet 5 0 0xc0a01000;
                     ClkPut 0xc0a01000; Iounmap 0xe1800000] with_clksrc) /\
  - EINVAL <> - EBUSY.
Proof.
  repeat split; try (vm_compute; reflexivity); vm_compute; discriminate.
Qed.

(** C4, amended: when the register window is mapped and the clock is
    acquired, an instantiation request for a mode whose registry slot
    already holds a live instance fails, with [-EBUSY] in
    [mchp_pit64_dt_init] and with [-EINVAL] in [pit64_dt_init], in both the
    clocksource and the clockevent mode.  The run consists of the mapping,
    the clock lookup, [clk_put] and [iounmap] and nothing else: no register
    is written, and the registry, the live instances and the clockevent
    device are unchanged. *)
Theorem dt_init_already_active (node : Z) (env : kernel_env) (w : world) :
  let base := ulong (k_of_iomap env (trace w) node 0) in
  let clk := ulong (k_of_clk_get env (trace w ++ [OfIomap node 0 base]) node 0) in
  let released :=
    set_trace (trace w ++ [OfIomap node 0 base; OfClkGet node 0 clk;
                           ClkPut clk; Iounmap base]) w in
  base <> 0 -> IS_ERR clk = false ->
  (data_csd w <> 0 ->
     pit64_dt_init node PIT64_MODE_CLKSRC env w = Done (- EINVAL) released /\
     mchp_pit64_dt_init node MCHP_PIT64_MODE_CLKSRC env w = Done (- EBUSY) released) /\
  (data_ced w <> 0 ->
     pit64_dt_init node PIT64_MODE_CLKEVT env w = Done (- EINVAL) released /\
     mchp_pit64_dt_init node MCHP_PIT64_MODE_CLKEVT env w = Done (- EBUSY) released).
Proof.
  intros base clk released Hbase Hclk.
  apply Z.eqb_neq in Hbase.
  split; intros Hslot; apply Z.eqb_neq in Hslot; split.
  - unfold pit64_dt_init, of_iomap, of_clk_get, pit64_dt_init_clock_put,
      pit64_dt_init_unmap, clk_put, iounmap.
    run. fold base. rewrite Hbase. run. fold base clk. rewrite Hclk.
    change (PIT64_MODE_CLKSRC =? PIT64_MODE_CLKSRC) with true.
    run. rewrite Hslot. cbn [negb]. run.
    reflexivity.
  - unfold mchp_pit64_dt_init, of_iomap, of_clk_get, mchp_pit64_dt_init_clock_put,
      mchp_pit64_dt_init_unmap, clk_put, iounmap.
    run. fold base. rewrite Hbase. run. fold base clk. rewrite Hclk.
    change (MCHP_PIT64_MODE_CLKSRC =? MCHP_PIT64_MODE_CLKSRC) with true.
    run. rewrite Hslot. cbn [negb]. run.
    reflexivity.
  - unfold pit64_dt_init, of_iomap, of_clk_get, pit64_dt_init_clock_put,
      pit64_dt_init_unmap, clk_put, iounmap.
    run. fold base. rewrite Hbase. run. fold base clk. rewrite Hclk.
    change (PIT64_MODE_CLKEVT =? PIT64_MODE_CLKSRC) with false.
    change (PIT64_MODE_CLKEVT =? PIT64_MODE_CLKEVT) with true.
    run. rewrite Hslot.
    cbn [negb]. run. reflexivity.
  - unfold mchp_pit64_dt_init, of_iomap, of_clk_get, mchp_pit64_dt_init_clock_put,
      mchp_pit64_dt_init_unmap, clk_put, iounmap.
    run. fold base. rewrite Hbase. run. fold base clk. rewrite Hclk.
    change (MCHP_PIT64_MODE_CLKEVT =? MCHP_PIT64_MODE_CLKSRC) with false.
    change (MCHP_PIT64_MODE_CLKEVT =? MCHP_PIT64_MODE_CLKEVT) with true.
    run. rewrite Hslot.
    cbn [negb]. run. reflexivity.
Qed.

Lemma dt_init_already_active_witness :
  (pit64_dt_init 5 PIT64_MODE_CLKSRC (board 32000000 0) with_clksrc =
     Done (- EINVAL)
          (set_trace [OfIomap 5 0 0xe1800000; OfClkGet 5 0 0xc0a01000;
                      ClkPut 0xc0a01000; Iounmap 0xe1800000] with_clksrc) /\
   mchp_pit64_dt_init 5 MCHP_PIT64_MODE_CLKSRC (board 32000000 0) with_clksrc =
     Done (- EBUSY)
          (set_trace [OfIomap 5 0 0xe1800000; OfClkGet 5 0 0xc0a01000;
                      ClkPut 0xc0a01000; Iounmap 0xe1800000] with_clksrc)) /\
  (pit64_dt_init 5 PIT64_MODE_CLKEVT (board 32000000 0) (with_clkevt OneShot) =
     Done (- EINVAL)
          (set_trace [OfIomap 5 0 0xe1800000; OfClkGet 5 0 0xc0a01000;
                      ClkPut 0xc0a01000; Iounmap 0xe1800000] (with_clkevt OneShot)) /\
   mchp_pit64_dt_init 5 MCHP_PIT64_MODE_CLKEVT (board 32000000 0) (with_clkevt OneShot) =
     Done (- EBUSY)
          (set_trace [OfIomap 5 0 0xe1800000; OfClkGet 5 0 0xc0a01000;
                      ClkPut 0xc0a01000; Iounmap 0xe1800000] (with_clkevt OneShot))).
Proof.
  split.
  - apply (proj1 (dt_init_already_active 5 (board 32000000 0) with_clksrc
                    ltac:(vm_compute; discriminate) ltac:(vm_compute; reflexivity))).
    vm_compute. discriminate.
  - apply (proj2 (dt_init_already_active 5 (board 32000000 0) (with_clkevt OneShot)
                    ltac:(vm_compute; discriminate) ltac:(vm_compute; reflexivity))).
    vm_compute. discriminate.
Defined.

(** * Further properties of the driver *)

(** ** The prescaler solver, continued *)

(** X1: Both solvers meet the bound whenever some divider up to 16 can: the
    rate obtained with the returned divider (the returned index plus one
    for the current solver) is within the target exactly when the rate
    obtained with divider 16 is. *)
Theorem pres_compute_meets_bound_when_possible (clk_rate max_rate : Z) :
  0 <= clk_rate <= ULONG_MAX ->
  (clk_rate / pit64_pres_compute clk_rate max_rate <= max_rate <->
   clk_rate / 16 <= max_rate) /\
  (clk_rate / (mchp_pit64_pres_compute clk_rate max_rate + 1) <= max_rate <->
   clk_rate / 16 <= max_rate).
Proof.
  intros Hc. split.
  - unfold pit64_pres_compute, AT91_PRES_MAX.
    destruct (pit64_pres_loop_spec 16 clk_rate max_rate 2)
      as (Hr & Hfit & _); [lia | lia | simpl; lia |].
    destruct (Z.eqb_spec (pit64_pres_loop 16 clk_rate max_rate 2) (16 + 1));
      [lia |].
    set (d := pit64_pres_loop 16 clk_rate max_rate 2) in *.
    assert (Hmono : clk_rate / 16 <= clk_rate / d)
      by (apply Z.div_le_compat_l; lia).
    split; [lia |].
    intros H16. destruct (Z.eq_dec d 16) as [-> | Hd]; [exact H16 |].
    apply Hfit. lia.
  - unfold mchp_pit64_pres_compute, MCHP_PRES_MAX.
    destruct (mchp_pit64_pres_loop_spec 16 clk_rate max_rate 0)
      as (Hr & Hfit & _); [lia | lia | simpl; lia |].
    set (r := mchp_pit64_pres_loop 16 clk_rate max_rate 0) in *.
    destruct (Z.eqb_spec r 16) as [E | NE].
    + change (u16 (16 - 1) + 1) with 16. reflexivity.
    + rewrite u16_small by lia.
      assert (Hmono : clk_rate / 16 <= clk_rate / (r + 1))
        by (apply Z.div_le_compat_l; lia).
      split; [lia |]. intros _. apply Hfit. lia.
Qed.

Lemma pres_compute_meets_bound_when_possible_witness :
  (32000000 / pit64_pres_compute 32000000 2500000 <= 2500000 <->
   32000000 / 16 <= 2500000) /\
  (32000000 / (mchp_pit64_pres_compute 32000000 2500000 + 1) <= 2500000 <->
   32000000 / 16 <= 2500000).
Proof.
  apply (pres_compute_meets_bound_when_possible 32000000 2500000).
  vm_compute. split; discriminate.
Defined.

Lemma mchp_pres_compute_zero_iff (clk_rate max_rate : Z) :
  0 <= clk_rate <= ULONG_MAX ->
  (mchp_pit64_pres_compute clk_rate max_rate = 0 <-> clk_rate <= max_rate).
Proof.
  intros Hc.
  unfold mchp_pit64_pres_compute, MCHP_PRES_MAX.
  destruct (mchp_pit64_pres_loop_spec 16 clk_rate max_rate 0)
    as (Hr & Hfit & Hmin); [lia | lia | simpl; lia |].
  set (r := mchp_pit64_pres_loop 16 clk_rate max_rate 0) in *.
  assert (D1 : clk_rate / 1 = clk_rate) by apply Z.div_1_r.
  destruct (Z.eqb_spec r 16) as [E | NE].
  - change (u16 (16 - 1)) with 15. split; [lia |].
    intros Hle. specialize (Hmin 0 ltac:(lia)). change (0 + 1) with 1 in Hmin. rewrite D1 in Hmin. lia.
  - rewrite u16_small by lia. split.
    + intros E. rewrite E in Hfit. specialize (Hfit ltac:(lia)).
      change (0 + 1) with 1 in Hfit. rewrite D1 in Hfit. lia.
    + intros Hle. destruct (Z.eq_dec r 0) as [E | NE0]; [exact E |].
      specialize (Hmin 0 ltac:(lia)). change (0 + 1) with 1 in Hmin. rewrite D1 in Hmin. lia.
Qed.

(** X2: The solvers stop at their first candidate exactly when it already
    meets the bound: the legacy solver returns 2 iff half the clock rate is
    within the target, and the current solver returns 0 iff the clock rate
    itself is. *)
Theorem pres_compute_first_candidate (clk_rate max_rate : Z) :
  0 <= clk_rate <= ULONG_MAX ->
  (pit64_pres_compute clk_rate max_rate = 2 <-> clk_rate / 2 <= max_rate) /\
  (mchp_pit64_pres_compute clk_rate max_rate = 0 <-> clk_rate <= max_rate).
Proof.
  intros Hc. split.
  - unfold pit64_pres_compute, AT91_PRES_MAX.
    destruct (pit64_pres_loop_spec 16 clk_rate max_rate 2)
      as (Hr & Hfit & Hmin); [lia | lia | simpl; lia |].
    destruct (Z.eqb_spec (pit64_pres_loop 16 clk_rate max_rate 2) (16 + 1));
      [lia |].
    set (d := pit64_pres_loop 16 clk_rate max_rate 2) in *.
    split.
    + intros E. rewrite E in Hfit. apply Hfit. lia.
    + intros H2. destruct (Z.eq_dec d 2) as [E | NE]; [exact E |].
      specialize (Hmin 2 ltac:(lia)). lia.
  - apply mchp_pres_compute_zero_iff. exact Hc.
Qed.

Lemma pres_compute_first_candidate_witness :
  (pit64_pres_compute 4000000 2500000 = 2 <-> 4000000 / 2 <= 2500000) /\
  (mchp_pit64_pres_compute 4000000 2500000 = 0 <-> 4000000 <= 2500000).
Proof.
  apply (pres_compute_first_candidate 4000000 2500000).
  vm_compute. split; discriminate.
Defined.

(** X3: The returned divider is monotone: it does not grow when the target
    rate is raised and does not shrink when the clock rate is raised. *)
Theorem pres_compute_monotone (clk1 clk2 max1 max2 : Z) :
  0 <= clk1 -> clk1 <= clk2 -> clk2 <= ULONG_MAX -> max2 <= max1 ->
  pit64_pres_compute clk1 max1 <= pit64_pres_compute clk2 max2 /\
  mchp_pit64_pres_compute clk1 max1 <= mchp_pit64_pres_compute clk2 max2.
Proof.
  intros H0 Hclk Hmax Hm. split.
  - unfold pit64_pres_compute, AT91_PRES_MAX.
    destruct (pit64_pres_loop_spec 16 clk1 max1 2)
      as (Hr1 & _ & Hmin1); [lia | lia | simpl; lia |].
    destruct (pit64_pres_loop_spec 16 clk2 max2 2)
      as (Hr2 & Hfit2 & _); [lia | lia | simpl; lia |].
    set (d1 := pit64_pres_loop 16 clk1 max1 2) in *.
    set (d2 := pit64_pres_loop 16 clk2 max2 2) in *.
    destruct (Z.eqb_spec d1 (16 + 1)); [lia |].
    destruct (Z.eqb_spec d2 (16 + 1)); [lia |].
    destruct (Z_le_gt_dec d1 d2) as [Hle | Hgt]; [exact Hle | exfalso].
    specialize (Hmin1 d2 ltac:(lia)). specialize (Hfit2 ltac:(lia)).
    assert (clk1 / d2 <= clk2 / d2) by (apply Z.div_le_mono; lia). lia.
  - unfold mchp_pit64_pres_compute, MCHP_PRES_MAX.
    destruct (mchp_pit64_pres_loop_spec 16 clk1 max1 0)
      as (Hr1 & _ & Hmin1); [lia | lia | simpl; lia |].
    destruct (mchp_pit64_pres_loop_spec 16 clk2 max2 0)
      as (Hr2 & Hfit2 & _); [lia | lia | simpl; lia |].
    set (r1 := mchp_pit64_pres_loop 16 clk1 max1 0) in *.
    set (r2 := mchp_pit64_pres_loop 16 clk2 max2 0) in *.
    assert (Hrr : r1 <= r2).
    { destruct (Z_le_gt_dec r1 r2) as [Hle | Hgt]; [exact Hle | exfalso].
      specialize (Hmin1 r2 ltac:(lia)). specialize (Hfit2 ltac:(lia)).
      assert (clk1 / (r2 + 1) <= clk2 / (r2 + 1))
        by (apply Z.div_le_mono; lia). lia. }
    destruct (Z.eqb_spec r1 16), (Z.eqb_spec r2 16);
      try change (u16 (16 - 1)) with 15;
      rewrite ?u16_small by lia; lia.
Qed.

Lemma pres_compute_monotone_witness :
  pit64_pres_compute 16000000 3000000 <= pit64_pres_compute 32000000 2500000 /\
  mchp_pit64_pres_compute 16000000 3000000 <= mchp_pit64_pres_compute 32000000 2500000.
Proof.
  apply (pres_compute_monotone 16000000 32000000 3000000 2500000).
  - lia.
  - lia.
  - vm_compute. discriminate.
  - lia.
Defined.

(** ** The register protocol, continued *)

Lemma halves_combine (v : Z) :
  0 <= v < 2 ^ 64 -> Z.lor (Z.shiftl (v / 2 ^ 32) 32) (v mod 2 ^ 32) = v.
Proof.
  intros Hv. apply Z.bits_inj'. intros n Hn.
  rewrite Z.lor_spec, Z.shiftl_spec by lia.
  rewrite <- Z.shiftr_div_pow2 by lia.
  destruct (Z_lt_dec n 32) as [Hlt | Hge].
  - rewrite (Z.testbit_neg_r _ (n - 32)) by lia.
    rewrite Z.mod_pow2_bits_low by lia. reflexivity.
  - rewrite Z.shiftr_spec by lia.
    rewrite Z.mod_pow2_bits_high by lia.
    rewrite orb_false_r. f_equal. lia.
Qed.

(** X4: Writing a 64-bit value and reading it back: when the device answers
    the two counter reads with the two halves just written, the value
    [pit64_get_period] (and [mchp_pit64_get_period]) returns after
    [pit64_set_period] is the value written. *)
Theorem period_write_read_round_trip (base v : Z) (env : kernel_env) (w : world) :
  0 <= v < 2 ^ 64 ->
  let written := trace w ++ [Writel (v / 2 ^ 32) (base + AT91_PIT64_MSB_PR);
                             Writel (v mod 2 ^ 32) (base + AT91_PIT64_LSB_PR)] in
  let reads := [Readl (base + AT91_PIT64_TLSB_CVR) (v mod 2 ^ 32);
                Readl (base + AT91_PIT64_TMSB_CVR) (v / 2 ^ 32)] in
  hw_readl env written (base + AT91_PIT64_TLSB_CVR) = v mod 2 ^ 32 ->
  hw_readl env (written ++ [Readl (base + AT91_PIT64_TLSB_CVR) (v mod 2 ^ 32)])
           (base + AT91_PIT64_TMSB_CVR) = v / 2 ^ 32 ->
  (pit64_set_period base v ≫= fun _ => pit64_get_period base) env w =
    Done v (set_trace (written ++ reads) w) /\
  (mchp_pit64_set_period base v ≫= fun _ => mchp_pit64_get_period base) env w =
    Done v (set_trace (written ++ reads) w).
Proof.
  intros Hv written reads Hlow Hhigh.
  assert (Hl : 0 <= v mod 2 ^ 32 < 2 ^ 32) by (apply Z.mod_pos_bound; lia).
  assert (Hh : 0 <= v / 2 ^ 32 < 2 ^ 32).
  { split; [apply Z.div_pos; lia | apply Z.div_lt_upper_bound; lia]. }
  assert (Hrun : (pit64_set_period base v ≫= fun _ => pit64_get_period base) env w =
                 Done v (set_trace (written ++ reads) w)).
  { unfold mbind, M_bind. rewrite pit64_set_period_run.
    rewrite msb_of_u64, lsb_of_u64 by assumption.
    rewrite pit64_get_period_run. cbv zeta. simp_world. fold written.
    rewrite Hlow. rewrite (u32_small (v mod 2 ^ 32)) by assumption.
    rewrite Hhigh. rewrite (u32_small (v / 2 ^ 32)) by assumption.
    rewrite u64_small by (rewrite Z.shiftl_mul_pow2 by lia; lia).
    rewrite halves_combine by assumption.
    unfold reads. rewrite <- ?app_assoc. reflexivity. }
  split; [exact Hrun | exact Hrun].
Qed.

Lemma period_write_read_round_trip_witness :
  (pit64_set_period 0xe1800000 0x89abcdef89abcdef ≫=
     fun _ => pit64_get_period 0xe1800000) (board 32000000 0x89abcdef) boot =
    Done 0x89abcdef89abcdef
      (set_trace [Writel 0x89abcdef 0xe180000c; Writel 0x89abcdef 0xe1800008;
                  Readl 0xe1800020 0x89abcdef; Readl 0xe1800024 0x89abcdef] boot) /\
  (mchp_pit64_set_period 0xe1800000 0x89abcdef89abcdef ≫=
     fun _ => mchp_pit64_get_period 0xe1800000) (board 32000000 0x89abcdef) boot =
    Done 0x89abcdef89abcdef
      (set_trace [Writel 0x89abcdef 0xe180000c; Writel 0x89abcdef 0xe1800008;
                  Readl 0xe1800020 0x89abcdef; Readl 0xe1800024 0x89abcdef] boot).
Proof.
  apply (period_write_read_round_trip 0xe1800000 0x89abcdef89abcdef
           (board 32000000 0x89abcdef) boot).
  - vm_compute. split; [discriminate | reflexivity].
  - vm_compute. reflexivity.
  - vm_compute. reflexivity.
Defined.

Lemma ldiff_disjoint (a b : Z) : Z.land a b = 0 -> Z.ldiff a b = a.
Proof.
  intros H. apply Z.bits_inj'. intros n Hn.
  rewrite Z.ldiff_spec.
  assert (Hbit : Z.testbit (Z.land a b) n = false)
    by (rewrite H; apply Z.bits_0).
  rewrite Z.land_spec in Hbit.
  destruct (Z.testbit a n), (Z.testbit b n); simpl in *; congruence.
Qed.

(** X6: The mode word is a lossless packing: for mode flags that do not touch
    bits 11..8 and a divider in [1,16], the prescaler field of the word
    [pit64_reset] writes decodes to divider - 1 and the remaining bits are
    the mode flags. *)
Theorem mode_word_fields (mode pres : Z) :
  Z.land mode AT91_PIT64_MR_PRES = 0 -> 1 <= pres <= 16 ->
  let word := Z.lor mode (AT91_PIT64_PRESCALER (pres - 1)) in
  Z.shiftr (Z.land word AT91_PIT64_MR_PRES) 8 = pres - 1 /\
  Z.ldiff word AT91_PIT64_MR_PRES = mode /\
  MCHP_PIT64_PRESCALER (pres - 1) = AT91_PIT64_PRESCALER (pres - 1).
Proof.
  intros Hmode Hpres word. subst word.
  rewrite PRESCALER_field by assumption.
  assert (Hf : Z.land ((pres - 1) * 2 ^ 8) AT91_PIT64_MR_PRES = (pres - 1) * 2 ^ 8).
  { assert (C : pres = 1 \/ pres = 2 \/ pres = 3 \/ pres = 4 \/ pres = 5 \/
                pres = 6 \/ pres = 7 \/ pres = 8 \/ pres = 9 \/ pres = 10 \/
                pres = 11 \/ pres = 12 \/ pres = 13 \/ pres = 14 \/ pres = 15 \/
                pres = 16) by lia.
    repeat (destruct C as [-> | C]; [reflexivity |]). subst. reflexivity. }
  split; [| split].
  - rewrite Z.land_lor_distr_l, Hmode, Z.lor_0_l, Hf.
    rewrite Z.shiftr_div_pow2 by lia. apply Z.div_mul. lia.
  - rewrite Z.ldiff_land, Z.land_lor_distr_l, <- !Z.ldiff_land.
    rewrite (ldiff_disjoint mode) by assumption.
    assert (Hz : Z.ldiff ((pres - 1) * 2 ^ 8) AT91_PIT64_MR_PRES = 0).
    { rewrite <- Hf at 1. rewrite Z.ldiff_land, <- Z.land_assoc.
      rewrite <- Z.ldiff_land, Z.ldiff_diag. apply Z.land_0_r. }
    rewrite Hz. apply Z.lor_0_r.
  - change MCHP_PIT64_PRESCALER with AT91_PIT64_PRESCALER.
    apply PRESCALER_field. assumption.
Qed.

Lemma mode_word_fields_witness :
  let word := Z.lor AT91_PIT64_MR_SMOD (AT91_PIT64_PRESCALER (13 - 1)) in
  Z.shiftr (Z.land word AT91_PIT64_MR_PRES) 8 = 13 - 1 /\
  Z.ldiff word AT91_PIT64_MR_PRES = AT91_PIT64_MR_SMOD /\
  MCHP_PIT64_PRESCALER (13 - 1) = AT91_PIT64_PRESCALER (13 - 1).
Proof.
  apply (mode_word_fields AT91_PIT64_MR_SMOD 13).
  - vm_compute. reflexivity.
  - lia.
Defined.

(** ** Clockevent callbacks, continued *)

(** X7: With a clockevent instance registered (divider in [1,16], reload a
    [u64]) the registered state callbacks of both variants return 0 and
    program the device as follows: shutdown issues the single software
    reset; periodic and one-shot run the reset sequence with the interrupt
    enabled, writing the mode word [1 + 256 * (pres - 1)] (continuous) and
    [16 + 256 * (pres - 1)] (single shot) respectively.  The instance and
    the registry are not modified. *)
Theorem set_state_callbacks (cedev : static_dev) (ced : pit64_clkevt_data)
    (env : kernel_env) (w : world) :
  ce_heap w !! data_ced w = Some ced ->
  1 <= cd_pres (ced_cd ced) <= 16 -> 0 <= cd_cycles (ced_cd ced) < 2 ^ 64 ->
  let base := cd_base (ced_cd ced) in
  let programmed (mode : Z) :=
    set_trace (trace w ++
      [Writel 0x100 (base + 0x00);
       Writel (mode + 256 * (cd_pres (ced_cd ced) - 1)) (base + 0x04);
       Writel (cd_cycles (ced_cd ced) / 2 ^ 32) (base + 0x0C);
       Writel (cd_cycles (ced_cd ced) mod 2 ^ 32) (base + 0x08);
       Writel 1 (base + 0x10);
       Writel 1 (base + 0x00)]) w in
  let stopped := set_trace (trace w ++ [Writel 0x100 (base + 0x00)]) w in
  (set_state_shutdown clkevt cedev env w = Done 0 stopped /\
   set_state_periodic clkevt cedev env w = Done 0 (programmed 1) /\
   set_state_oneshot clkevt cedev env w = Done 0 (programmed 16)) /\
  (set_state_shutdown mchp_clkevt cedev env w = Done 0 stopped /\
   set_state_periodic mchp_clkevt cedev env w = Done 0 (programmed 1) /\
   set_state_oneshot mchp_clkevt cedev env w = Done 0 (programmed 16)).
Proof.
  intros Hced Hpres Hcyc base programmed stopped.
  assert (Hword : forall mode, mode = 1 \/ mode = 16 ->
            u32 (Z.lor mode (AT91_PIT64_PRESCALER (cd_pres (ced_cd ced) - 1)))
            = mode + 256 * (cd_pres (ced_cd ced) - 1)).
  { intros mode Hmode. rewrite mode_word_u32 by (destruct Hmode; subst; lia).
    set (pres := cd_pres (ced_cd ced)) in *.
    assert (C : pres = 1 \/ pres = 2 \/ pres = 3 \/ pres = 4 \/ pres = 5 \/
                pres = 6 \/ pres = 7 \/ pres = 8 \/ pres = 9 \/ pres = 10 \/
                pres = 11 \/ pres = 12 \/ pres = 13 \/ pres = 14 \/ pres = 15 \/
                pres = 16) by lia.
    destruct Hmode; subst mode;
      repeat (destruct C as [-> | C]; [reflexivity |]); rewrite C; reflexivity. }
  assert (Hlegacy :
    set_state_shutdown clkevt cedev env w = Done 0 stopped /\
    set_state_periodic clkevt cedev env w = Done 0 (programmed 1) /\
    set_state_oneshot clkevt cedev env w = Done 0 (programmed 16)).
  { cbn [set_state_shutdown set_state_periodic set_state_oneshot clkevt].
    unfold pit64_clkevt_shutdown, pit64_clkevt_set_periodic,
      pit64_clkevt_set_oneshot, load_ced, pit64_write, writel_relaxed.
    split; [| split].
    - run. rewrite Hced. run. reflexivity.
    - unfold mbind, M_bind, get_world. rewrite Hced.
      unfold mret at 1, M_ret at 1. rewrite pit64_reset_run.
      change AT91_PIT64_MR_CONT with 1. rewrite (Hword 1) by (left; reflexivity).
      rewrite msb_of_u64, lsb_of_u64 by assumption. reflexivity.
    - unfold mbind, M_bind, get_world. rewrite Hced.
      unfold mret at 1, M_ret at 1. rewrite pit64_reset_run.
      change AT91_PIT64_MR_SMOD with 16. rewrite (Hword 16) by (right; reflexivity).
      rewrite msb_of_u64, lsb_of_u64 by assumption. reflexivity. }
  split; [exact Hlegacy | exact Hlegacy].
Qed.

Lemma set_state_callbacks_witness :
  (set_state_shutdown clkevt dev_clkevt (board 32000000 0) (with_clkevt Shutdown) =
     Done 0 (set_trace [Writel 0x100 0xe1800000] (with_clkevt Shutdown)) /\
   set_state_periodic clkevt dev_clkevt (board 32000000 0) (with_clkevt Shutdown) =
     Done 0 (set_trace
       [Writel 0x100 0xe1800000; Writel 0xc01 0xe1800004; Writel 0 0xe180000c;
        Writel 24615 0xe1800008; Writel 1 0xe1800010; Writel 1 0xe1800000]
       (with_clkevt Shutdown)) /\
   set_state_oneshot clkevt dev_clkevt (board 32000000 0) (with_clkevt Shutdown) =
     Done 0 (set_trace
       [Writel 0x100 0xe1800000; Writel 0xc10 0xe1800004; Writel 0 0xe180000c;
        Writel 24615 0xe1800008; Writel 1 0xe1800010; Writel 1 0xe1800000]
       (with_clkevt Shutdown))) /\
  (set_state_shutdown mchp_clkevt dev_clkevt (board 32000000 0) (with_clkevt Shutdown) =
     Done 0 (set_trace [Writel 0x100 0xe1800000] (with_clkevt Shutdown)) /\
   set_state_periodic mchp_clkevt dev_clkevt (board 32000000 0) (with_clkevt Shutdown) =
     Done 0 (set_trace
       [Writel 0x100 0xe1800000; Writel 0xc01 0xe1800004; Writel 0 0xe180000c;
        Writel 24615 0xe1800008; Writel 1 0xe1800010; Writel 1 0xe1800000]
       (with_clkevt Shutdown)) /\
   set_state_oneshot mchp_clkevt dev_clkevt (board 32000000 0) (with_clkevt Shutdown) =
     Done 0 (set_trace
       [Writel 0x100 0xe1800000; Writel 0xc10 0xe1800004; Writel 0 0xe180000c;
        Writel 24615 0xe1800008; Writel 1 0xe1800010; Writel 1 0xe1800000]
       (with_clkevt Shutdown))).
Proof.
  apply (set_state_callbacks dev_clkevt registered_ced (board 32000000 0)
           (with_clkevt Shutdown)).
  - vm_compute. reflexivity.
  - vm_compute. split; discriminate.
  - vm_compute. split; [discriminate | reflexivity].
Defined.

(** ** Instantiation *)

Ltac heap := rewrite ?lookup_insert_eq, ?insert_insert_eq.

Ltac fields :=
  cbn [csd_with_cd csd_with_clksrc csd_cd csd_clksrc ced_with_cd ced_with_clkevt
       ced_cd ced_clkevt with_base with_clk with_cycles with_pres
       cd_base cd_clk cd_cycles cd_pres zero_cd].

Ltac crunch :=
  repeat (progress (unfold_monad; simp_world; heap; fields));
  rewrite <- ?app_assoc; cbn [app].

Ltac simp_world_all :=
  cbn [trace data_csd data_ced cs_heap ce_heap brk cev_cpumask cev_irq
       cev_state set_trace set_data_csd set_data_ced set_cs_heap set_ce_heap
       set_brk set_cev_cpumask set_cev_irq set_cev_state] in *.

Ltac unfold_init :=
  unfold pit64_dt_init_clksrc, pit64_dt_init_clkevt,
    mchp_pit64_dt_init_clksrc, mchp_pit64_dt_init_clkevt,
    pit64_dt_init_clksrc_clk_unprepare, pit64_dt_init_clksrc_free,
    pit64_dt_init_clkevt_clk_unprepare, pit64_dt_init_clkevt_free,
    mchp_pit64_dt_init_clksrc_clk_unprepare, mchp_pit64_dt_init_clksrc_free,
    mchp_pit64_dt_init_clkevt_clk_unprepare, mchp_pit64_dt_init_clkevt_free,
    kzalloc_csd, kzalloc_ced, store_csd, store_ced, load_csd, load_ced,
    clk_prepare_enable, clk_get_rate, udiv, clocksource_register_hz,
    sched_clock_register, request_irq, clockevents_config_and_register,
    kfree_csd, kfree_ced, clk_disable_unprepare.

Lemma pit64_pres_u8 (c m : Z) :
  u8 (pit64_pres_compute c m) = pit64_pres_compute c m.
Proof. pose proof (pit64_pres_compute_range c m). apply u8_small. lia. Qed.

Lemma pit64_pres_nonzero (c m : Z) : (pit64_pres_compute c m =? 0) = false.
Proof. pose proof (pit64_pres_compute_range c m). apply Z.eqb_neq. lia. Qed.

(** What [pit64_dt_init_clksrc] leaves behind: it always returns; on
    success the new instance is in the registry, on failure the registry
    slot is empty and the heap is as before. *)
Lemma pit64_dt_init_clksrc_post (base clk : Z) (env : kernel_env) (w : world) :
  brk w <> 0 -> cs_heap w !! brk w = None -> data_csd w = 0 ->
  exists r w',
    pit64_dt_init_clksrc base clk env w = Done r w' /\
    data_ced w' = data_ced w /\ ce_heap w' = ce_heap w /\
    cev_cpumask w' = cev_cpumask w /\ cev_irq w' = cev_irq w /\
    cev_state w' = cev_state w /\
    ((r = 0 /\ data_csd w' = brk w /\
      exists pres, 2 <= pres <= 16 /\
        cs_heap w' = <[brk w := mk_csd (Some dev_clksrc)
                                  (mk_cd base clk ULLONG_MAX pres)]> (cs_heap w)) \/
     (r <> 0 /\ data_csd w' = 0 /\ cs_heap w' = cs_heap w)).
Proof.
  destruct w as [t dcs dce hcs hce b cm ci st]. simp_world.
  intros Hb Hfresh Hdcs. subst dcs. apply Z.eqb_neq in Hb.
  unfold_init. crunch.
  destruct (k_kzalloc env t); crunch.
  2:{ eexists. eexists. split; [reflexivity |]. simp_world.
      repeat split. right. repeat split. discriminate. }
  rewrite Hb. crunch.
  destruct (Z.eqb_spec (k_clk_prepare_enable env (t ++ [Kzalloc b]) clk) 0)
    as [Hen | Hen]; cbn [negb]; crunch.
  2:{ eexists. eexists. split; [reflexivity |]. simp_world.
      repeat split. right. repeat split; [exact Hen |].
      apply delete_insert_id. exact Hfresh. }
  rewrite !pit64_pres_u8, pit64_pres_nonzero. crunch.
  rewrite pit64_reset_run. crunch.
  match goal with
  | |- context [negb (?x =? 0)] => destruct (Z.eqb_spec x 0) as [Hreg | Hreg]
  end; cbn [negb]; crunch.
  - eexists. eexists. split; [reflexivity |]. simp_world.
    repeat split. left. repeat split.
    eexists. split; [| reflexivity]. apply pit64_pres_compute_range.
  - eexists. eexists. split; [reflexivity |]. simp_world.
    repeat split. right. repeat split; [exact Hreg |].
    apply delete_insert_id. exact Hfresh.
Qed.

Lemma pit64_dt_init_clkevt_post (base clk irq : Z) (env : kernel_env) (w : world) :
  brk w <> 0 -> ce_heap w !! brk w = None -> data_ced w = 0 ->
  exists r w' evs,
    pit64_dt_init_clkevt base clk irq env w = Done r w' /\
    trace w' = trace w ++ evs /\ no_mmio evs = true /\
    data_csd w' = data_csd w /\ cs_heap w' = cs_heap w /\
    cev_state w' = cev_state w /\
    ((r = 0 /\ data_ced w' = brk w /\
      cev_cpumask w' = Some 0 /\ cev_irq w' = irq /\
      exists rate pres, 2 <= pres <= 16 /\ 0 <= rate <= ULONG_MAX /\
        In (ClockeventsConfigAndRegister dev_clkevt (rate / pres) 1 ULONG_MAX) evs /\
        ce_heap w' =
          <[brk w := mk_ced (Some dev_clkevt)
                       (mk_cd base clk
                          (DIV_ROUND_CLOSEST (rate / pres) (Z.pos (HZ env))) pres)]>
            (ce_heap w)) \/
     (r <> 0 /\ data_ced w' = 0 /\ ce_heap w' = ce_heap w /\
      cev_cpumask w' = cev_cpumask w /\ cev_irq w' = cev_irq w)).
Proof.
  destruct w as [t dcs dce hcs hce b cm ci st]. simp_world.
  intros Hb Hfresh Hdce. subst dce. apply Z.eqb_neq in Hb.
  unfold_init. crunch.
  destruct (k_kzalloc env t); crunch.
  2:{ eexists. eexists. eexists. split; [reflexivity |]. simp_world.
      split; [reflexivity |]. split; [reflexivity |].
      repeat split. right. repeat split. discriminate. }
  rewrite Hb. crunch.
  destruct (Z.eqb_spec (k_clk_prepare_enable env (t ++ [Kzalloc b]) clk) 0)
    as [Hen | Hen]; cbn [negb]; crunch.
  2:{ eexists. eexists. eexists. split; [reflexivity |]. simp_world.
      split; [reflexivity |]. split; [reflexivity |].
      repeat split. right. repeat split; [exact Hen |].
      apply delete_insert_id. exact Hfresh. }
  rewrite !pit64_pres_u8, pit64_pres_nonzero. crunch.
  match goal with
  | |- context [negb (?x =? 0)] => destruct (Z.eqb_spec x 0) as [Hirq | Hirq]
  end; cbn [negb]; crunch.
  - eexists. eexists. eexists. split; [reflexivity |]. simp_world.
    split; [reflexivity |]. split; [reflexivity |].
    repeat split. left. repeat split.
    eexists. eexists. split; [apply pit64_pres_compute_range |].
    split; [apply ulong_range |].
    split; [| reflexivity].
    cbn [In]. do 4 right. left. reflexivity.
  - eexists. eexists. eexists. split; [reflexivity |]. simp_world.
    split; [reflexivity |]. split; [reflexivity |].
    repeat split. right. repeat split; [exact Hirq |].
    apply delete_insert_id. exact Hfresh.
Qed.

Lemma PTR_ERR_negative (p : Z) :
  IS_ERR (ulong p) = true -> - MAX_ERRNO <= PTR_ERR (ulong p) < 0.
Proof.
  unfold IS_ERR, PTR_ERR, MAX_ERRNO. intros H. apply Z.leb_le in H.
  pose proof (ulong_range p) as Hr.
  change (ulong (Z.opp 4095)) with 4294963201 in H.
  change ULONG_MAX with 4294967295 in Hr.
  change (2 ^ BITS_PER_LONG) with 4294967296.
  change (2 ^ (BITS_PER_LONG - 1)) with 2147483648.
  destruct (Z.ltb_spec (ulong p) 2147483648); lia.
Qed.

Ltac unfold_dt_init :=
  unfold pit64_dt_init, mchp_pit64_dt_init,
    pit64_dt_init_irq_unmap, pit64_dt_init_clock_put, pit64_dt_init_unmap,
    mchp_pit64_dt_init_irq_unmap, mchp_pit64_dt_init_clock_put,
    mchp_pit64_dt_init_unmap,
    of_iomap, of_clk_get, irq_of_parse_and_map, irq_dispose_mapping,
    clk_put, iounmap.

Lemma dt_init_occupied (node mode : Z) (env : kernel_env) (w : world) :
  (mode = PIT64_MODE_CLKSRC -> data_csd w <> 0) ->
  (mode = PIT64_MODE_CLKEVT -> data_ced w <> 0) ->
  (exists r evs,
     pit64_dt_init node mode env w = Done r (set_trace (trace w ++ evs) w) /\
     r < 0 /\ no_mmio evs = true) /\
  (exists r evs,
     mchp_pit64_dt_init node mode env w = Done r (set_trace (trace w ++ evs) w) /\
     r < 0 /\ no_mmio evs = true).
Proof.
  intros Hcs Hce.
  assert (Hcs' : (mode =? 0) = true -> (data_csd w =? 0) = false).
  { intros E. apply Z.eqb_eq in E. apply Z.eqb_neq. apply Hcs. exact E. }
  assert (Hce' : (mode =? 1) = true -> (data_ced w =? 0) = false).
  { intros E. apply Z.eqb_eq in E. apply Z.eqb_neq. apply Hce. exact E. }
  clear Hcs Hce.
  split.
  - unfold_dt_init. crunch.
    destruct (ulong (k_of_iomap env (trace w) node 0) =? 0); crunch.
    { eexists. eexists. split; [reflexivity |]. split; reflexivity. }
    match goal with
    | |- context [IS_ERR (ulong ?x)] =>
        destruct (IS_ERR (ulong x)) eqn:Herr;
        [pose proof (PTR_ERR_negative x Herr) |]
    end; crunch.
    { eexists. eexists. split; [reflexivity |]. split; [lia | reflexivity]. }
    change PIT64_MODE_CLKSRC with 0. change PIT64_MODE_CLKEVT with 1.
    destruct (mode =? 0).
    { crunch. rewrite Hcs' by reflexivity. cbn [negb]. crunch.
      eexists. eexists. split; [reflexivity |]. split; reflexivity. }
    destruct (mode =? 1).
    { crunch. rewrite Hce' by reflexivity. cbn [negb]. crunch.
      eexists. eexists. split; [reflexivity |]. split; reflexivity. }
    crunch. eexists. eexists. split; [reflexivity |]. split; reflexivity.
  - unfold_dt_init. crunch.
    destruct (ulong (k_of_iomap env (trace w) node 0) =? 0); crunch.
    { eexists. eexists. split; [reflexivity |]. split; reflexivity. }
    match goal with
    | |- context [IS_ERR (ulong ?x)] =>
        destruct (IS_ERR (ulong x)) eqn:Herr;
        [pose proof (PTR_ERR_negative x Herr) |]
    end; crunch.
    { eexists. eexists. split; [reflexivity |]. split; [lia | reflexivity]. }
    change MCHP_PIT64_MODE_CLKSRC with 0. change MCHP_PIT64_MODE_CLKEVT with 1.
    destruct (mode =? 0).
    { crunch. rewrite Hcs' by reflexivity. cbn [negb]. crunch.
      eexists. eexists. split; [reflexivity |]. split; reflexivity. }
    destruct (mode =? 1).
    { crunch. rewrite Hce' by reflexivity. cbn [negb]. crunch.
      eexists. eexists. split; [reflexivity |]. split; reflexivity. }
    crunch. eexists. eexists. split; [reflexivity |]. split; reflexivity.
Qed.

(** X8: With the slot of the requested mode occupied (or an unknown mode),
    both variants fail whatever the kernel answers, touch no register and
    change nothing but the trace. *)
Theorem dt_init_occupied_never_succeeds (node mode : Z) (env : kernel_env) (w : world) :
  (mode = PIT64_MODE_CLKSRC -> data_csd w <> 0) ->
  (mode = PIT64_MODE_CLKEVT -> data_ced w <> 0) ->
  (exists r evs,
     pit64_dt_init node mode env w = Done r (set_trace (trace w ++ evs) w) /\
     r < 0 /\ no_mmio evs = true) /\
  (exists r evs,
     mchp_pit64_dt_init node mode env w = Done r (set_trace (trace w ++ evs) w) /\
     r < 0 /\ no_mmio evs = true).
Proof. exact (dt_init_occupied node mode env w). Qed.

Lemma dt_init_occupied_never_succeeds_witness :
  (exists r evs,
     pit64_dt_init 5 PIT64_MODE_CLKSRC (board 32000000 0) with_clksrc =
       Done r (set_trace (trace with_clksrc ++ evs) with_clksrc) /\
     r < 0 /\ no_mmio evs = true) /\
  (exists r evs,
     mchp_pit64_dt_init 5 PIT64_MODE_CLKSRC (board 32000000 0) with_clksrc =
       Done r (set_trace (trace with_clksrc ++ evs) with_clksrc) /\
     r < 0 /\ no_mmio evs = true).
Proof.
  apply (dt_init_occupied_never_succeeds 5 PIT64_MODE_CLKSRC (board 32000000 0)
           with_clksrc).
  - intros _. vm_compute. discriminate.
  - intros H. vm_compute in H. discriminate H.
Defined.

(** What the legacy [pit64_dt_init] leaves behind, for a heap whose next
    free address is unused. *)
Lemma pit64_dt_init_post (node mode : Z) (env : kernel_env) (w : world) :
  brk w <> 0 -> cs_heap w !! brk w = None -> ce_heap w !! brk w = None ->
  exists r w',
    pit64_dt_init node mode env w = Done r w' /\
    cev_state w' = cev_state w /\
    ((r = 0 /\ mode = PIT64_MODE_CLKSRC /\ data_csd w = 0 /\
      data_csd w' = brk w /\ data_ced w' = data_ced w /\
      ce_heap w' = ce_heap w /\
      cev_cpumask w' = cev_cpumask w /\ cev_irq w' = cev_irq w /\
      exists base clk pres, base <> 0 /\ 2 <= pres <= 16 /\
        cs_heap w' = <[brk w := mk_csd (Some dev_clksrc)
                                  (mk_cd base clk ULLONG_MAX pres)]> (cs_heap w)) \/
     (r = 0 /\ mode = PIT64_MODE_CLKEVT /\ data_ced w = 0 /\
      data_ced w' = brk w /\ data_csd w' = data_csd w /\
      cs_heap w' = cs_heap w /\
      cev_cpumask w' = Some 0 /\ cev_irq w' <> 0 /\
      exists base clk rate pres, base <> 0 /\ 2 <= pres <= 16 /\
        0 <= rate <= ULONG_MAX /\
        ce_heap w' =
          <[brk w := mk_ced (Some dev_clkevt)
                       (mk_cd base clk
                          (DIV_ROUND_CLOSEST (rate / pres) (Z.pos (HZ env))) pres)]>
            (ce_heap w)) \/
     (r <> 0 /\ data_csd w' = data_csd w /\ data_ced w' = data_ced w /\
      cs_heap w' = cs_heap w /\ ce_heap w' = ce_heap w /\
      cev_cpumask w' = cev_cpumask w /\ cev_irq w' = cev_irq w)).
Proof.
  intros Hb Hcs Hce.
  unfold_dt_init. crunch.
  destruct (Z.eqb_spec (ulong (k_of_iomap env (trace w) node 0)) 0) as [Hbase | Hbase];
    crunch.
  { eexists. eexists. split; [reflexivity |]. simp_world.
    split; [reflexivity |]. right. right. repeat split. discriminate. }
  match goal with
  | |- context [IS_ERR (ulong ?x)] =>
      destruct (IS_ERR (ulong x)) eqn:Herr;
      [pose proof (PTR_ERR_negative x Herr) |]
  end; crunch.
  { eexists. eexists. split; [reflexivity |]. simp_world.
    split; [reflexivity |]. right. right. repeat split. lia. }
  change PIT64_MODE_CLKSRC with 0. change PIT64_MODE_CLKEVT with 1.
  destruct (Z.eqb_spec mode 0) as [Hm0 | Hm0].
  { crunch.
    destruct (Z.eqb_spec (data_csd w) 0) as [Hslot | Hslot]; cbn [negb]; crunch.
    2:{ eexists. eexists. split; [reflexivity |]. simp_world.
        split; [reflexivity |]. right. right. repeat split. discriminate. }
    match goal with
    | |- context [pit64_dt_init_clksrc ?b ?c ?e ?w2] =>
        destruct (pit64_dt_init_clksrc_post b c e w2)
          as (r & w' & Hrun & Hdce & Hhce & Hcm & Hci & Hst & Hcase);
        [exact Hb | exact Hcs | exact Hslot |]
    end.
    rewrite Hrun. simp_world_all.
    destruct Hcase as [(Hr & Hdcs & pres & Hpres & Hheap) | (Hr & Hdcs & Hheap)].
    - subst r. cbn [Z.eqb negb]. crunch.
      eexists. eexists. split; [reflexivity |].
      split; [exact Hst |]. left.
      repeat split; try assumption.
      eexists. eexists. eexists. split; [exact Hbase |]. split; [exact Hpres |].
      exact Hheap.
    - rewrite (proj2 (Z.eqb_neq r 0) Hr). cbn [negb]. crunch.
      eexists. eexists. split; [reflexivity |]. simp_world.
      split; [exact Hst |]. right. right.
      repeat split; try assumption. congruence. }
  destruct (Z.eqb_spec mode 1) as [Hm1 | Hm1].
  { crunch.
    destruct (Z.eqb_spec (data_ced w) 0) as [Hslot | Hslot]; cbn [negb]; crunch.
    2:{ eexists. eexists. split; [reflexivity |]. simp_world.
        split; [reflexivity |]. right. right. repeat split. discriminate. }
    match goal with
    | |- context [?x =? 0] =>
        destruct (Z.eqb_spec x 0) as [Hirq | Hirq]
    end; crunch.
    { eexists. eexists. split; [reflexivity |]. simp_world.
      split; [reflexivity |]. right. right. repeat split. discriminate. }
    match goal with
    | |- context [pit64_dt_init_clkevt ?b ?c ?i ?e ?w2] =>
        destruct (pit64_dt_init_clkevt_post b c i e w2)
          as (r & w' & evs & Hrun & _ & _ & Hdcs & Hhcs & Hst & Hcase);
        [exact Hb | exact Hce | exact Hslot |]
    end.
    rewrite Hrun. simp_world_all.
    destruct Hcase as [(Hr & Hdce & Hcm & Hci & rate & pres & Hpres & Hrate & _ & Hheap)
                      | (Hr & Hdce & Hheap & Hcm & Hci)].
    - subst r. cbn [Z.eqb negb]. crunch.
      eexists. eexists. split; [reflexivity |].
      split; [exact Hst |]. right. left.
      repeat split; try assumption.
      + rewrite Hci. exact Hirq.
      + eexists. eexists. eexists. eexists.
        split; [exact Hbase |]. split; [exact Hpres |]. split; [exact Hrate |].
        exact Hheap.
    - rewrite (proj2 (Z.eqb_neq r 0) Hr). cbn [negb]. crunch.
      eexists. eexists. split; [reflexivity |]. simp_world.
      split; [exact Hst |]. right. right.
      repeat split; try assumption. congruence. }
  crunch. eexists. eexists. split; [reflexivity |]. simp_world.
  split; [reflexivity |]. right. right. repeat split. discriminate.
Qed.

Lemma pit64_dt_init_clksrc_total (base clk : Z) (env : kernel_env) (w : world) :
  exists r w', pit64_dt_init_clksrc base clk env w = Done r w'.
Proof.
  destruct w as [t dcs dce hcs hce b cm ci st].
  unfold_init. crunch.
  destruct (k_kzalloc env t); crunch; [| eexists; eexists; reflexivity].
  destruct (b =? 0); crunch; [eexists; eexists; reflexivity |].
  match goal with
  | |- context [negb (?x =? 0)] => destruct (x =? 0)
  end; cbn [negb]; crunch; [| eexists; eexists; reflexivity].
  rewrite !pit64_pres_u8, pit64_pres_nonzero. crunch.
  rewrite pit64_reset_run. crunch.
  match goal with
  | |- context [negb (?x =? 0)] => destruct (x =? 0)
  end; cbn [negb]; crunch; eexists; eexists; reflexivity.
Qed.

Lemma pit64_dt_init_clkevt_total (base clk irq : Z) (env : kernel_env) (w : world) :
  exists r w', pit64_dt_init_clkevt base clk irq env w = Done r w'.
Proof.
  destruct w as [t dcs dce hcs hce b cm ci st].
  unfold_init. crunch.
  destruct (k_kzalloc env t); crunch; [| eexists; eexists; reflexivity].
  destruct (b =? 0); crunch; [eexists; eexists; reflexivity |].
  match goal with
  | |- context [negb (?x =? 0)] => destruct (x =? 0)
  end; cbn [negb]; crunch; [| eexists; eexists; reflexivity].
  rewrite !pit64_pres_u8, pit64_pres_nonzero. crunch.
  match goal with
  | |- context [negb (?x =? 0)] => destruct (x =? 0)
  end; cbn [negb]; crunch; eexists; eexists; reflexivity.
Qed.

(** X9: The legacy instantiation path never faults: for every device node,
    mode, environment and world, [pit64_dt_init] returns.  In particular
    its division by the computed divider is always defined and every
    pointer it follows is live. *)
Theorem legacy_dt_init_never_faults (node mode : Z) (env : kernel_env) (w : world) :
  exists r w', pit64_dt_init node mode env w = Done r w'.
Proof.
  unfold_dt_init. crunch.
  destruct (ulong (k_of_iomap env (trace w) node 0) =? 0); crunch;
    [eexists; eexists; reflexivity |].
  match goal with
  | |- context [IS_ERR ?x] => destruct (IS_ERR x)
  end; crunch; [eexists; eexists; reflexivity |].
  destruct (mode =? PIT64_MODE_CLKSRC); crunch.
  { destruct (data_csd w =? 0); cbn [negb]; crunch;
      [| eexists; eexists; reflexivity].
    match goal with
    | |- context [pit64_dt_init_clksrc ?b ?c ?e ?w2] =>
        destruct (pit64_dt_init_clksrc_total b c e w2) as (r & w' & Hrun)
    end.
    rewrite Hrun. destruct (r =? 0); cbn [negb]; crunch;
      eexists; eexists; reflexivity. }
  destruct (mode =? PIT64_MODE_CLKEVT); crunch;
    [| eexists; eexists; reflexivity].
  destruct (data_ced w =? 0); cbn [negb]; crunch;
    [| eexists; eexists; reflexivity].
  match goal with
  | |- context [?x =? 0] => destruct (x =? 0)
  end; crunch; [eexists; eexists; reflexivity |].
  match goal with
  | |- context [pit64_dt_init_clkevt ?b ?c ?i ?e ?w2] =>
      destruct (pit64_dt_init_clkevt_total b c i e w2) as (r & w' & Hrun)
  end.
  rewrite Hrun. destruct (r =? 0); cbn [negb]; crunch;
    eexists; eexists; reflexivity.
Qed.

(** X10: A failed legacy instantiation leaves no trace in memory: when
    [pit64_dt_init] returns an error, the registry, the live instances and
    the clockevent device are exactly as before the call (the next free
    address being unused and not NULL). *)
Theorem legacy_dt_init_failure_is_clean (node mode : Z) (env : kernel_env) (w : world) :
  brk w <> 0 -> cs_heap w !! brk w = None -> ce_heap w !! brk w = None ->
  exists r w',
    pit64_dt_init node mode env w = Done r w' /\
    (r <> 0 ->
     data_csd w' = data_csd w /\ data_ced w' = data_ced w /\
     cs_heap w' = cs_heap w /\ ce_heap w' = ce_heap w /\
     cev_cpumask w' = cev_cpumask w /\ cev_irq w' = cev_irq w /\
     cev_state w' = cev_state w).
Proof.
  intros Hb Hcs Hce.
  destruct (pit64_dt_init_post node mode env w Hb Hcs Hce)
    as (r & w' & Hrun & Hst & Hcase).
  exists r, w'. split; [exact Hrun |]. intros Hr.
  destruct Hcase as [(Hr0 & _) | [(Hr0 & _) | (_ & H1 & H2 & H3 & H4 & H5 & H6)]];
    [congruence | congruence |].
  repeat split; assumption.
Qed.

(** A failing run: with a clocksource already registered, a clockevent
    instantiation is allocated, its clock enabled, and [request_irq] then
    fails with -16; the instance is freed again. *)
Lemma legacy_dt_init_failure_is_clean_witness :
  let env := bench 32000000 0xe1800000 0xc0a01000 40 0 (-16) 0 true in
  exists r w',
    pit64_dt_init 5 PIT64_MODE_CLKEVT env with_clksrc = Done r w' /\
    r = -16 /\
    In (Kfree 0xc1000001) (trace w') /\
    data_csd w' = data_csd with_clksrc /\ data_ced w' = data_ced with_clksrc /\
    cs_heap w' = cs_heap with_clksrc /\ ce_heap w' = ce_heap with_clksrc /\
    cev_cpumask w' = cev_cpumask with_clksrc /\ cev_irq w' = cev_irq with_clksrc /\
    cev_state w' = cev_state with_clksrc.
Proof.
  cbv zeta.
  destruct (legacy_dt_init_failure_is_clean 5 PIT64_MODE_CLKEVT
              (bench 32000000 0xe1800000 0xc0a01000 40 0 (-16) 0 true) with_clksrc)
    as (r & w' & Hrun & Hclean).
  - vm_compute. discriminate.
  - vm_compute. reflexivity.
  - vm_compute. reflexivity.
  - assert (H0 : exists w0,
              pit64_dt_init 5 PIT64_MODE_CLKEVT
                (bench 32000000 0xe1800000 0xc0a01000 40 0 (-16) 0 true) with_clksrc
              = Done (-16) w0 /\ In (Kfree 0xc1000001) (trace w0)).
    { eexists. split; [vm_compute; reflexivity |].
      cbn [trace In]. repeat first [left; reflexivity | right]. }
    destruct H0 as (w0 & H0 & Hfree). rewrite Hrun in H0.
    injection H0 as Hr Hw. subst r w0.
    exists (-16), w'. split; [exact Hrun |]. split; [reflexivity |].
    split; [exact Hfree |].
    apply Hclean. discriminate.
Defined.

(** The instance a successful [pit64_dt_init_clksrc] stores: the divider
    is the solver's result for the rate the clock reports. *)
Lemma pit64_dt_init_clksrc_exact (base clk : Z) (env : kernel_env) (w : world) :
  brk w <> 0 -> data_csd w = 0 ->
  let rate := ulong (k_clk_get_rate env
                (trace w ++ [Kzalloc (brk w); ClkPrepareEnable clk 0]) clk) in
  let pres := pit64_pres_compute rate AT91_PIT64_CS_RATE in
  forall r w', pit64_dt_init_clksrc base clk env w = Done r w' -> r = 0 ->
    cs_heap w' = <[brk w := mk_csd (Some dev_clksrc)
                              (mk_cd base clk ULLONG_MAX pres)]> (cs_heap w).
Proof.
  destruct w as [t dcs dce hcs hce b cm ci st]. simp_world.
  intros Hb Hdcs. subst dcs. apply Z.eqb_neq in Hb. cbv zeta.
  unfold_init. crunch.
  destruct (k_kzalloc env t); crunch.
  2:{ intros r w' Hrun Hr. injection Hrun as Hr' _. subst r. vm_compute in Hr. discriminate Hr. }
  rewrite Hb. crunch.
  destruct (Z.eqb_spec (k_clk_prepare_enable env (t ++ [Kzalloc b]) clk) 0)
    as [Hen | Hen]; cbn [negb]; crunch.
  2:{ intros r w' Hrun Hr. injection Hrun as Hr' _. congruence. }
  rewrite !pit64_pres_u8, pit64_pres_nonzero. crunch.
  rewrite pit64_reset_run. crunch.
  match goal with
  | |- context [negb (?x =? 0)] => destruct (Z.eqb_spec x 0) as [Hreg | Hreg]
  end; cbn [negb]; crunch.
  - intros r w' Hrun _. injection Hrun as _ Hw. subst w'. simp_world.
    rewrite Hen. reflexivity.
  - intros r w' Hrun Hr. injection Hrun as Hr' _. congruence.
Qed.

(** The instance a successful [pit64_dt_init_clkevt] stores: the divider
    is the solver's result for the rate the clock reports and the reload
    value is the tick period at the divided rate. *)
Lemma pit64_dt_init_clkevt_exact (base clk irq : Z) (env : kernel_env) (w : world) :
  brk w <> 0 -> data_ced w = 0 ->
  let rate := ulong (k_clk_get_rate env
                (trace w ++ [Kzalloc (brk w); ClkPrepareEnable clk 0]) clk) in
  let pres := pit64_pres_compute rate AT91_PIT64_CE_RATE in
  forall r w', pit64_dt_init_clkevt base clk irq env w = Done r w' -> r = 0 ->
    cev_irq w' = irq /\
    ce_heap w' =
      <[brk w := mk_ced (Some dev_clkevt)
                   (mk_cd base clk
                      (DIV_ROUND_CLOSEST (rate / pres) (Z.pos (HZ env))) pres)]>
        (ce_heap w).
Proof.
  destruct w as [t dcs dce hcs hce b cm ci st]. simp_world.
  intros Hb Hdce. subst dce. apply Z.eqb_neq in Hb. cbv zeta.
  unfold_init. crunch.
  destruct (k_kzalloc env t); crunch.
  2:{ intros r w' Hrun Hr. injection Hrun as Hr' _. subst r. vm_compute in Hr. discriminate Hr. }
  rewrite Hb. crunch.
  destruct (Z.eqb_spec (k_clk_prepare_enable env (t ++ [Kzalloc b]) clk) 0)
    as [Hen | Hen]; cbn [negb]; crunch.
  2:{ intros r w' Hrun Hr. injection Hrun as Hr' _. congruence. }
  rewrite !pit64_pres_u8, pit64_pres_nonzero. crunch.
  match goal with
  | |- context [negb (?x =? 0)] => destruct (Z.eqb_spec x 0) as [Hirq | Hirq]
  end; cbn [negb]; crunch.
  - intros r w' Hrun _. injection Hrun as _ Hw. subst w'. simp_world.
    rewrite Hen. split; reflexivity.
  - intros r w' Hrun Hr. injection Hrun as Hr' _. congruence.
Qed.

Ltac norm_in H := repeat (rewrite <- app_assoc in H; cbn [app] in H).

(** X11: A successful legacy instantiation populates exactly the slot of the
    requested mode, which was empty, with a fresh instance at the next
    free address.  The instance holds the mapped base (not NULL), the
    clock, the divider [pit64_pres_compute] returns for the rate
    [clk_get_rate] reports, and as reload value the 64-bit maximum for
    the clocksource and the tick period [DIV_ROUND_CLOSEST (rate / pres) HZ]
    for the clockevent, for which the mapped interrupt is recorded and
    the CPU mask is CPU 0.  The other mode's slot and instances are
    untouched. *)
Theorem legacy_dt_init_success_registers (node mode : Z) (env : kernel_env) (w : world) :
  let p := brk w in
  let base := ulong (k_of_iomap env (trace w) node 0) in
  let t1 := trace w ++ [OfIomap node 0 base] in
  let clk := ulong (k_of_clk_get env t1 node 0) in
  let t2 := t1 ++ [OfClkGet node 0 clk] in
  let irq := u32 (k_irq_of_parse_and_map env t2 node 0) in
  let t3 := t2 ++ [IrqOfParseAndMap node 0 irq] in
  let rate_cs :=
    ulong (k_clk_get_rate env (t2 ++ [Kzalloc p; ClkPrepareEnable clk 0]) clk) in
  let pres_cs := pit64_pres_compute rate_cs AT91_PIT64_CS_RATE in
  let rate_ce :=
    ulong (k_clk_get_rate env (t3 ++ [Kzalloc p; ClkPrepareEnable clk 0]) clk) in
  let pres_ce := pit64_pres_compute rate_ce AT91_PIT64_CE_RATE in
  p <> 0 -> cs_heap w !! p = None -> ce_heap w !! p = None ->
  exists r w',
    pit64_dt_init node mode env w = Done r w' /\
    (r = 0 ->
     base <> 0 /\
     ((mode = PIT64_MODE_CLKSRC /\ data_csd w = 0 /\
       data_csd w' = p /\ data_ced w' = data_ced w /\
       ce_heap w' = ce_heap w /\
       cev_cpumask w' = cev_cpumask w /\ cev_irq w' = cev_irq w /\
       2 <= pres_cs <= 16 /\
       cs_heap w' = <[p := mk_csd (Some dev_clksrc)
                              (mk_cd base clk ULLONG_MAX pres_cs)]> (cs_heap w)) \/
      (mode = PIT64_MODE_CLKEVT /\ data_ced w = 0 /\
       data_ced w' = p /\ data_csd w' = data_csd w /\
       cs_heap w' = cs_heap w /\
       cev_cpumask w' = Some 0 /\ irq <> 0 /\ cev_irq w' = irq /\
       2 <= pres_ce <= 16 /\
       ce_heap w' =
         <[p := mk_ced (Some dev_clkevt)
                  (mk_cd base clk
                     (DIV_ROUND_CLOSEST (rate_ce / pres_ce) (Z.pos (HZ env)))
                     pres_ce)]> (ce_heap w)))).
Proof.
  cbv zeta. intros Hb Hcs Hce.
  unfold_dt_init. crunch.
  destruct (Z.eqb_spec (ulong (k_of_iomap env (trace w) node 0)) 0) as [Hbase | Hbase];
    crunch.
  { eexists. eexists. split; [reflexivity |].
    intros Hr. vm_compute in Hr. discriminate Hr. }
  match goal with
  | |- context [IS_ERR (ulong ?x)] =>
      destruct (IS_ERR (ulong x)) eqn:Herr;
      [pose proof (PTR_ERR_negative x Herr) |]
  end; crunch.
  { eexists. eexists. split; [reflexivity |]. intros Hr. lia. }
  change PIT64_MODE_CLKSRC with 0. change PIT64_MODE_CLKEVT with 1.
  destruct (Z.eqb_spec mode 0) as [Hm0 | Hm0].
  { crunch.
    destruct (Z.eqb_spec (data_csd w) 0) as [Hslot | Hslot]; cbn [negb]; crunch.
    2:{ eexists. eexists. split; [reflexivity |].
        intros Hr. vm_compute in Hr. discriminate Hr. }
    match goal with
    | |- context [pit64_dt_init_clksrc ?b ?c ?e ?w2] =>
        destruct (pit64_dt_init_clksrc_post b c e w2)
          as (r & w' & Hrun & Hdce & Hhce & Hcm & Hci & Hst & Hcase);
        [exact Hb | exact Hcs | exact Hslot |];
        pose proof (pit64_dt_init_clksrc_exact b c e w2 Hb Hslot r w' Hrun)
          as Hexact
    end.
    rewrite Hrun. simp_world_all.
    destruct Hcase as [(Hr & Hdcs & _) | (Hr & Hdcs & Hheap)].
    - subst r. cbn [Z.eqb negb]. crunch.
      specialize (Hexact eq_refl). norm_in Hexact.
      eexists. eexists. split; [reflexivity |]. intros _.
      split; [exact Hbase |]. left. simp_world.
      split; [exact Hm0 |]. split; [exact Hslot |].
      split; [exact Hdcs |]. split; [exact Hdce |]. split; [exact Hhce |].
      split; [exact Hcm |]. split; [exact Hci |].
      split; [apply pit64_pres_compute_range |]. exact Hexact.
    - rewrite (proj2 (Z.eqb_neq r 0) Hr). cbn [negb]. crunch.
      eexists. eexists. split; [reflexivity |]. intros Hr0. contradiction. }
  destruct (Z.eqb_spec mode 1) as [Hm1 | Hm1].
  { crunch.
    destruct (Z.eqb_spec (data_ced w) 0) as [Hslot | Hslot]; cbn [negb]; crunch.
    2:{ eexists. eexists. split; [reflexivity |].
        intros Hr. vm_compute in Hr. discriminate Hr. }
    match goal with
    | |- context [?x =? 0] =>
        destruct (Z.eqb_spec x 0) as [Hirq | Hirq]
    end; crunch.
    { eexists. eexists. split; [reflexivity |].
      intros Hr. vm_compute in Hr. discriminate Hr. }
    match goal with
    | |- context [pit64_dt_init_clkevt ?b ?c ?i ?e ?w2] =>
        destruct (pit64_dt_init_clkevt_post b c i e w2)
          as (r & w' & evs & Hrun & _ & _ & Hdcs & Hhcs & Hst & Hcase);
        [exact Hb | exact Hce | exact Hslot |];
        pose proof (pit64_dt_init_clkevt_exact b c i e w2 Hb Hslot r w' Hrun)
          as Hexact
    end.
    rewrite Hrun. simp_world_all.
    destruct Hcase as [(Hr & Hdce & Hcm & Hci & _) | (Hr & Hdce & Hheap & Hcm & Hci)].
    - subst r. cbn [Z.eqb negb]. crunch.
      destruct (Hexact eq_refl) as (_ & Hheap). norm_in Hheap.
      eexists. eexists. split; [reflexivity |]. intros _.
      split; [exact Hbase |]. right. simp_world.
      split; [exact Hm1 |]. split; [exact Hslot |].
      split; [exact Hdce |]. split; [exact Hdcs |]. split; [exact Hhcs |].
      split; [exact Hcm |]. split; [exact Hirq |]. split; [exact Hci |].
      split; [apply pit64_pres_compute_range |]. exact Hheap.
    - rewrite (proj2 (Z.eqb_neq r 0) Hr). cbn [negb]. crunch.
      eexists. eexists. split; [reflexivity |]. intros Hr0. contradiction. }
  crunch. eexists. eexists. split; [reflexivity |].
  intros Hr. vm_compute in Hr. discriminate Hr.
Qed.

(** A successful run: on the 32 MHz board the clockevent instance gets
    divider 13 and the tick period 24615 = 2461538 / 100 rounded. *)
Lemma legacy_dt_init_success_registers_witness :
  exists r w',
    pit64_dt_init 5 PIT64_MODE_CLKEVT (board 32000000 0) boot = Done r w' /\
    r = 0 /\
    data_ced w' = 0xc1000000 /\ data_csd w' = 0 /\
    cev_cpumask w' = Some 0 /\ cev_irq w' = 40 /\
    ce_heap w' =
      <[0xc1000000 := mk_ced (Some dev_clkevt)
                        (mk_cd 0xe1800000 0xc0a01000 24615 13)]> (ce_heap boot).
Proof.
  destruct (legacy_dt_init_success_registers 5 PIT64_MODE_CLKEVT (board 32000000 0) boot)
    as (r & w' & Hrun & Hsucc).
  - vm_compute. discriminate.
  - vm_compute. reflexivity.
  - vm_compute. reflexivity.
  - assert (H0 : exists w0,
              pit64_dt_init 5 PIT64_MODE_CLKEVT (board 32000000 0) boot = Done 0 w0).
    { eexists. vm_compute. reflexivity. }
    destruct H0 as (w0 & H0). rewrite Hrun in H0.
    injection H0 as Hr Hw. subst r w0.
    exists 0, w'. split; [exact Hrun |]. split; [reflexivity |].
    destruct (Hsucc eq_refl) as (_ & [(Hm & _) | (_ & _ & H1 & H2 & _ & H3 & _ & H4 & _ & H5)]).
    + discriminate Hm.
    + split; [exact H1 |]. split; [exact H2 |]. split; [exact H3 |].
      split; [exact H4 |]. exact H5.
Defined.

(** X12: At most one instance per mode: after a successful legacy
    instantiation, every further request for the same mode fails, with
    any device node and whatever the kernel answers, without a register
    access and without changing the registry or the instances. *)
Theorem legacy_dt_init_singleton (node mode : Z) (env : kernel_env) (w : world) :
  brk w <> 0 -> cs_heap w !! brk w = None -> ce_heap w !! brk w = None ->
  exists r w1,
    pit64_dt_init node mode env w = Done r w1 /\
    (r = 0 ->
     forall node2 env2,
     exists r2 evs,
       pit64_dt_init node2 mode env2 w1 =
         Done r2 (set_trace (trace w1 ++ evs) w1) /\
       r2 < 0 /\ no_mmio evs = true).
Proof.
  intros Hb Hcs Hce.
  destruct (pit64_dt_init_post node mode env w Hb Hcs Hce)
    as (r & w1 & Hrun & Hst & Hcase).
  exists r, w1. split; [exact Hrun |]. intros Hr node2 env2.
  apply (dt_init_occupied node2 mode env2 w1).
  - intros Hm.
    destruct Hcase as [(_ & _ & _ & H & _) | [(_ & Hm' & _) | (Hr0 & _)]];
      [rewrite H; exact Hb | | congruence].
    rewrite Hm in Hm'. discriminate Hm'.
  - intros Hm.
    destruct Hcase as [(_ & Hm' & _) | [(_ & _ & _ & H & _) | (Hr0 & _)]];
      [| rewrite H; exact Hb | congruence].
    rewrite Hm in Hm'. discriminate Hm'.
Qed.

Lemma legacy_dt_init_singleton_witness :
  exists r w1,
    pit64_dt_init 5 PIT64_MODE_CLKSRC (board 32000000 0) boot = Done r w1 /\
    (r = 0 ->
     forall node2 env2,
     exists r2 evs,
       pit64_dt_init node2 PIT64_MODE_CLKSRC env2 w1 =
         Done r2 (set_trace (trace w1 ++ evs) w1) /\
       r2 < 0 /\ no_mmio evs = true).
Proof.
  apply (legacy_dt_init_singleton 5 PIT64_MODE_CLKSRC (board 32000000 0) boot).
  - vm_compute. discriminate.
  - vm_compute. reflexivity.
  - vm_compute. reflexivity.
Defined.

(** X13: Acquisition failures of both variants, with what has been released
    when the error is returned.  A NULL mapping gives [-ENXIO] and nothing
    to release; an error pointer for the clock gives its error number and
    only the mapping is released (no [clk_put]); an interrupt that cannot
    be mapped gives [-EINVAL] in the legacy and [-ENODEV] in the current
    variant, and an unknown mode gives [-EINVAL], after [clk_put] and
    [iounmap].  Nothing is allocated and no register is accessed. *)
Theorem dt_init_acquisition_failures (node mode : Z) (env : kernel_env) (w : world) :
  let base := ulong (k_of_iomap env (trace w) node 0) in
  let t1 := trace w ++ [OfIomap node 0 base] in
  let clk := ulong (k_of_clk_get env t1 node 0) in
  let t2 := t1 ++ [OfClkGet node 0 clk] in
  let irq := u32 (k_irq_of_parse_and_map env t2 node 0) in
  (base = 0 ->
     pit64_dt_init node mode env w = Done (- ENXIO) (set_trace t1 w) /\
     mchp_pit64_dt_init node mode env w = Done (- ENXIO) (set_trace t1 w)) /\
  (base <> 0 -> IS_ERR clk = true ->
     pit64_dt_init node mode env w =
       Done (PTR_ERR clk) (set_trace (t2 ++ [Iounmap base]) w) /\
     mchp_pit64_dt_init node mode env w =
       Done (PTR_ERR clk) (set_trace (t2 ++ [Iounmap base]) w)) /\
  (base <> 0 -> IS_ERR clk = false -> mode = PIT64_MODE_CLKEVT ->
   data_ced w = 0 -> irq = 0 ->
     pit64_dt_init node mode env w =
       Done (- EINVAL)
            (set_trace (t2 ++ [IrqOfParseAndMap node 0 0; ClkPut clk; Iounmap base]) w) /\
     mchp_pit64_dt_init node mode env w =
       Done (- ENODEV)
            (set_trace (t2 ++ [IrqOfParseAndMap node 0 0; ClkPut clk; Iounmap base]) w)) /\
  (base <> 0 -> IS_ERR clk = false ->
   mode <> PIT64_MODE_CLKSRC -> mode <> PIT64_MODE_CLKEVT ->
     pit64_dt_init node mode env w =
       Done (- EINVAL) (set_trace (t2 ++ [ClkPut clk; Iounmap base]) w) /\
     mchp_pit64_dt_init node mode env w =
       Done (- EINVAL) (set_trace (t2 ++ [ClkPut clk; Iounmap base]) w)).
Proof.
  cbv zeta.
  split; [| split; [| split]].
  - intros Hbase. unfold_dt_init. crunch. rewrite Hbase.
    cbn [Z.eqb]. crunch. split; reflexivity.
  - intros Hbase Herr. apply Z.eqb_neq in Hbase.
    unfold_dt_init. crunch. rewrite Hbase. crunch.
    rewrite Herr. crunch. split; reflexivity.
  - intros Hbase Herr Hmode Hslot Hirq. apply Z.eqb_neq in Hbase. subst mode.
    rewrite <- ?app_assoc in Hirq. cbn [app] in Hirq.
    unfold_dt_init. crunch. rewrite Hbase. crunch.
    rewrite Herr.
    change (PIT64_MODE_CLKEVT =? PIT64_MODE_CLKSRC) with false.
    change (PIT64_MODE_CLKEVT =? PIT64_MODE_CLKEVT) with true.
    change (PIT64_MODE_CLKEVT =? MCHP_PIT64_MODE_CLKSRC) with false.
    change (PIT64_MODE_CLKEVT =? MCHP_PIT64_MODE_CLKEVT) with true.
    crunch. rewrite Hslot. cbn [Z.eqb negb]. crunch.
    rewrite Hirq. cbn [Z.eqb]. crunch. split; reflexivity.
  - intros Hbase Herr Hm0 Hm1. apply Z.eqb_neq in Hbase.
    apply Z.eqb_neq in Hm0. apply Z.eqb_neq in Hm1.
    unfold_dt_init. crunch. rewrite Hbase. crunch.
    rewrite Herr.
    change MCHP_PIT64_MODE_CLKSRC with PIT64_MODE_CLKSRC.
    change MCHP_PIT64_MODE_CLKEVT with PIT64_MODE_CLKEVT.
    rewrite Hm0, Hm1. crunch. split; reflexivity.
Qed.

Lemma dt_init_acquisition_failures_witness :
  (pit64_dt_init 5 PIT64_MODE_CLKSRC (bench 32000000 0 0xc0a01000 40 0 0 0 true) boot =
     Done (- ENXIO) (set_trace [OfIomap 5 0 0] boot) /\
   mchp_pit64_dt_init 5 PIT64_MODE_CLKSRC (bench 32000000 0 0xc0a01000 40 0 0 0 true) boot =
     Done (- ENXIO) (set_trace [OfIomap 5 0 0] boot)) /\
  (pit64_dt_init 5 PIT64_MODE_CLKSRC (bench 32000000 0xe1800000 (-2) 40 0 0 0 true) boot =
     Done (-2) (set_trace [OfIomap 5 0 0xe1800000; OfClkGet 5 0 0xfffffffe;
                           Iounmap 0xe1800000] boot) /\
   mchp_pit64_dt_init 5 PIT64_MODE_CLKSRC (bench 32000000 0xe1800000 (-2) 40 0 0 0 true) boot =
     Done (-2) (set_trace [OfIomap 5 0 0xe1800000; OfClkGet 5 0 0xfffffffe;
                           Iounmap 0xe1800000] boot)) /\
  (pit64_dt_init 5 PIT64_MODE_CLKEVT (bench 32000000 0xe1800000 0xc0a01000 0 0 0 0 true) boot =
     Done (- EINVAL)
          (set_trace [OfIomap 5 0 0xe1800000; OfClkGet 5 0 0xc0a01000;
                      IrqOfParseAndMap 5 0 0; ClkPut 0xc0a01000;
                      Iounmap 0xe1800000] boot) /\
   mchp_pit64_dt_init 5 PIT64_MODE_CLKEVT (bench 32000000 0xe1800000 0xc0a01000 0 0 0 0 true) boot =
     Done (- ENODEV)
          (set_trace [OfIomap 5 0 0xe1800000; OfClkGet 5 0 0xc0a01000;
                      IrqOfParseAndMap 5 0 0; ClkPut 0xc0a01000;
                      Iounmap 0xe1800000] boot)) /\
  (pit64_dt_init 5 7 (bench 32000000 0xe1800000 0xc0a01000 40 0 0 0 true) boot =
     Done (- EINVAL)
          (set_trace [OfIomap 5 0 0xe1800000; OfClkGet 5 0 0xc0a01000;
                      ClkPut 0xc0a01000; Iounmap 0xe1800000] boot) /\
   mchp_pit64_dt_init 5 7 (bench 32000000 0xe1800000 0xc0a01000 40 0 0 0 true) boot =
     Done (- EINVAL)
          (set_trace [OfIomap 5 0 0xe1800000; OfClkGet 5 0 0xc0a01000;
                      ClkPut 0xc0a01000; Iounmap 0xe1800000] boot)).
Proof.
  split; [| split; [| split]].
  - apply (proj1 (dt_init_acquisition_failures 5 PIT64_MODE_CLKSRC
                    (bench 32000000 0 0xc0a01000 40 0 0 0 true) boot)).
    vm_compute. reflexivity.
  - apply (proj1 (proj2 (dt_init_acquisition_failures 5 PIT64_MODE_CLKSRC
                    (bench 32000000 0xe1800000 (-2) 40 0 0 0 true) boot))).
    + vm_compute. discriminate.
    + vm_compute. reflexivity.
  - apply (proj1 (proj2 (proj2 (dt_init_acquisition_failures 5 PIT64_MODE_CLKEVT
                    (bench 32000000 0xe1800000 0xc0a01000 0 0 0 0 true) boot)))).
    + vm_compute. discriminate.
    + vm_compute. reflexivity.
    + reflexivity.
    + vm_compute. reflexivity.
    + vm_compute. reflexivity.
  - apply (proj2 (proj2 (proj2 (dt_init_acquisition_failures 5 7
                    (bench 32000000 0xe1800000 0xc0a01000 40 0 0 0 true) boot)))).
    + vm_compute. discriminate.
    + vm_compute. reflexivity.
    + vm_compute. discriminate.
    + vm_compute. discriminate.
Defined.

(** X14: Rollback order of the legacy clockevent instantiation: when
    [request_irq] fails after everything before it succeeded, the error is
    returned after the clock is disabled, the instance freed, the
    interrupt mapping disposed, the clock reference put and the registers
    unmapped, in that order; no register was accessed, and the registry
    and the heap are as before. *)
Theorem legacy_clkevt_rollback_order (node : Z) (env : kernel_env) (w : world) :
  let p := brk w in
  let base := ulong (k_of_iomap env (trace w) node 0) in
  let t1 := trace w ++ [OfIomap node 0 base] in
  let clk := ulong (k_of_clk_get env t1 node 0) in
  let t2 := t1 ++ [OfClkGet node 0 clk] in
  let irq := u32 (k_irq_of_parse_and_map env t2 node 0) in
  let t3 := t2 ++ [IrqOfParseAndMap node 0 irq] in
  let t4 := t3 ++ [Kzalloc p] in
  let t5 := t4 ++ [ClkPrepareEnable clk 0] in
  let rate := ulong (k_clk_get_rate env t5 clk) in
  let t6 := t5 ++ [ClkGetRate clk rate] in
  let ret := k_request_irq env t6 irq p in
  base <> 0 -> IS_ERR clk = false -> data_ced w = 0 -> irq <> 0 ->
  k_kzalloc env t3 = true -> p <> 0 -> ce_heap w !! p = None ->
  k_clk_prepare_enable env t4 clk = 0 -> ret <> 0 ->
  pit64_dt_init node PIT64_MODE_CLKEVT env w =
    Done ret
      (set_brk (p + 1)
         (set_trace (t6 ++ [RequestIrq irq h_pit64_interrupt p ret;
                            ClkDisableUnprepare clk; Kfree p;
                            IrqDisposeMapping irq; ClkPut clk; Iounmap base]) w)).
Proof.
  cbv zeta. intros Hbase Herr Hslot Hirq Hk Hp Hfresh Hen Hret.
  apply Z.eqb_neq in Hbase. apply Z.eqb_neq in Hirq. apply Z.eqb_neq in Hp.
  apply Z.eqb_neq in Hret.
  destruct w as [t dcs dce hcs hce b cm ci st]. simp_world_all. subst dce.
  norm_in Hirq. norm_in Hk. norm_in Hen. norm_in Hret.
  unfold_dt_init. unfold_init. crunch. rewrite Hbase. crunch. rewrite Herr.
  change (PIT64_MODE_CLKEVT =? PIT64_MODE_CLKSRC) with false.
  change (PIT64_MODE_CLKEVT =? PIT64_MODE_CLKEVT) with true.
  crunch. cbn [Z.eqb negb]. crunch. rewrite Hirq. crunch. rewrite Hk. crunch. rewrite Hp. crunch.
  rewrite Hen. cbn [Z.eqb negb]. crunch.
  rewrite !pit64_pres_u8, pit64_pres_nonzero. crunch.
  rewrite Hret. cbn [negb]. crunch. rewrite Hret. cbn [negb]. crunch.
  rewrite delete_insert_id by exact Hfresh. reflexivity.
Qed.

Lemma legacy_clkevt_rollback_order_witness :
  pit64_dt_init 5 PIT64_MODE_CLKEVT
      (bench 32000000 0xe1800000 0xc0a01000 40 0 (-16) 0 true) boot =
    Done (-16)
      (set_brk 0xc1000001
         (set_trace
            [OfIomap 5 0 0xe1800000; OfClkGet 5 0 0xc0a01000;
             IrqOfParseAndMap 5 0 40; Kzalloc 0xc1000000;
             ClkPrepareEnable 0xc0a01000 0; ClkGetRate 0xc0a01000 32000000;
             RequestIrq 40 h_pit64_interrupt 0xc1000000 (-16);
             ClkDisableUnprepare 0xc0a01000; Kfree 0xc1000000;
             IrqDisposeMapping 40; ClkPut 0xc0a01000; Iounmap 0xe1800000] boot)).
Proof.
  apply (legacy_clkevt_rollback_order 5
           (bench 32000000 0xe1800000 0xc0a01000 40 0 (-16) 0 true) boot);
    try (vm_compute; reflexivity); vm_compute; discriminate.
Defined.

(** X15: Rollback of the legacy clocksource instantiation when
    [clocksource_register_hz] fails: the timer has already been reset and
    started; the clock is then disabled, the instance freed, the clock
    reference put and the registers unmapped, without any further register
    access, so the last command the device received is START.  The
    registry slot is empty again and the heap is as before. *)
Theorem legacy_clksrc_rollback_order (node : Z) (env : kernel_env) (w : world) :
  let p := brk w in
  let base := ulong (k_of_iomap env (trace w) node 0) in
  let t1 := trace w ++ [OfIomap node 0 base] in
  let clk := ulong (k_of_clk_get env t1 node 0) in
  let t2 := t1 ++ [OfClkGet node 0 clk] in
  let t3 := t2 ++ [Kzalloc p] in
  let t4 := t3 ++ [ClkPrepareEnable clk 0] in
  let rate := ulong (k_clk_get_rate env t4 clk) in
  let pres := pit64_pres_compute rate AT91_PIT64_CS_RATE in
  let t5 := t4 ++ [ClkGetRate clk rate;
                   Writel AT91_PIT64_CR_SWRST (base + AT91_PIT64_CR);
                   Writel (Z.lor AT91_PIT64_MR_CONT (AT91_PIT64_PRESCALER (pres - 1)))
                          (base + AT91_PIT64_MR);
                   Writel 0xffffffff (base + AT91_PIT64_MSB_PR);
                   Writel 0xffffffff (base + AT91_PIT64_LSB_PR);
                   Writel AT91_PIT64_CR_START (base + AT91_PIT64_CR)] in
  let ret := k_clocksource_register_hz env t5 (rate / pres) in
  base <> 0 -> IS_ERR clk = false -> data_csd w = 0 ->
  k_kzalloc env t2 = true -> p <> 0 -> cs_heap w !! p = None ->
  k_clk_prepare_enable env t3 clk = 0 -> ret <> 0 ->
  pit64_dt_init node PIT64_MODE_CLKSRC env w =
    Done ret
      (set_brk (p + 1)
         (set_trace (t5 ++ [ClocksourceRegisterHz dev_clksrc (rate / pres) ret;
                            ClkDisableUnprepare clk; Kfree p;
                            ClkPut clk; Iounmap base]) w)).
Proof.
  cbv zeta. intros Hbase Herr Hslot Hk Hp Hfresh Hen Hret.
  apply Z.eqb_neq in Hbase. apply Z.eqb_neq in Hp. apply Z.eqb_neq in Hret.
  destruct w as [t dcs dce hcs hce b cm ci st]. simp_world_all. subst dcs.
  norm_in Hk. norm_in Hen. norm_in Hret.
  unfold_dt_init. unfold_init. crunch. rewrite Hbase. crunch. rewrite Herr.
  change (PIT64_MODE_CLKSRC =? PIT64_MODE_CLKSRC) with true.
  crunch. cbn [Z.eqb negb]. crunch. rewrite Hk. crunch. rewrite Hp. crunch.
  rewrite Hen. cbn [Z.eqb negb]. crunch.
  rewrite !pit64_pres_u8, pit64_pres_nonzero. crunch.
  rewrite pit64_reset_run. crunch.
  rewrite mode_word_u32 by (vm_compute; split; [discriminate | reflexivity]).
  change (u32 (ULLONG_MAX ≫ 32)) with 4294967295.
  change (u32 (Z.land ULLONG_MAX AT91_PIT64_LSBMASK)) with 4294967295.
  rewrite Hret. cbn [negb]. crunch. rewrite Hret. cbn [negb]. crunch.
  rewrite delete_insert_id by exact Hfresh. reflexivity.
Qed.

Lemma legacy_clksrc_rollback_order_witness :
  pit64_dt_init 5 PIT64_MODE_CLKSRC
      (bench 32000000 0xe1800000 0xc0a01000 40 0 0 (-16) true) boot =
    Done (-16)
      (set_brk 0xc1000001
         (set_trace
            [OfIomap 5 0 0xe1800000; OfClkGet 5 0 0xc0a01000;
             Kzalloc 0xc1000000;
             ClkPrepareEnable 0xc0a01000 0; ClkGetRate 0xc0a01000 32000000;
             Writel 0x100 0xe1800000; Writel 0xc01 0xe1800004;
             Writel 0xffffffff 0xe180000c; Writel 0xffffffff 0xe1800008;
             Writel 1 0xe1800000;
             ClocksourceRegisterHz dev_clksrc 2461538 (-16);
             ClkDisableUnprepare 0xc0a01000; Kfree 0xc1000000;
             ClkPut 0xc0a01000; Iounmap 0xe1800000] boot)).
Proof.
  apply (legacy_clksrc_rollback_order 5
           (bench 32000000 0xe1800000 0xc0a01000 40 0 0 (-16) true) boot);
    try (vm_compute; reflexivity); vm_compute; discriminate.
Defined.

(** ** The current variant's instantiation *)

Lemma mchp_pres_compute_overshoot (clk_rate max_rate : Z) :
  max_rate < clk_rate -> 0 <= clk_rate <= ULONG_MAX ->
  let p := mchp_pit64_pres_compute clk_rate max_rate in
  1 <= p <= 15 /\ max_rate < clk_rate / p.
Proof.
  intros Hlt Hc. cbv zeta.
  unfold mchp_pit64_pres_compute, MCHP_PRES_MAX.
  destruct (mchp_pit64_pres_loop_spec 16 clk_rate max_rate 0)
    as (Hr & Hfit & Hmin); [lia | lia | simpl; lia |].
  set (r := mchp_pit64_pres_loop 16 clk_rate max_rate 0) in *.
  assert (Hr1 : 1 <= r).
  { destruct (Z.eq_dec r 0) as [E | NE]; [| lia].
    rewrite E in Hfit. specialize (Hfit ltac:(lia)).
    change (0 + 1) with 1 in Hfit. rewrite Z.div_1_r in Hfit. lia. }
  destruct (Z.eqb_spec r 16) as [E | NE].
  - change (u16 (16 - 1)) with 15. split; [lia |].
    specialize (Hmin 14 ltac:(lia)). exact Hmin.
  - rewrite u16_small by lia. split; [lia |].
    specialize (Hmin (r - 1) ltac:(lia)).
    replace (r - 1 + 1) with r in Hmin by lia. exact Hmin.
Qed.

(** X16: When the clock is faster than the target, the value the current
    solver returns is in [1,15] and, used as the divider as its callers
    do, always leaves the rate above the target. *)
Theorem mchp_solver_overshoots (clk_rate max_rate : Z) :
  max_rate < clk_rate -> 0 <= clk_rate <= ULONG_MAX ->
  let p := mchp_pit64_pres_compute clk_rate max_rate in
  1 <= p <= 15 /\ max_rate < clk_rate / p.
Proof.
  intros Hlt Hc. exact (mchp_pres_compute_overshoot clk_rate max_rate Hlt Hc).
Qed.

Lemma mchp_solver_overshoots_witness :
  let p := mchp_pit64_pres_compute 32000000 2500000 in
  1 <= p <= 15 /\ 2500000 < 32000000 / p.
Proof.
  apply (mchp_solver_overshoots 32000000 2500000).
  - lia.
  - vm_compute. split; discriminate.
Defined.

Lemma mchp_pres_compute_range (c m : Z) :
  0 <= c <= ULONG_MAX -> 0 <= mchp_pit64_pres_compute c m <= 15.
Proof.
  intros Hc.
  unfold mchp_pit64_pres_compute, MCHP_PRES_MAX.
  destruct (mchp_pit64_pres_loop_spec 16 c m 0)
    as (Hr & _ & _); [lia | lia | simpl; lia |].
  destruct (Z.eqb_spec (mchp_pit64_pres_loop 16 c m 0) 16) as [E | NE].
  - change (u16 (16 - 1)) with 15. lia.
  - rewrite u16_small by lia. lia.
Qed.

Lemma mchp_pres_u8 (c m : Z) :
  0 <= c <= ULONG_MAX ->
  u8 (mchp_pit64_pres_compute c m) = mchp_pit64_pres_compute c m.
Proof.
  intros Hc. apply u8_small.
  pose proof (mchp_pres_compute_range c m Hc). lia.
Qed.

(** X17: The current variant's init functions fault exactly when the clock is
    not faster than the target: once the instance is allocated and the
    clock enabled, [mchp_pit64_dt_init_clksrc] and
    [mchp_pit64_dt_init_clkevt] divide by zero iff the reported rate is at
    most 2,500,000 Hz, and return otherwise. *)
Theorem mchp_init_faults_iff (base clk irq : Z) (env : kernel_env) (w : world) :
  let p := brk w in
  let rate := ulong (k_clk_get_rate env
                       (trace w ++ [Kzalloc p; ClkPrepareEnable clk 0]) clk) in
  k_kzalloc env (trace w) = true -> p <> 0 ->
  k_clk_prepare_enable env (trace w ++ [Kzalloc p]) clk = 0 ->
  ((exists w', mchp_pit64_dt_init_clksrc base clk env w = Crash DivideByZero w')
     <-> rate <= MCHP_PIT64_CS_RATE) /\
  ((exists r w', mchp_pit64_dt_init_clksrc base clk env w = Done r w')
     <-> MCHP_PIT64_CS_RATE < rate) /\
  ((exists w', mchp_pit64_dt_init_clkevt base clk irq env w = Crash DivideByZero w')
     <-> rate <= MCHP_PIT64_CE_RATE) /\
  ((exists r w', mchp_pit64_dt_init_clkevt base clk irq env w = Done r w')
     <-> MCHP_PIT64_CE_RATE < rate).
Proof.
  cbv zeta. intros Hk Hp Hen. apply Z.eqb_neq in Hp.
  destruct w as [t dcs dce hcs hce b cm ci st]. simp_world_all.
  norm_in Hen.
  set (rate := ulong (k_clk_get_rate env (t ++ [Kzalloc b; ClkPrepareEnable clk 0]) clk)).
  pose proof (ulong_range (k_clk_get_rate env (t ++ [Kzalloc b; ClkPrepareEnable clk 0]) clk))
    as Hrate. fold rate in Hrate.
  change MCHP_PIT64_CE_RATE with MCHP_PIT64_CS_RATE.
  destruct (Z_le_gt_dec rate MCHP_PIT64_CS_RATE) as [Hslow | Hfast].
  - assert (Hz : mchp_pit64_pres_compute rate MCHP_PIT64_CS_RATE = 0)
      by (apply (mchp_pres_compute_zero_iff rate MCHP_PIT64_CS_RATE Hrate); exact Hslow).
    assert (Hcs : exists w', mchp_pit64_dt_init_clksrc base clk env
                    (mk_world t dcs dce hcs hce b cm ci st) = Crash DivideByZero w').
    { unfold_init. crunch. rewrite Hk. crunch. rewrite Hp. crunch.
      rewrite Hen. cbn [Z.eqb negb]. crunch. fold rate. rewrite Hz.
      change (u8 0 =? 0) with true. crunch. eexists. reflexivity. }
    assert (Hce : exists w', mchp_pit64_dt_init_clkevt base clk irq env
                    (mk_world t dcs dce hcs hce b cm ci st) = Crash DivideByZero w').
    { unfold_init. crunch. rewrite Hk. crunch. rewrite Hp. crunch.
      rewrite Hen. cbn [Z.eqb negb]. crunch. fold rate.
      change MCHP_PIT64_CE_RATE with MCHP_PIT64_CS_RATE. rewrite Hz.
      change (u8 0 =? 0) with true. crunch. eexists. reflexivity. }
    repeat split; try (intros; assumption); try lia.
    + intros (r & w' & E). destruct Hcs as (w2 & E2). congruence.
    + intros (r & w' & E). destruct Hce as (w2 & E2). congruence.
  - destruct (mchp_pres_compute_overshoot rate MCHP_PIT64_CS_RATE ltac:(lia) Hrate)
      as (Hpr & _).
    assert (Hu8 : u8 (mchp_pit64_pres_compute rate MCHP_PIT64_CS_RATE)
                  = mchp_pit64_pres_compute rate MCHP_PIT64_CS_RATE)
      by (apply mchp_pres_u8; exact Hrate).
    assert (Hnz : (mchp_pit64_pres_compute rate MCHP_PIT64_CS_RATE =? 0) = false)
      by (apply Z.eqb_neq; lia).
    assert (Hcs : exists r w', mchp_pit64_dt_init_clksrc base clk env
                    (mk_world t dcs dce hcs hce b cm ci st) = Done r w').
    { unfold_init. crunch. rewrite Hk. crunch. rewrite Hp. crunch.
      rewrite Hen. cbn [Z.eqb negb]. crunch. fold rate.
      rewrite !Hu8, Hnz. crunch. rewrite mchp_pit64_reset_run. crunch.
      match goal with
      | |- context [negb (?x =? 0)] => destruct (x =? 0)
      end; cbn [negb]; crunch; eexists; eexists; reflexivity. }
    assert (Hce : exists r w', mchp_pit64_dt_init_clkevt base clk irq env
                    (mk_world t dcs dce hcs hce b cm ci st) = Done r w').
    { unfold_init. crunch. rewrite Hk. crunch. rewrite Hp. crunch.
      rewrite Hen. cbn [Z.eqb negb]. crunch. fold rate.
      change MCHP_PIT64_CE_RATE with MCHP_PIT64_CS_RATE.
      rewrite !Hu8, Hnz. crunch.
      match goal with
      | |- context [negb (?x =? 0)] => destruct (x =? 0)
      end; cbn [negb]; crunch; eexists; eexists; reflexivity. }
    repeat split; try (intros; assumption); try lia.
    + intros (w' & E). destruct Hcs as (r & w2 & E2). congruence.
    + intros (w' & E). destruct Hce as (r & w2 & E2). congruence.
Qed.

Lemma mchp_init_faults_iff_witness :
  ((exists w', mchp_pit64_dt_init_clksrc 0xe1800000 0xc0a01000 (board 1000000 0) boot
               = Crash DivideByZero w') <-> 1000000 <= MCHP_PIT64_CS_RATE) /\
  ((exists r w', mchp_pit64_dt_init_clksrc 0xe1800000 0xc0a01000 (board 1000000 0) boot
                 = Done r w') <-> MCHP_PIT64_CS_RATE < 1000000) /\
  ((exists w', mchp_pit64_dt_init_clkevt 0xe1800000 0xc0a01000 40 (board 1000000 0) boot
               = Crash DivideByZero w') <-> 1000000 <= MCHP_PIT64_CE_RATE) /\
  ((exists r w', mchp_pit64_dt_init_clkevt 0xe1800000 0xc0a01000 40 (board 1000000 0) boot
                 = Done r w') <-> MCHP_PIT64_CE_RATE < 1000000).
Proof.
  apply (mchp_init_faults_iff 0xe1800000 0xc0a01000 40 (board 1000000 0) boot).
  - vm_compute. reflexivity.
  - vm_compute. discriminate.
  - vm_compute. reflexivity.
Defined.

(** X18: A successful current-variant clocksource instantiation runs the timer
    above the target rate: with a clock faster than 2,500,000 Hz the
    divider [pres] stored in the instance, programmed (minus one) into the
    mode register and used for the registered frequency is the solver's
    index, and the frequency registered with the clocksource core and
    [sched_clock] exceeds the target. *)
Theorem mchp_clksrc_registers_above_target (base clk : Z) (env : kernel_env) (w : world) :
  let p := brk w in
  let t2 := trace w ++ [Kzalloc p; ClkPrepareEnable clk 0] in
  let rate := ulong (k_clk_get_rate env t2 clk) in
  let pres := mchp_pit64_pres_compute rate MCHP_PIT64_CS_RATE in
  let hz := rate / pres in
  let t3 := t2 ++ [ClkGetRate clk rate;
                   Writel MCHP_PIT64_CR_SWRST (base + MCHP_PIT64_CR);
                   Writel (Z.lor MCHP_PIT64_MR_CONT (MCHP_PIT64_PRESCALER (pres - 1)))
                          (base + MCHP_PIT64_MR);
                   Writel 0xffffffff (base + MCHP_PIT64_MSB_PR);
                   Writel 0xffffffff (base + MCHP_PIT64_LSB_PR);
                   Writel MCHP_PIT64_CR_START (base + MCHP_PIT64_CR)] in
  k_kzalloc env (trace w) = true -> p <> 0 ->
  k_clk_prepare_enable env (trace w ++ [Kzalloc p]) clk = 0 ->
  MCHP_PIT64_CS_RATE < rate ->
  k_clocksource_register_hz env t3 hz = 0 ->
  mchp_pit64_dt_init_clksrc base clk env w =
    Done 0
      (set_trace (t3 ++ [ClocksourceRegisterHz dev_mchp_clksrc hz 0;
                         SchedClockRegister 64 hz])
         (set_data_csd p (set_brk (p + 1)
            (set_cs_heap
               (<[p := mk_csd (Some dev_mchp_clksrc) (mk_cd base clk ULLONG_MAX pres)]>
                  (cs_heap w)) w)))) /\
  1 <= pres <= 15 /\ MCHP_PIT64_CS_RATE < hz.
Proof.
  cbv zeta. intros Hk Hp Hen Hfast Hreg. apply Z.eqb_neq in Hp.
  destruct w as [t dcs dce hcs hce b cm ci st]. simp_world_all.
  norm_in Hen. norm_in Hfast. norm_in Hreg.
  pose proof (ulong_range (k_clk_get_rate env (t ++ [Kzalloc b; ClkPrepareEnable clk 0]) clk))
    as Hrate.
  set (rate := ulong (k_clk_get_rate env (t ++ [Kzalloc b; ClkPrepareEnable clk 0]) clk)) in *.
  destruct (mchp_pres_compute_overshoot rate MCHP_PIT64_CS_RATE Hfast Hrate)
    as (Hpr & Hover).
  split; [| split; [exact Hpr | exact Hover]].
  assert (Hu8 : u8 (mchp_pit64_pres_compute rate MCHP_PIT64_CS_RATE)
                = mchp_pit64_pres_compute rate MCHP_PIT64_CS_RATE)
    by (apply mchp_pres_u8; exact Hrate).
  assert (Hnz : (mchp_pit64_pres_compute rate MCHP_PIT64_CS_RATE =? 0) = false)
    by (apply Z.eqb_neq; lia).
  unfold_init. crunch. rewrite Hk. crunch. rewrite Hp. crunch.
  rewrite Hen. cbn [Z.eqb negb]. crunch. fold rate.
  rewrite !Hu8, Hnz. crunch. rewrite mchp_pit64_reset_run. crunch.
  change MCHP_PIT64_PRESCALER with AT91_PIT64_PRESCALER in *.
  rewrite mode_word_u32 by (vm_compute; split; [discriminate | reflexivity]).
  change (u32 (ULLONG_MAX ≫ 32)) with 4294967295.
  change (u32 (Z.land ULLONG_MAX MCHP_PIT64_LSBMASK)) with 4294967295.
  rewrite Hreg. cbn [Z.eqb negb]. crunch. reflexivity.
Qed.

Lemma mchp_clksrc_registers_above_target_witness :
  mchp_pit64_dt_init_clksrc 0xe1800000 0xc0a01000 (board 32000000 0) boot =
    Done 0
      (set_trace
         [Kzalloc 0xc1000000; ClkPrepareEnable 0xc0a01000 0;
          ClkGetRate 0xc0a01000 32000000;
          Writel 0x100 0xe1800000; Writel 0xb01 0xe1800004;
          Writel 0xffffffff 0xe180000c; Writel 0xffffffff 0xe1800008;
          Writel 1 0xe1800000;
          ClocksourceRegisterHz dev_mchp_clksrc 2666666 0;
          SchedClockRegister 64 2666666]
         (set_data_csd 0xc1000000 (set_brk 0xc1000001
            (set_cs_heap
               (<[0xc1000000 := mk_csd (Some dev_mchp_clksrc)
                                  (mk_cd 0xe1800000 0xc0a01000 ULLONG_MAX 12)]>
                  (cs_heap boot)) boot)))) /\
  1 <= 12 <= 15 /\ MCHP_PIT64_CS_RATE < 2666666.
Proof.
  apply (mchp_clksrc_registers_above_target 0xe1800000 0xc0a01000
           (board 32000000 0) boot);
    try (vm_compute; reflexivity); vm_compute; discriminate.
Defined.

(** ** Suspend and resume, continued *)

(** X19: When the clock cannot be enabled, the resume functions of both
    variants give up before touching the device: the only event is the
    failed [clk_prepare_enable]. *)
Theorem resume_clock_failure (cedev : static_dev) (ced : pit64_clkevt_data)
    (env : kernel_env) (w : world) :
  let ret := k_clk_prepare_enable env (trace w) (cd_clk (ced_cd ced)) in
  ce_heap w !! data_ced w = Some ced -> ret <> 0 ->
  pit64_clkevt_resume cedev env w =
    Done tt (set_trace (trace w ++ [ClkPrepareEnable (cd_clk (ced_cd ced)) ret]) w) /\
  mchp_pit64_clkevt_resume cedev env w =
    Done tt (set_trace (trace w ++ [ClkPrepareEnable (cd_clk (ced_cd ced)) ret]) w).
Proof.
  cbv zeta. intros Hced Hret. apply Z.eqb_neq in Hret.
  unfold pit64_clkevt_resume, mchp_pit64_clkevt_resume, load_ced, clk_prepare_enable.
  crunch. rewrite Hced. crunch. rewrite Hret. cbn [negb]. crunch.
  split; reflexivity.
Qed.

Lemma resume_clock_failure_witness :
  pit64_clkevt_resume dev_clkevt
      (bench 32000000 0xe1800000 0xc0a01000 40 (-5) 0 0 true) (with_clkevt Periodic) =
    Done tt (set_trace [ClkPrepareEnable 0xc0a01000 (-5)] (with_clkevt Periodic)) /\
  mchp_pit64_clkevt_resume dev_clkevt
      (bench 32000000 0xe1800000 0xc0a01000 40 (-5) 0 0 true) (with_clkevt Periodic) =
    Done tt (set_trace [ClkPrepareEnable 0xc0a01000 (-5)] (with_clkevt Periodic)).
Proof.
  apply (resume_clock_failure dev_clkevt registered_ced
           (bench 32000000 0xe1800000 0xc0a01000 40 (-5) 0 0 true)
           (with_clkevt Periodic)).
  - vm_compute. reflexivity.
  - vm_compute. discriminate.
Defined.

(** X20: Suspend followed by resume, for the suspend and resume functions of
    the legacy variant and for the registered callbacks of the current
    one: the timer is reset, the clock disabled and enabled again, and
    the timer re-armed by the reset sequence with the interrupt enabled
    and the instance's own divider and reload value.  The mode is
    continuous when the recorded state is [Periodic] and single shot for
    every other state, [Shutdown] included. *)
Theorem suspend_then_resume (cedev dev : static_dev) (ced : pit64_clkevt_data)
    (env : kernel_env) (w : world) :
  let base := cd_base (ced_cd ced) in
  let clk := cd_clk (ced_cd ced) in
  let pres := cd_pres (ced_cd ced) in
  let cycles := cd_cycles (ced_cd ced) in
  let down := trace w ++ [Writel 0x100 (base + 0x00); ClkDisableUnprepare clk] in
  let mode := match cev_state w with Periodic => 1 | _ => 16 end in
  let rearmed :=
    set_trace (down ++
      [ClkPrepareEnable clk 0;
       Writel 0x100 (base + 0x00);
       Writel (mode + 256 * (pres - 1)) (base + 0x04);
       Writel (cycles / 2 ^ 32) (base + 0x0C);
       Writel (cycles mod 2 ^ 32) (base + 0x08);
       Writel 1 (base + 0x10);
       Writel 1 (base + 0x00)]) w in
  ce_heap w !! data_ced w = Some ced -> ced_clkevt ced = Some dev ->
  1 <= pres <= 16 -> 0 <= cycles < 2 ^ 64 ->
  k_clk_prepare_enable env down clk = 0 ->
  (pit64_clkevt_suspend cedev ≫= fun _ => pit64_clkevt_resume cedev) env w
    = Done tt rearmed /\
  (suspend mchp_clkevt cedev ≫= fun _ => resume mchp_clkevt cedev) env w
    = Done tt rearmed.
Proof.
  cbv zeta. intros Hced Hdev Hpres Hcyc Hen.
  assert (Hword : forall mode, mode = 1 \/ mode = 16 ->
            u32 (Z.lor mode (AT91_PIT64_PRESCALER (cd_pres (ced_cd ced) - 1)))
            = mode + 256 * (cd_pres (ced_cd ced) - 1)).
  { intros mode Hmode. rewrite mode_word_u32 by (destruct Hmode; subst; lia).
    set (pres := cd_pres (ced_cd ced)) in *.
    assert (C : pres = 1 \/ pres = 2 \/ pres = 3 \/ pres = 4 \/ pres = 5 \/
                pres = 6 \/ pres = 7 \/ pres = 8 \/ pres = 9 \/ pres = 10 \/
                pres = 11 \/ pres = 12 \/ pres = 13 \/ pres = 14 \/ pres = 15 \/
                pres = 16) by lia.
    destruct Hmode; subst mode;
      repeat (destruct C as [-> | C]; [reflexivity |]); rewrite C; reflexivity. }
  assert (Hrun :
    (pit64_clkevt_suspend cedev ≫= fun _ => pit64_clkevt_resume cedev) env w =
    Done tt (set_trace ((trace w ++
        [Writel 0x100 (cd_base (ced_cd ced) + 0x00);
         ClkDisableUnprepare (cd_clk (ced_cd ced))]) ++
      [ClkPrepareEnable (cd_clk (ced_cd ced)) 0;
       Writel 0x100 (cd_base (ced_cd ced) + 0x00);
       Writel (match cev_state w with Periodic => 1 | _ => 16 end
               + 256 * (cd_pres (ced_cd ced) - 1)) (cd_base (ced_cd ced) + 0x04);
       Writel (cd_cycles (ced_cd ced) / 2 ^ 32) (cd_base (ced_cd ced) + 0x0C);
       Writel (cd_cycles (ced_cd ced) mod 2 ^ 32) (cd_base (ced_cd ced) + 0x08);
       Writel 1 (cd_base (ced_cd ced) + 0x10);
       Writel 1 (cd_base (ced_cd ced) + 0x00)]) w)).
  { unfold pit64_clkevt_suspend, pit64_clkevt_resume, load_ced, pit64_write,
      writel_relaxed, clk_disable_unprepare, clk_prepare_enable,
      clockevent_state_periodic_of.
    crunch. repeat (rewrite Hced; crunch).
    change AT91_PIT64_CR_SWRST with 256. change AT91_PIT64_CR with 0.
    norm_in Hen. rewrite Hen. cbn [Z.eqb negb]. rewrite Hdev. crunch.
    rewrite pit64_reset_run. crunch.
    rewrite msb_of_u64, lsb_of_u64 by assumption.
    destruct (cev_state w); cbn [clockevent_state_periodic];
      [change AT91_PIT64_MR_SMOD with 16; rewrite (Hword 16) by (right; reflexivity)
      |change AT91_PIT64_MR_CONT with 1; rewrite (Hword 1) by (left; reflexivity)
      |change AT91_PIT64_MR_SMOD with 16; rewrite (Hword 16) by (right; reflexivity)];
      reflexivity. }
  split; [exact Hrun | exact Hrun].
Qed.

Lemma suspend_then_resume_witness :
  (pit64_clkevt_suspend dev_clkevt ≫= fun _ => pit64_clkevt_resume dev_clkevt)
      (board 32000000 0) (with_clkevt Shutdown) =
    Done tt (set_trace
      [Writel 0x100 0xe1800000; ClkDisableUnprepare 0xc0a01000;
       ClkPrepareEnable 0xc0a01000 0;
       Writel 0x100 0xe1800000; Writel 0xc10 0xe1800004; Writel 0 0xe180000c;
       Writel 24615 0xe1800008; Writel 1 0xe1800010; Writel 1 0xe1800000]
      (with_clkevt Shutdown)) /\
  (suspend mchp_clkevt dev_clkevt ≫= fun _ => resume mchp_clkevt dev_clkevt)
      (board 32000000 0) (with_clkevt Shutdown) =
    Done tt (set_trace
      [Writel 0x100 0xe1800000; ClkDisableUnprepare 0xc0a01000;
       ClkPrepareEnable 0xc0a01000 0;
       Writel 0x100 0xe1800000; Writel 0xc10 0xe1800004; Writel 0 0xe180000c;
       Writel 24615 0xe1800008; Writel 1 0xe1800010; Writel 1 0xe1800000]
      (with_clkevt Shutdown)).
Proof.
  apply (suspend_then_resume dev_clkevt dev_clkevt registered_ced
           (board 32000000 0) (with_clkevt Shutdown));
    try (vm_compute; reflexivity).
  - vm_compute. split; discriminate.
  - vm_compute. split; [discriminate | reflexivity].
Defined.

(** X21: The legacy clockevent instantiation is silent on the bus: whatever
    the kernel answers, [pit64_dt_init_clkevt] returns without a single
    register access (the timer is only programmed later, by the state
    callbacks), and on success the tick period stored as reload value is
    [DIV_ROUND_CLOSEST] of the rate given to the clockevents core by
    [HZ]. *)
Theorem legacy_clkevt_init_is_silent (base clk irq : Z) (env : kernel_env) (w : world) :
  brk w <> 0 -> ce_heap w !! brk w = None -> data_ced w = 0 ->
  exists r w' evs,
    pit64_dt_init_clkevt base clk irq env w = Done r w' /\
    trace w' = trace w ++ evs /\ no_mmio evs = true /\
    (r = 0 ->
     exists freq pres, 2 <= pres <= 16 /\
       In (ClockeventsConfigAndRegister dev_clkevt freq 1 ULONG_MAX) evs /\
       ce_heap w' !! brk w =
         Some (mk_ced (Some dev_clkevt)
                 (mk_cd base clk (DIV_ROUND_CLOSEST freq (Z.pos (HZ env))) pres))).
Proof.
  intros Hb Hfresh Hslot.
  destruct (pit64_dt_init_clkevt_post base clk irq env w Hb Hfresh Hslot)
    as (r & w' & evs & Hrun & Htr & Hio & _ & _ & _ & Hcase).
  exists r, w', evs. repeat split; try assumption.
  intros Hr.
  destruct Hcase as [(_ & _ & _ & _ & rate & pres & Hpres & _ & Hin & Hheap) | (Hr0 & _)];
    [| congruence].
  exists (rate / pres), pres. repeat split; try assumption; try lia.
  rewrite Hheap. apply lookup_insert_eq.
Qed.

Lemma legacy_clkevt_init_is_silent_witness :
  exists r w' evs,
    pit64_dt_init_clkevt 0xe1800000 0xc0a01000 40 (board 2500000 0) boot = Done r w' /\
    trace w' = trace boot ++ evs /\ no_mmio evs = true /\
    (r = 0 ->
     exists freq pres, 2 <= pres <= 16 /\
       In (ClockeventsConfigAndRegister dev_clkevt freq 1 ULONG_MAX) evs /\
       ce_heap w' !! brk boot =
         Some (mk_ced (Some dev_clkevt)
                 (mk_cd 0xe1800000 0xc0a01000
                    (DIV_ROUND_CLOSEST freq (Z.pos (HZ (board 2500000 0)))) pres))).
Proof.
  apply (legacy_clkevt_init_is_silent 0xe1800000 0xc0a01000 40 (board 2500000 0) boot).
  - vm_compute. discriminate.
  - vm_compute. reflexivity.
  - vm_compute. reflexivity.
Defined.

(** * The USB PHY driver *)

Lemma update_bits_read (regs : gmap Z Z) (reg mask val : Z) :
  regmap_read (update_bits regs reg mask val) reg =
  Z.lor (Z.land (regmap_read regs reg) (Z.lnot mask)) (Z.land val mask).
Proof.
  unfold update_bits. cbv zeta.
  destruct (Z.eqb_spec (Z.lor (Z.land (regmap_read regs reg) (Z.lnot mask))
                              (Z.land val mask)) (regmap_read regs reg)) as [E | NE].
  - symmetry. exact E.
  - unfold regmap_read at 1. rewrite lookup_insert_eq. reflexivity.
Qed.

Lemma update_bits_other (regs : gmap Z Z) (reg reg' mask val : Z) :
  reg <> reg' ->
  regmap_read (update_bits regs reg mask val) reg' = regmap_read regs reg'.
Proof.
  intros Hne. unfold update_bits. cbv zeta.
  destruct (_ =? _); [reflexivity |].
  unfold regmap_read. rewrite lookup_insert_ne by exact Hne. reflexivity.
Qed.

Lemma update_bits_testbit (regs : gmap Z Z) (reg mask val n : Z) :
  0 <= n ->
  Z.testbit (regmap_read (update_bits regs reg mask val) reg) n =
  if Z.testbit mask n then Z.testbit val n
  else Z.testbit (regmap_read regs reg) n.
Proof.
  intros Hn. rewrite update_bits_read.
  rewrite Z.lor_spec, !Z.land_spec, Z.lnot_spec by exact Hn.
  destruct (Z.testbit mask n), (Z.testbit val n),
    (Z.testbit (regmap_read regs reg) n); reflexivity.
Qed.

Lemma BIT_testbit (k n : Z) : 0 <= k -> 0 <= n -> Z.testbit (BIT k) n = (n =? k).
Proof.
  intros Hk Hn. unfold BIT. rewrite Z.shiftl_spec by exact Hn.
  destruct (Z.eqb_spec n k) as [-> | Hne].
  - rewrite Z.sub_diag. reflexivity.
  - destruct (Z_lt_dec n k).
    + apply Z.testbit_neg_r. lia.
    + replace (n - k) with (Z.succ (n - k - 1)) by lia.
      rewrite Z.bits_above_log2; [reflexivity | lia | simpl; lia].
Qed.

(** X22: Power cycling a PHY on port 0, 1 or 2 (reset controller present):
    [sama7g5_phy_power_off] sets the port's reset bit (bit 4 + port of
    GRSTR), [sama7g5_phy_power_on] clears it again, and in host mode also
    clears the reset bit of PHY 1, and waits 50 us.  Both return 0; every
    other bit of GRSTR, every other register and the driver data are
    unchanged. *)
Theorem phy_power_cycle (w : phy_world) :
  let port := phy_port (drvdata w) in
  let grstr (w : phy_world) := regmap_read (rstc_regs w) AT91_RSTC_GRSTR in
  (port = 0 \/ port = 1 \/ port = 2) ->
  phy_rstc (drvdata w) = Some regmap_rstc ->
  exists w1 w2,
    sama7g5_phy_power_off w = Some (0, w1) /\
    sama7g5_phy_power_on w1 = Some (0, w2) /\
    (forall n, 0 <= n ->
       Z.testbit (grstr w1) n =
         if n =? 4 + port then true else Z.testbit (grstr w) n) /\
    (forall n, 0 <= n ->
       Z.testbit (grstr w2) n =
         if (n =? 4 + port) ||
            ((phy_mode (drvdata w) =? PHY_MODE_USB_HOST) && (n =? 4))
         then false else Z.testbit (grstr w1) n) /\
    (forall reg, reg <> AT91_RSTC_GRSTR ->
       regmap_read (rstc_regs w2) reg = regmap_read (rstc_regs w) reg) /\
    sfr_regs w2 = sfr_regs w /\ drvdata w2 = drvdata w /\
    udelayed w2 = udelayed w + 50.
Proof.
  destruct w as [rr sr [rs sf md pt] ud]. cbn [drvdata phy_port phy_rstc phy_mode].
  cbv zeta. intros Hport Hrstc. subst rs.
  assert (Hbit : forall k n r, 0 <= k -> 0 <= n ->
            Z.testbit (regmap_read (update_bits r AT91_RSTC_GRSTR (BIT k) (BIT k))
                                   AT91_RSTC_GRSTR) n =
            if n =? k then true else Z.testbit (regmap_read r AT91_RSTC_GRSTR) n).
  { intros k n r Hk Hn. rewrite update_bits_testbit by exact Hn.
    rewrite BIT_testbit by assumption. destruct (n =? k); reflexivity. }
  assert (Hclr : forall k n r, 0 <= k -> 0 <= n ->
            Z.testbit (regmap_read (update_bits r AT91_RSTC_GRSTR (BIT k) 0)
                                   AT91_RSTC_GRSTR) n =
            if n =? k then false else Z.testbit (regmap_read r AT91_RSTC_GRSTR) n).
  { intros k n r Hk Hn. rewrite update_bits_testbit by exact Hn.
    rewrite BIT_testbit by assumption. rewrite Z.bits_0. reflexivity. }
  unfold sama7g5_phy_power_off, sama7g5_phy_power_on, regmap_update_bits, udelay.
  cbn [drvdata phy_port phy_rstc phy_mode rstc_regs sfr_regs udelayed mbind option_bind].
  unfold AT91_GRSTR_USB_RST1, AT91_GRSTR_USB_RST2, AT91_GRSTR_USB_RST3.
  destruct (md =? PHY_MODE_USB_HOST) eqn:Hmd;
    destruct Hport as [-> | [-> | ->]]; cbn [Z.eqb Pos.eqb];
    (eexists; eexists; split; [reflexivity |];
     cbn [drvdata phy_port phy_rstc phy_mode rstc_regs sfr_regs udelayed mbind
          option_bind Z.eqb Pos.eqb];
     rewrite Hmd;
     cbn [drvdata phy_port phy_rstc phy_mode rstc_regs sfr_regs udelayed mbind
          option_bind Z.eqb Pos.eqb];
     split; [reflexivity |];
     cbn [rstc_regs sfr_regs drvdata udelayed];
     split; [intros n Hn; rewrite Hbit by lia; reflexivity |];
     split; [intros n Hn; rewrite ?Hclr by lia; cbn [andb orb];
             repeat (destruct (_ =? _)); reflexivity |];
     split; [intros reg Hreg; rewrite ?update_bits_other by congruence; reflexivity |];
     repeat split).
Qed.

Lemma phy_power_cycle_witness :
  exists w1 w2,
    sama7g5_phy_power_off (probed_phy 1) = Some (0, w1) /\
    sama7g5_phy_power_on w1 = Some (0, w2) /\
    (forall n, 0 <= n ->
       Z.testbit (regmap_read (rstc_regs w1) AT91_RSTC_GRSTR) n =
         if n =? 4 + 1 then true
         else Z.testbit (regmap_read (rstc_regs (probed_phy 1)) AT91_RSTC_GRSTR) n) /\
    (forall n, 0 <= n ->
       Z.testbit (regmap_read (rstc_regs w2) AT91_RSTC_GRSTR) n =
         if (n =? 4 + 1) ||
            ((phy_mode (drvdata (probed_phy 1)) =? PHY_MODE_USB_HOST) && (n =? 4))
         then false else Z.testbit (regmap_read (rstc_regs w1) AT91_RSTC_GRSTR) n) /\
    (forall reg, reg <> AT91_RSTC_GRSTR ->
       regmap_read (rstc_regs w2) reg = regmap_read (rstc_regs (probed_phy 1)) reg) /\
    sfr_regs w2 = sfr_regs (probed_phy 1) /\ drvdata w2 = drvdata (probed_phy 1) /\
    udelayed w2 = udelayed (probed_phy 1) + 50.
Proof.
  apply (phy_power_cycle (probed_phy 1)).
  - right. left. reflexivity.
  - reflexivity.
Defined.

Lemma update_bits_set_idem (regs : gmap Z Z) (reg mask : Z) :
  update_bits (update_bits regs reg mask mask) reg mask mask =
  update_bits regs reg mask mask.
Proof.
  unfold update_bits at 1. cbv zeta.
  rewrite update_bits_read.
  set (x := regmap_read regs reg).
  assert (E : Z.lor (Z.land (Z.lor (Z.land x (Z.lnot mask)) (Z.land mask mask))
                            (Z.lnot mask)) (Z.land mask mask)
              = Z.lor (Z.land x (Z.lnot mask)) (Z.land mask mask)).
  { apply Z.bits_inj'. intros n Hn.
    rewrite !Z.lor_spec, !Z.land_spec, !Z.lor_spec, !Z.land_spec, Z.lnot_spec by exact Hn.
    destruct (Z.testbit x n), (Z.testbit mask n); reflexivity. }
  rewrite E, Z.eqb_refl. reflexivity.
Qed.

(** X23: [sama7g5_usb_phy_init] on port 0, 1 or 2 (SFR map present) returns 0
    and sets TXPREEMPAMPTUNE_1X (bit 23) in UTMI0R0 for port 0 and in
    UTMI0R1 for port 1 and also for port 2; every other bit and every
    other register, UTMI0R2 included, keeps its value, and a second call
    changes nothing. *)
Theorem phy_init_effect (w : phy_world) :
  let port := phy_port (drvdata w) in
  let reg := if port =? 0 then SAMA7G5_SFR_UTMI0R0 else SAMA7G5_SFR_UTMI0R1 in
  (port = 0 \/ port = 1 \/ port = 2) ->
  phy_sfr (drvdata w) = Some regmap_sfr ->
  exists w',
    sama7g5_usb_phy_init w = Some (0, w') /\
    (forall n, 0 <= n ->
       Z.testbit (regmap_read (sfr_regs w') reg) n =
         if n =? 23 then true else Z.testbit (regmap_read (sfr_regs w) reg) n) /\
    (forall r, r <> reg -> regmap_read (sfr_regs w') r = regmap_read (sfr_regs w) r) /\
    rstc_regs w' = rstc_regs w /\ drvdata w' = drvdata w /\
    udelayed w' = udelayed w /\
    sama7g5_usb_phy_init w' = Some (0, w').
Proof.
  destruct w as [rr sr [rs sf md pt] ud]. cbn [drvdata phy_port phy_sfr].
  cbv zeta. intros Hport Hsfr. subst sf.
  unfold sama7g5_usb_phy_init, regmap_update_bits.
  destruct Hport as [-> | [-> | ->]];
    cbn [drvdata phy_port phy_sfr rstc_regs sfr_regs udelayed mbind option_bind
         Z.eqb Pos.eqb];
    (eexists; split; [reflexivity |];
     cbn [rstc_regs sfr_regs drvdata udelayed];
     split; [intros n Hn; rewrite update_bits_testbit by exact Hn;
             unfold SAMA7G5_SFR_UTMI_RX_TXPREEMPAMPTUNE_1X;
             rewrite BIT_testbit by lia; destruct (n =? 23); reflexivity |];
     split; [intros r Hr; apply update_bits_other; congruence |];
     repeat split; rewrite update_bits_set_idem; reflexivity).
Qed.

Lemma phy_init_effect_witness :
  exists w',
    sama7g5_usb_phy_init (probed_phy 2) = Some (0, w') /\
    (forall n, 0 <= n ->
       Z.testbit (regmap_read (sfr_regs w') SAMA7G5_SFR_UTMI0R1) n =
         if n =? 23 then true
         else Z.testbit (regmap_read (sfr_regs (probed_phy 2)) SAMA7G5_SFR_UTMI0R1) n) /\
    (forall r, r <> SAMA7G5_SFR_UTMI0R1 ->
       regmap_read (sfr_regs w') r = regmap_read (sfr_regs (probed_phy 2)) r) /\
    rstc_regs w' = rstc_regs (probed_phy 2) /\ drvdata w' = drvdata (probed_phy 2) /\
    udelayed w' = udelayed (probed_phy 2) /\
    sama7g5_usb_phy_init w' = Some (0, w').
Proof.
  apply (phy_init_effect (probed_phy 2)).
  - right. right. reflexivity.
  - reflexivity.
Defined.



(** X25: Error paths of the PHY operations.  Without a reset controller map
    [sama7g5_phy_power_on] and [sama7g5_phy_power_off] return [-ENODEV]
    and change nothing.  On a port other than 0, 1 and 2, init and power
    off return [-ENODEV] and change nothing, and set_mode returns
    [-ENODEV] in device mode after having recorded the mode; power on
    also returns [-ENODEV], but in host mode it has by then already
    cleared the reset bit of PHY 1. *)
Theorem phy_error_paths (w : phy_world) (submode : Z) :
  let port := phy_port (drvdata w) in
  (phy_rstc (drvdata w) = None ->
     sama7g5_phy_power_on w = Some (- ENODEV, w) /\
     sama7g5_phy_power_off w = Some (- ENODEV, w)) /\
  (port <> 0 -> port <> 1 -> port <> 2 ->
     sama7g5_usb_phy_init w = Some (- ENODEV, w) /\
     sama7g5_usb_phy_set_mode PHY_MODE_USB_DEVICE submode w =
       Some (- ENODEV, set_phy_mode PHY_MODE_USB_DEVICE w) /\
     (phy_rstc (drvdata w) = Some regmap_rstc ->
        sama7g5_phy_power_off w = Some (- ENODEV, w) /\
        (phy_mode (drvdata w) <> PHY_MODE_USB_HOST ->
           sama7g5_phy_power_on w = Some (- ENODEV, w)) /\
        (phy_mode (drvdata w) = PHY_MODE_USB_HOST ->
           sama7g5_phy_power_on w =
             Some (- ENODEV,
                   mk_phy_world
                     (update_bits (rstc_regs w) AT91_RSTC_GRSTR AT91_GRSTR_USB_RST1 0)
                     (sfr_regs w) (drvdata w) (udelayed w))))).
Proof.
  destruct w as [rr sr [rs sf md pt] ud].
  cbn [drvdata phy_port phy_sfr phy_rstc phy_mode]. cbv zeta.
  split.
  - intros ->. split; reflexivity.
  - intros H0 H1 H2.
    apply Z.eqb_neq in H0. apply Z.eqb_neq in H1. apply Z.eqb_neq in H2.
    unfold sama7g5_usb_phy_init, sama7g5_usb_phy_set_mode, sama7g5_phy_power_off,
      sama7g5_phy_power_on, set_phy_mode, regmap_update_bits.
    cbn [drvdata phy_port phy_sfr phy_rstc phy_mode rstc_regs sfr_regs udelayed].
    change (0 <? PHY_MODE_USB_DEVICE) with true.
    change (PHY_MODE_USB_DEVICE =? PHY_MODE_USB_DEVICE) with true.
    cbn [drvdata phy_port phy_sfr phy_rstc phy_mode rstc_regs sfr_regs udelayed].
    rewrite H0, H1, H2.
    split; [reflexivity |]. split; [reflexivity |].
    intros ->. split; [reflexivity |]. split.
    + intros Hmd. apply Z.eqb_neq in Hmd. rewrite Hmd.
      cbn [mbind option_bind drvdata phy_port]. rewrite ?H0, ?H1, ?H2. reflexivity.
    + intros ->. change (PHY_MODE_USB_HOST =? PHY_MODE_USB_HOST) with true.
      cbn [mbind option_bind drvdata phy_port rstc_regs sfr_regs udelayed].
      rewrite ?H0, ?H1, ?H2. reflexivity.
Qed.

Lemma phy_error_paths_witness :
  (sama7g5_phy_power_on
       (mk_phy_world ∅ ∅ (mk_phy None (Some regmap_sfr) PHY_MODE_USB_HOST 0) 0) =
     Some (- ENODEV,
           mk_phy_world ∅ ∅ (mk_phy None (Some regmap_sfr) PHY_MODE_USB_HOST 0) 0) /\
   sama7g5_phy_power_off
       (mk_phy_world ∅ ∅ (mk_phy None (Some regmap_sfr) PHY_MODE_USB_HOST 0) 0) =
     Some (- ENODEV,
           mk_phy_world ∅ ∅ (mk_phy None (Some regmap_sfr) PHY_MODE_USB_HOST 0) 0)) /\
  sama7g5_usb_phy_init (probed_phy 3) = Some (- ENODEV, probed_phy 3) /\
  sama7g5_usb_phy_set_mode PHY_MODE_USB_DEVICE 1 (probed_phy 3) =
    Some (- ENODEV, set_phy_mode PHY_MODE_USB_DEVICE (probed_phy 3)).
Proof.
  split; [| split].
  - apply (proj1 (phy_error_paths
             (mk_phy_world ∅ ∅ (mk_phy None (Some regmap_sfr) PHY_MODE_USB_HOST 0) 0) 1)).
    reflexivity.
  - exact (proj1 (proj2 (phy_error_paths (probed_phy 3) 1)
             ltac:(discriminate) ltac:(discriminate) ltac:(discriminate))).
  - exact (proj1 (proj2 (proj2 (phy_error_paths (probed_phy 3) 1)
             ltac:(discriminate) ltac:(discriminate) ltac:(discriminate)))).
Defined.



Lemma testbit_u32 (x n : Z) :
  Z.testbit (u32 x) n = (n <? 32) && Z.testbit x n.
Proof. unfold u32. apply Z.testbit_mod_pow2. lia. Qed.

Lemma testbit_low_ones (k n : Z) :
  0 <= k -> Z.testbit (Z.ones k) n = (0 <=? n) && (n <? k).
Proof. intros Hk. apply Z.testbit_ones. exact Hk. Qed.

Ltac bit_decide :=
  repeat match goal with
  | |- context [?a <? ?b] =>
      first [ rewrite (proj2 (Z.ltb_lt a b)) by lia
            | rewrite (proj2 (Z.ltb_ge a b)) by lia ]
  | |- context [?a <=? ?b] =>
      first [ rewrite (proj2 (Z.leb_le a b)) by lia
            | rewrite (proj2 (Z.leb_gt a b)) by lia ]
  end.

Ltac bit_cases :=
  repeat (bit_decide;
          match goal with
          | |- context [?a <? ?b] => destruct (Z.ltb_spec a b)
          | |- context [?a <=? ?b] => destruct (Z.leb_spec a b)
          end);
  bit_decide;
  repeat first [ progress cbn [andb orb negb] | rewrite Bool.andb_false_r
               | rewrite Bool.andb_true_r | rewrite Bool.orb_false_r ];
  try reflexivity; try lia.

Ltac bits n Hn :=
  apply Z.bits_inj'; intros n Hn;
  repeat first
    [ rewrite Z.land_spec | rewrite Z.lor_spec | rewrite testbit_u32
    | rewrite Z.shiftr_spec by lia | rewrite Z.shiftl_spec by lia
    | rewrite testbit_low_ones by lia | rewrite Z.testbit_0_l ].

(** X27: [AT_XDMAC_CC_PERID] is 0 for every argument. *)
Theorem AT_XDMAC_CC_PERID_zero (i : Z) : AT_XDMAC_CC_PERID i = 0.
Proof.
  unfold AT_XDMAC_CC_PERID. change 0x7f with (Z.ones 7).
  bits n Hn. bit_cases.
  rewrite (Z.testbit_neg_r i) by lia. reflexivity.
Qed.

(** X28: the fields decoded from the Global Type Register are bounded: the
    number of channels lies between 1 and [AT_XDMAC_MAX_CHAN], the FIFO
    size is at most 0x7FF and the number of requests lies between 1 and
    64, whatever the register holds. *)
Theorem AT_XDMAC_GTYPE_fields_bounded (i : Z) :
  1 <= AT_XDMAC_NB_CH i <= AT_XDMAC_MAX_CHAN /\
  0 <= AT_XDMAC_FIFO_SZ i <= 0x7FF /\
  1 <= AT_XDMAC_NB_REQ i <= 64.
Proof.
  unfold AT_XDMAC_NB_CH, AT_XDMAC_FIFO_SZ, AT_XDMAC_NB_REQ, AT_XDMAC_MAX_CHAN.
  change (Z.land i 0x1F) with (Z.land i (Z.ones 5)).
  change (Z.land (Z.shiftr i 5) 0x7FF) with (Z.land (Z.shiftr i 5) (Z.ones 11)).
  change (Z.land (Z.shiftr i 16) 0x3F) with (Z.land (Z.shiftr i 16) (Z.ones 6)).
  rewrite !Z.land_ones by lia.
  pose proof (Z.mod_pos_bound i (2 ^ 5) ltac:(lia)).
  pose proof (Z.mod_pos_bound (Z.shiftr i 5) (2 ^ 11) ltac:(lia)).
  pose proof (Z.mod_pos_bound (Z.shiftr i 16) (2 ^ 6) ltac:(lia)).
  lia.
Qed.

(** X29: the seven priority fields of the Global Configuration Register
    occupy disjoint nibbles of a 32-bit word: from the word made of all
    seven, each field's low four bits are read back at its position, and
    the low nibble stays clear. *)
Theorem AT_XDMAC_GCFG_fields_independent (a b c d e f g : Z) :
  let w := Z.lor (AT_XDMAC_WRHP a) (Z.lor (AT_XDMAC_WRMP b) (Z.lor (AT_XDMAC_WRLP c)
           (Z.lor (AT_XDMAC_RDHP d) (Z.lor (AT_XDMAC_RDMP e)
           (Z.lor (AT_XDMAC_RDLP f) (AT_XDMAC_RDSG g)))))) in
  u32 w = w /\
  Z.land w 0xF = 0 /\
  Z.land (Z.shiftr w 4) 0xF = Z.land a 0xF /\
  Z.land (Z.shiftr w 8) 0xF = Z.land b 0xF /\
  Z.land (Z.shiftr w 12) 0xF = Z.land c 0xF /\
  Z.land (Z.shiftr w 16) 0xF = Z.land d 0xF /\
  Z.land (Z.shiftr w 20) 0xF = Z.land e 0xF /\
  Z.land (Z.shiftr w 24) 0xF = Z.land f 0xF /\
  Z.land (Z.shiftr w 28) 0xF = Z.land g 0xF.
Proof.
  cbv zeta.
  unfold AT_XDMAC_WRHP, AT_XDMAC_WRMP, AT_XDMAC_WRLP, AT_XDMAC_RDHP,
    AT_XDMAC_RDMP, AT_XDMAC_RDLP, AT_XDMAC_RDSG.
  change 0xF with (Z.ones 4).
  repeat split; bits n Hn.
  all: repeat match goal with
       | |- context [Z.testbit ?x (?n + ?k - ?k)] =>
           replace (n + k - k) with n by lia
       end.
  all: bit_cases.
Qed.

Lemma dwidth_decode (cfg i : Z) :
  Z.land cfg AT_XDMAC_CC_DWIDTH_MASK = 0 ->
  Z.shiftr (Z.land (Z.lor cfg (AT_XDMAC_CC_DWIDTH i)) AT_XDMAC_CC_DWIDTH_MASK)
           AT_XDMAC_CC_DWIDTH_OFFSET = Z.land 0x3 i.
Proof.
  intros Hcfg. rewrite Z.land_lor_distr_l, Hcfg, Z.lor_0_l.
  unfold AT_XDMAC_CC_DWIDTH, AT_XDMAC_CC_DWIDTH_MASK, AT_XDMAC_CC_DWIDTH_OFFSET.
  change 0x3 with (Z.ones 2).
  bits n Hn.
  replace (n + 11 - 11) with n by lia.
  bit_cases.
Qed.

(** X30: the data width put in a channel configuration word by
    [AT_XDMAC_CC_DWIDTH] is read back with [AT_XDMAC_CC_DWIDTH_MASK] and
    [AT_XDMAC_CC_DWIDTH_OFFSET] as the low two bits of the argument,
    whatever the other fields and flags of the word hold, in either
    configuration; and the field never leaves its mask. *)
Theorem AT_XDMAC_CC_DWIDTH_round_trip (c : bool) (flags a s d i : Z) :
  let others :=
    Z.lor (Z.land flags
             (Z.lor AT_XDMAC_CC_TYPE (Z.lor AT_XDMAC_CC_MBSIZE_MASK
             (Z.lor AT_XDMAC_CC_DSYNC (Z.lor AT_XDMAC_CC_PROT
             (Z.lor AT_XDMAC_CC_SWREQ (Z.lor AT_XDMAC_CC_MEMSET
             (Z.lor AT_XDMAC_CC_SAM_MASK (Z.lor AT_XDMAC_CC_DAM_MASK
             (Z.lor AT_XDMAC_CC_INITD (Z.lor AT_XDMAC_CC_RDIP
              AT_XDMAC_CC_WRIP)))))))))))
          (Z.lor (AT_XDMAC_CC_CSIZE a)
                 (Z.lor (AT_XDMAC_CC_SIF c s) (AT_XDMAC_CC_DIF c d))) in
  Z.shiftr (Z.land (Z.lor others (AT_XDMAC_CC_DWIDTH i)) AT_XDMAC_CC_DWIDTH_MASK)
           AT_XDMAC_CC_DWIDTH_OFFSET = Z.land 0x3 i /\
  Z.land (AT_XDMAC_CC_DWIDTH i) AT_XDMAC_CC_DWIDTH_MASK = AT_XDMAC_CC_DWIDTH i.
Proof.
  cbv zeta. split.
  - apply dwidth_decode.
    rewrite !Z.land_lor_distr_l.
    rewrite <- Z.land_assoc.
    match goal with
    | |- context [Z.land flags ?k] => change k with 0
    end.
    rewrite Z.land_0_r, Z.lor_0_l.
    assert (Hc : Z.land (AT_XDMAC_CC_CSIZE a) AT_XDMAC_CC_DWIDTH_MASK = 0).
    { unfold AT_XDMAC_CC_CSIZE, AT_XDMAC_CC_DWIDTH_MASK, AT_XDMAC_CC_DWIDTH_OFFSET.
      change 0x3 with (Z.ones 2). change 0x7 with (Z.ones 3).
      bits n Hn. bit_cases. }
    assert (Hs : Z.land (AT_XDMAC_CC_SIF c s) AT_XDMAC_CC_DWIDTH_MASK = 0).
    { unfold AT_XDMAC_CC_SIF, AT_XDMAC_CC_DWIDTH_MASK, AT_XDMAC_CC_DWIDTH_OFFSET.
      destruct c; [reflexivity |].
      change 0x3 with (Z.ones 2). change 0x1 with (Z.ones 1).
      bits n Hn. bit_cases. }
    assert (Hd : Z.land (AT_XDMAC_CC_DIF c d) AT_XDMAC_CC_DWIDTH_MASK = 0).
    { unfold AT_XDMAC_CC_DIF, AT_XDMAC_CC_DWIDTH_MASK, AT_XDMAC_CC_DWIDTH_OFFSET.
      destruct c; [reflexivity |].
      change 0x3 with (Z.ones 2). change 0x1 with (Z.ones 1).
      bits n Hn. bit_cases. }
    rewrite Hc, Hs, Hd. reflexivity.
  - unfold AT_XDMAC_CC_DWIDTH, AT_XDMAC_CC_DWIDTH_MASK, AT_XDMAC_CC_DWIDTH_OFFSET.
    change 0x3 with (Z.ones 2).
    bits n Hn. bit_cases.
    all: destruct (Z.testbit i (n - 11)); reflexivity.
Qed.
